(** * Markdown Styler: the editor workspace controller (workspace.js)

    A shallow embedding of the client-side controller of the editor page:
    the custom list-marker editors (bullet sequence, ordered digit table),
    the gather function that builds the theme, the debounced preview
    pipeline with its serial counter, and the PDF export.

    JavaScript data is modelled as the script has it:
    - a string is its sequence of UTF-16 code units ([jsstring]);
    - a Number is NaN, an infinity or a finite value; a finite double is a
      rational, and [Math.round], [Math.min], [Math.max] are exact on it;
    - a DOM element the script looks up may be missing ([option]);
    - the module-level mutable variables, the DOM and the host's timers
      and requests form one [World] that every handler takes and
      returns;
    - [Number(s)] on a string and [String(n)] on a number are parameters
      of the development. *)

From Stdlib Require Import Strings.String Strings.Ascii.
From Stdlib Require Import Bool Arith NArith ZArith QArith Qround Lia List.
From Stdlib Require DecimalNat.
Import ListNotations.

Close Scope Q_scope.

Set Implicit Arguments.

(** ** JavaScript strings *)

Module JS.

Definition codeunit := N.
Definition jsstring := list codeunit.

(** An ASCII literal of the script, as code units. *)
Definition lit (s : string) : jsstring :=
  List.map N_of_ascii (list_ascii_of_string s).

(** ECMAScript WhiteSpace and LineTerminator code points, the ones
    [String.prototype.trim] removes. *)
Definition isWhiteSpace (c : codeunit) : bool :=
  ((c =? 9) || (c =? 10) || (c =? 11) || (c =? 12) || (c =? 13) || (c =? 32)
   || (c =? 160) || (c =? 5760) || ((8192 <=? c) && (c <=? 8202))
   || (c =? 8232) || (c =? 8233) || (c =? 8239) || (c =? 8287)
   || (c =? 12288) || (c =? 65279))%N.

Fixpoint trimStart (s : jsstring) : jsstring :=
  match s with
  | [] => []
  | c :: rest => if isWhiteSpace c then trimStart rest else s
  end.

Definition trimEnd (s : jsstring) : jsstring := rev (trimStart (rev s)).

(** [s.trim()] *)
Definition trim (s : jsstring) : jsstring := trimEnd (trimStart s).

(** A string is blank when it holds white space only (or nothing). *)
Definition blank (s : jsstring) : bool := forallb isWhiteSpace s.

(** A string in a boolean position: true unless empty. *)
Definition nonEmpty (s : jsstring) : bool :=
  match s with [] => false | _ :: _ => true end.

(** [s ?? ""] *)
Definition orEmpty (s : option jsstring) : jsstring :=
  match s with
  | Some v => v
  | None => []
  end.

Definition digitUnit (d : N) : codeunit := (48 + d)%N.

Fixpoint uintUnits (u : Decimal.uint) : jsstring :=
  match u with
  | Decimal.Nil => []
  | Decimal.D0 r => digitUnit 0 :: uintUnits r
  | Decimal.D1 r => digitUnit 1 :: uintUnits r
  | Decimal.D2 r => digitUnit 2 :: uintUnits r
  | Decimal.D3 r => digitUnit 3 :: uintUnits r
  | Decimal.D4 r => digitUnit 4 :: uintUnits r
  | Decimal.D5 r => digitUnit 5 :: uintUnits r
  | Decimal.D6 r => digitUnit 6 :: uintUnits r
  | Decimal.D7 r => digitUnit 7 :: uintUnits r
  | Decimal.D8 r => digitUnit 8 :: uintUnits r
  | Decimal.D9 r => digitUnit 9 :: uintUnits r
  end.

(** [String(i)] for a loop index or an HTTP status: the decimal numeral of
    a non-negative integer. *)
Definition String_nat (i : nat) : jsstring := uintUnits (Nat.to_uint i).

(** What an [<input type="text">] keeps of a string assigned to its
    [value]: the string without its line feeds and carriage returns. *)
Definition stripNewlines (s : jsstring) : jsstring :=
  filter (fun c => negb ((c =? 10) || (c =? 13))%N) s.

(** [s.replace(/[:.]/g, "-")] *)
Definition replaceColonDot (s : jsstring) : jsstring :=
  List.map (fun c => if ((c =? 58) || (c =? 46))%N then 45%N else c) s.

(** ** JavaScript numbers *)

Inductive number : Type :=
| NaN
| PosInf
| NegInf
| Fin (q : Q).

Definition ofZ (z : Z) : number := Fin (inject_Z z).
Definition ofNat (n : nat) : number := ofZ (Z.of_nat n).

Definition Number_isFinite (n : number) : bool :=
  match n with Fin _ => true | _ => false end.

Definition Number_isNaN (n : number) : bool :=
  match n with NaN => true | _ => false end.

(** [Math.round]: the nearest integer, a tie going up. *)
Definition Math_round (n : number) : number :=
  match n with
  | Fin q => Fin (inject_Z (Qfloor (q + (1 # 2))%Q))
  | _ => n
  end.

Definition Math_max (a b : number) : number :=
  match a, b with
  | NaN, _ | _, NaN => NaN
  | PosInf, _ | _, PosInf => PosInf
  | NegInf, x | x, NegInf => x
  | Fin p, Fin q => if Qle_bool p q then b else a
  end.

Definition Math_min (a b : number) : number :=
  match a, b with
  | NaN, _ | _, NaN => NaN
  | NegInf, _ | _, NegInf => NegInf
  | PosInf, x | x, PosInf => x
  | Fin p, Fin q => if Qle_bool p q then a else b
  end.

(** How often [for (let i = 0; i < n; i += 1)] runs its body: the count of
    naturals below [n]. For [+Infinity] the loop does not end and the
    count given here, 0, stands for nothing: the script only passes a
    sanitized base, which is finite, and what is stated of a loop over any
    other number leaves [+Infinity] out. *)
Definition loopCount (n : number) : nat :=
  match n with
  | Fin q => Z.to_nat (Qceiling q)
  | _ => 0
  end.

(** The loop [for (let i = 0; i < count; i += 1) acc = body(i, acc)],
    started at index [i]. *)
Fixpoint forIndex (A : Type) (body : nat -> A -> A) (i count : nat) (acc : A) : A :=
  match count with
  | O => acc
  | S c => forIndex body (S i) c (body i acc)
  end.

(** A number in a boolean position: false for NaN and zero. *)
Definition numberTruthy (n : number) : bool :=
  match n with
  | NaN => false
  | Fin q => negb (Qnum q =? 0)%Z
  | _ => true
  end.

(** ** JavaScript values, as far as the script meets them

    [VObj p] is an object or an array of parsed JSON (the default theme,
    the body of a response); [p] is the string its conversion to a
    primitive yields. *)
Inductive jsvalue : Type :=
| VUndefined
| VNull
| VBool (b : bool)
| VNum (n : number)
| VStr (s : jsstring)
| VObj (prim : jsstring).

Definition truthy (v : jsvalue) : bool :=
  match v with
  | VUndefined | VNull => false
  | VBool b => b
  | VNum n => numberTruthy n
  | VStr s => nonEmpty s
  | VObj _ => true
  end.

(** [a || b] *)
Definition js_or (a b : jsvalue) : jsvalue := if truthy a then a else b.

(** [a ?? b] *)
Definition js_nullish (a b : jsvalue) : jsvalue :=
  match a with
  | VUndefined | VNull => b
  | _ => a
  end.

End JS.

Import JS.

(** ** The default theme

    [document.body.dataset.defaultTheme], parsed: every key may be absent
    ([VUndefined]) or hold any JSON value; the two sequences are [Some]
    when the key holds an array (of strings). *)
Record DefaultTheme : Type := {
  d_title : jsvalue;
  d_fontFamily : jsvalue;
  d_baseFontSize : jsvalue;
  d_backgroundColor : jsvalue;
  d_textColor : jsvalue;
  d_headingColor : jsvalue;
  d_accentColor : jsvalue;
  d_blockquoteBackground : jsvalue;
  d_blockquoteBorderColor : jsvalue;
  d_blockquoteTextColor : jsvalue;
  d_codeBackground : jsvalue;
  d_codeTextColor : jsvalue;
  d_listStyle : jsvalue;
  d_orderedListStyle : jsvalue;
  d_lineHeight : jsvalue;
  d_cardShadow : jsvalue;
  d_customBulletSequence : option (list jsstring);
  d_customOrderedDigits : option (list jsstring);
  d_customOrderedBase : jsvalue;
  d_orderedMarkerPrefix : jsvalue;
  d_orderedMarkerSuffix : jsvalue
}.

(** ** The theme the gather function builds *)
Record Theme : Type := {
  title : jsstring;
  fontFamily : jsvalue;
  baseFontSize : jsvalue;
  backgroundColor : jsvalue;
  textColor : jsvalue;
  headingColor : jsvalue;
  accentColor : jsvalue;
  blockquoteBackground : jsvalue;
  blockquoteBorderColor : jsvalue;
  blockquoteTextColor : jsvalue;
  codeBackground : jsvalue;
  codeTextColor : jsvalue;
  listStyle : jsvalue;
  orderedListStyle : jsvalue;
  pagePadding : jsstring;
  lineHeight : jsvalue;
  cardShadow : jsvalue;
  useCustomBullets : bool;
  customBulletSequence : list jsstring;
  useCustomOrdered : bool;
  customOrderedDigits : list jsstring;
  customOrderedBase : nat;
  orderedMarkerPrefix : jsvalue;
  orderedMarkerSuffix : jsvalue
}.

(** [state.theme]: the clone of the default theme made at load, or a
    gathered theme. *)
Inductive ThemeSlot : Type :=
| DefaultClone
| Gathered (t : Theme).

(** ** The page's elements

    Each entry of [elements] is [None] when the lookup found no element.
    A plain control ([elements.title], [elements.font], ...,
    [elements.markdown]) is its [value], looked up by name in
    [el_control]; a row of an editor carries what the script sets on
    it. *)

(** A row of the bullet editor: a text input and its remove button. *)
Record BulletRow : Type := {
  b_value : jsstring;
  b_inputDisabled : bool;
  b_removeDisabled : bool
}.

(** A row of the ordered-digit editor: the index label and a text input. *)
Record OrderedRow : Type := {
  o_index : jsstring;
  o_placeholder : jsstring;
  o_value : jsstring;
  o_disabled : bool
}.

Record Field : Type := {
  f_value : jsstring;
  f_disabled : bool
}.

(** The status line: its text and the two classes the script toggles. *)
Record Status : Type := {
  s_textContent : jsstring;
  s_isLoading : bool;
  s_isError : bool
}.

(** The variants of the status line (["idle"], ["loading"], ["error"]). *)
Inductive Variant : Type := Idle | Loading | Error.

(** The plain controls: those whose "input" listener only schedules a
    preview. *)
Inductive Control : Type :=
| CTitle | CFont | CFontSize | CBackground | CTextColor | CHeadingColor
| CAccentColor | CBlockquoteBg | CBlockquoteBorder | CCodeBg | CCodeText
| CListStyle | COrderedListStyle | CPagePadding | CLineHeight | CShadow
| CMarkdown.

Definition Control_eq_dec : forall a b : Control, {a = b} + {a <> b}.
Proof. decide equality. Defined.

Record Elements : Type := {
  el_control : Control -> option jsstring; (* the value of each plain control *)
  el_previewStyle : option jsstring;      (* textContent *)
  el_previewOutput : option jsstring;     (* innerHTML *)
  el_previewStatus : option Status;
  el_btnPreview : bool;                   (* the button exists *)
  el_btnDownload : option bool;           (* carries the disabled attribute *)
  el_toggleCustomBullets : option bool;   (* checked *)
  el_bulletEditor : option bool;          (* aria-disabled is "true" *)
  el_bulletSequenceList : option (list BulletRow);
  el_btnAddBullet : option bool;          (* disabled *)
  el_toggleCustomOrdered : option bool;   (* checked *)
  el_orderedEditor : option bool;         (* aria-disabled is "true" *)
  el_orderedSequenceList : option (list OrderedRow);
  el_customOrderedBase : option Field;
  el_customOrderedPrefix : option Field;
  el_customOrderedSuffix : option Field;
  el_loadingTemplate : bool               (* the template has a first child *)
}.

(** [root.dataset.previewUrl] and [root.dataset.pdfUrl]. *)
Record Urls : Type := {
  preview : option jsstring;
  pdf : option jsstring
}.

(** The script's messages that are not ASCII, as code units. *)
Definition MSG_RENDERING : jsstring :=        (* 렌더링 중... *)
  [47116; 45908; 47553; 32; 51473; 46; 46; 46]%N.
Definition MSG_APPLIED : jsstring :=          (* 실시간 반영 완료 *)
  [49892; 49884; 44036; 32; 48152; 50689; 32; 50756; 47308]%N.
Definition MSG_PREVIEW_FAILED : jsstring :=   (* 미리보기 요청 실패 ( *)
  [48120; 47532; 48372; 44592; 32; 50836; 52397; 32; 49892; 54056; 32; 40]%N.
Definition MSG_PREVIEW_ERROR : jsstring :=    (* 미리보기 오류 *)
  [48120; 47532; 48372; 44592; 32; 50724; 47448]%N.
Definition MSG_PDF_FAILED : jsstring :=       (* PDF 생성 실패 ( *)
  [80; 68; 70; 32; 49373; 49457; 32; 49892; 54056; 32; 40]%N.
Definition MSG_PDF_ERROR : jsstring :=        (* PDF를 생성할 수 없습니다. *)
  [80; 68; 70; 47484; 32; 49373; 49457; 54624; 32; 49688; 32; 50630; 49845;
   45768; 45796; 46]%N.
Definition TITLE_SUFFIX : jsstring :=         (* " · Markdown Styler" *)
  [32; 183; 32; 77; 97; 114; 107; 100; 111; 119; 110; 32; 83; 116; 121; 108;
   101; 114]%N.

(** ** What the two endpoints answer *)

(** The body of a successful preview response, [{html, css}]. *)
Record PreviewData : Type := {
  html : option jsstring;
  css : option jsstring
}.

Definition Blob := list N.

(** What [await response.json().catch(() => ({}))] leaves in [payload],
    as far as [payload.error] looks at it.
    - [NullBody m]: the body is the JSON value [null], so that reading
      [payload.error] throws a TypeError; [m] is the message the engine
      gives it;
    - [Member e]: any other case, [e] being the value of [payload.error]:
      the [error] member of the body, and [undefined] when the body has
      no such member (an object without the key, a number, a string, a
      boolean, an array) or does not parse (the [catch] gives [{}]). *)
Inductive Payload : Type :=
| NullBody (message : jsstring)
| Member (error : jsvalue).

(** How a [fetch] settles, as far as the script looks at it. [A] is what
    a successful response carries.
    - [NetworkFailure m]: [fetch] rejects with an error whose message is [m];
    - [HttpFailure st p]: the response is not ok, with status [st] and
      the payload [p];
    - [HttpSuccess d]: the response is ok and its body reads as [d];
    - [BodyFailure m]: the response is ok and reading its body rejects
      with message [m]. *)
Inductive Outcome (A : Type) : Type :=
| NetworkFailure (message : jsstring)
| HttpFailure (status : nat) (payload : Payload)
| HttpSuccess (data : A)
| BodyFailure (message : jsstring).

Arguments NetworkFailure {A} message.
Arguments HttpFailure {A} status payload.
Arguments HttpSuccess {A} data.
Arguments BodyFailure {A} message.

(** A POST the script issued: the JSON body and the anti-forgery header. *)
Record Request : Type := {
  r_url : jsstring;
  r_csrfToken : jsstring;
  r_markdown : jsstring;
  r_theme : Theme;
  r_title : jsstring
}.

(** ** The script's variables, the document and the host

    One value holds what the handlers read and write: the [elements], the
    module-level variables ([state], [previewTimer],
    [activePreviewSerial]), the parts of the document outside [elements]
    that the script touches, and the host's side: its clock and timer
    table, the requests sent and still unanswered, the alerts shown and
    the downloads started. *)
Record World : Type := {
  elements : Elements;
  state_theme : ThemeSlot;                (* state.theme *)
  state_isPreviewDirty : bool;            (* state.isPreviewDirty *)
  document_title : jsstring;
  overlay : bool;                         (* the document has a .loading-overlay *)
  csrfInput : option jsstring;            (* the hidden token input's value *)
  previewTimer : option nat;              (* undefined, or a timer id *)
  activePreviewSerial : nat;
  clock : nat;                            (* milliseconds *)
  timers : list (nat * nat);              (* pending timeouts: (id, due time) *)
  nextTimerId : nat;
  previewFetches : list (nat * Request);  (* sent, newest first, with the serial captured *)
  previewWaiting : list nat;              (* serials whose fetch has not settled *)
  exportFetches : list Request;           (* sent, newest first *)
  exportWaiting : list (nat * bool);      (* unsettled exports: (ticket, its overlay is an element) *)
  alerts : list jsstring;                 (* newest first *)
  downloads : list (jsstring * Blob)      (* (file name, content), newest first *)
}.

(** Field updates. *)

Definition set_el_control (v : Control -> option jsstring) (r : Elements) : Elements :=
  Build_Elements v (el_previewStyle r) (el_previewOutput r) (el_previewStatus
  r) (el_btnPreview r) (el_btnDownload r) (el_toggleCustomBullets r)
  (el_bulletEditor r) (el_bulletSequenceList r) (el_btnAddBullet r)
  (el_toggleCustomOrdered r) (el_orderedEditor r) (el_orderedSequenceList r)
  (el_customOrderedBase r) (el_customOrderedPrefix r) (el_customOrderedSuffix
  r) (el_loadingTemplate r).

Definition set_el_previewStyle (v : option jsstring) (r : Elements) : Elements :=
  Build_Elements (el_control r) v (el_previewOutput r) (el_previewStatus r)
  (el_btnPreview r) (el_btnDownload r) (el_toggleCustomBullets r)
  (el_bulletEditor r) (el_bulletSequenceList r) (el_btnAddBullet r)
  (el_toggleCustomOrdered r) (el_orderedEditor r) (el_orderedSequenceList r)
  (el_customOrderedBase r) (el_customOrderedPrefix r) (el_customOrderedSuffix
  r) (el_loadingTemplate r).

Definition set_el_previewOutput (v : option jsstring) (r : Elements) : Elements :=
  Build_Elements (el_control r) (el_previewStyle r) v (el_previewStatus r)
  (el_btnPreview r) (el_btnDownload r) (el_toggleCustomBullets r)
  (el_bulletEditor r) (el_bulletSequenceList r) (el_btnAddBullet r)
  (el_toggleCustomOrdered r) (el_orderedEditor r) (el_orderedSequenceList r)
  (el_customOrderedBase r) (el_customOrderedPrefix r) (el_customOrderedSuffix
  r) (el_loadingTemplate r).

Definition set_el_previewStatus (v : option Status) (r : Elements) : Elements :=
  Build_Elements (el_control r) (el_previewStyle r) (el_previewOutput r) v
  (el_btnPreview r) (el_btnDownload r) (el_toggleCustomBullets r)
  (el_bulletEditor r) (el_bulletSequenceList r) (el_btnAddBullet r)
  (el_toggleCustomOrdered r) (el_orderedEditor r) (el_orderedSequenceList r)
  (el_customOrderedBase r) (el_customOrderedPrefix r) (el_customOrderedSuffix
  r) (el_loadingTemplate r).

Definition set_el_btnDownload (v : option bool) (r : Elements) : Elements :=
  Build_Elements (el_control r) (el_previewStyle r) (el_previewOutput r)
  (el_previewStatus r) (el_btnPreview r) v (el_toggleCustomBullets r)
  (el_bulletEditor r) (el_bulletSequenceList r) (el_btnAddBullet r)
  (el_toggleCustomOrdered r) (el_orderedEditor r) (el_orderedSequenceList r)
  (el_customOrderedBase r) (el_customOrderedPrefix r) (el_customOrderedSuffix
  r) (el_loadingTemplate r).

Definition set_el_toggleCustomBullets (v : option bool) (r : Elements) : Elements :=
  Build_Elements (el_control r) (el_previewStyle r) (el_previewOutput r)
  (el_previewStatus r) (el_btnPreview r) (el_btnDownload r) v (el_bulletEditor
  r) (el_bulletSequenceList r) (el_btnAddBullet r) (el_toggleCustomOrdered r)
  (el_orderedEditor r) (el_orderedSequenceList r) (el_customOrderedBase r)
  (el_customOrderedPrefix r) (el_customOrderedSuffix r) (el_loadingTemplate
  r).

Definition set_el_bulletEditor (v : option bool) (r : Elements) : Elements :=
  Build_Elements (el_control r) (el_previewStyle r) (el_previewOutput r)
  (el_previewStatus r) (el_btnPreview r) (el_btnDownload r)
  (el_toggleCustomBullets r) v (el_bulletSequenceList r) (el_btnAddBullet r)
  (el_toggleCustomOrdered r) (el_orderedEditor r) (el_orderedSequenceList r)
  (el_customOrderedBase r) (el_customOrderedPrefix r) (el_customOrderedSuffix
  r) (el_loadingTemplate r).

Definition set_el_bulletSequenceList (v : option (list BulletRow)) (r : Elements) : Elements :=
  Build_Elements (el_control r) (el_previewStyle r) (el_previewOutput r)
  (el_previewStatus r) (el_btnPreview r) (el_btnDownload r)
  (el_toggleCustomBullets r) (el_bulletEditor r) v (el_btnAddBullet r)
  (el_toggleCustomOrdered r) (el_orderedEditor r) (el_orderedSequenceList r)
  (el_customOrderedBase r) (el_customOrderedPrefix r) (el_customOrderedSuffix
  r) (el_loadingTemplate r).

Definition set_el_btnAddBullet (v : option bool) (r : Elements) : Elements :=
  Build_Elements (el_control r) (el_previewStyle r) (el_previewOutput r)
  (el_previewStatus r) (el_btnPreview r) (el_btnDownload r)
  (el_toggleCustomBullets r) (el_bulletEditor r) (el_bulletSequenceList r) v
  (el_toggleCustomOrdered r) (el_orderedEditor r) (el_orderedSequenceList r)
  (el_customOrderedBase r) (el_customOrderedPrefix r) (el_customOrderedSuffix
  r) (el_loadingTemplate r).

Definition set_el_toggleCustomOrdered (v : option bool) (r : Elements) : Elements :=
  Build_Elements (el_control r) (el_previewStyle r) (el_previewOutput r)
  (el_previewStatus r) (el_btnPreview r) (el_btnDownload r)
  (el_toggleCustomBullets r) (el_bulletEditor r) (el_bulletSequenceList r)
  (el_btnAddBullet r) v (el_orderedEditor r) (el_orderedSequenceList r)
  (el_customOrderedBase r) (el_customOrderedPrefix r) (el_customOrderedSuffix
  r) (el_loadingTemplate r).

Definition set_el_orderedEditor (v : option bool) (r : Elements) : Elements :=
  Build_Elements (el_control r) (el_previewStyle r) (el_previewOutput r)
  (el_previewStatus r) (el_btnPreview r) (el_btnDownload r)
  (el_toggleCustomBullets r) (el_bulletEditor r) (el_bulletSequenceList r)
  (el_btnAddBullet r) (el_toggleCustomOrdered r) v (el_orderedSequenceList r)
  (el_customOrderedBase r) (el_customOrderedPrefix r) (el_customOrderedSuffix
  r) (el_loadingTemplate r).

Definition set_el_orderedSequenceList (v : option (list OrderedRow)) (r : Elements) : Elements :=
  Build_Elements (el_control r) (el_previewStyle r) (el_previewOutput r)
  (el_previewStatus r) (el_btnPreview r) (el_btnDownload r)
  (el_toggleCustomBullets r) (el_bulletEditor r) (el_bulletSequenceList r)
  (el_btnAddBullet r) (el_toggleCustomOrdered r) (el_orderedEditor r) v
  (el_customOrderedBase r) (el_customOrderedPrefix r) (el_customOrderedSuffix
  r) (el_loadingTemplate r).

Definition set_el_customOrderedBase (v : option Field) (r : Elements) : Elements :=
  Build_Elements (el_control r) (el_previewStyle r) (el_previewOutput r)
  (el_previewStatus r) (el_btnPreview r) (el_btnDownload r)
  (el_toggleCustomBullets r) (el_bulletEditor r) (el_bulletSequenceList r)
  (el_btnAddBullet r) (el_toggleCustomOrdered r) (el_orderedEditor r)
  (el_orderedSequenceList r) v (el_customOrderedPrefix r)
  (el_customOrderedSuffix r) (el_loadingTemplate r).

Definition set_el_customOrderedPrefix (v : option Field) (r : Elements) : Elements :=
  Build_Elements (el_control r) (el_previewStyle r) (el_previewOutput r)
  (el_previewStatus r) (el_btnPreview r) (el_btnDownload r)
  (el_toggleCustomBullets r) (el_bulletEditor r) (el_bulletSequenceList r)
  (el_btnAddBullet r) (el_toggleCustomOrdered r) (el_orderedEditor r)
  (el_orderedSequenceList r) (el_customOrderedBase r) v
  (el_customOrderedSuffix r) (el_loadingTemplate r).

Definition set_el_customOrderedSuffix (v : option Field) (r : Elements) : Elements :=
  Build_Elements (el_control r) (el_previewStyle r) (el_previewOutput r)
  (el_previewStatus r) (el_btnPreview r) (el_btnDownload r)
  (el_toggleCustomBullets r) (el_bulletEditor r) (el_bulletSequenceList r)
  (el_btnAddBullet r) (el_toggleCustomOrdered r) (el_orderedEditor r)
  (el_orderedSequenceList r) (el_customOrderedBase r) (el_customOrderedPrefix
  r) v (el_loadingTemplate r).

Definition set_elements (v : Elements) (r : World) : World :=
  Build_World v (state_theme r) (state_isPreviewDirty r) (document_title r)
  (overlay r) (csrfInput r) (previewTimer r) (activePreviewSerial r) (clock r)
  (timers r) (nextTimerId r) (previewFetches r) (previewWaiting r)
  (exportFetches r) (exportWaiting r) (alerts r) (downloads r).

Definition set_state_theme (v : ThemeSlot) (r : World) : World :=
  Build_World (elements r) v (state_isPreviewDirty r) (document_title r)
  (overlay r) (csrfInput r) (previewTimer r) (activePreviewSerial r) (clock r)
  (timers r) (nextTimerId r) (previewFetches r) (previewWaiting r)
  (exportFetches r) (exportWaiting r) (alerts r) (downloads r).

Definition set_state_isPreviewDirty (v : bool) (r : World) : World :=
  Build_World (elements r) (state_theme r) v (document_title r) (overlay r)
  (csrfInput r) (previewTimer r) (activePreviewSerial r) (clock r) (timers r)
  (nextTimerId r) (previewFetches r) (previewWaiting r) (exportFetches r)
  (exportWaiting r) (alerts r) (downloads r).

Definition set_document_title (v : jsstring) (r : World) : World :=
  Build_World (elements r) (state_theme r) (state_isPreviewDirty r) v (overlay
  r) (csrfInput r) (previewTimer r) (activePreviewSerial r) (clock r) (timers
  r) (nextTimerId r) (previewFetches r) (previewWaiting r) (exportFetches r)
  (exportWaiting r) (alerts r) (downloads r).

Definition set_overlay (v : bool) (r : World) : World :=
  Build_World (elements r) (state_theme r) (state_isPreviewDirty r)
  (document_title r) v (csrfInput r) (previewTimer r) (activePreviewSerial r)
  (clock r) (timers r) (nextTimerId r) (previewFetches r) (previewWaiting r)
  (exportFetches r) (exportWaiting r) (alerts r) (downloads r).

Definition set_previewTimer (v : option nat) (r : World) : World :=
  Build_World (elements r) (state_theme r) (state_isPreviewDirty r)
  (document_title r) (overlay r) (csrfInput r) v (activePreviewSerial r)
  (clock r) (timers r) (nextTimerId r) (previewFetches r) (previewWaiting r)
  (exportFetches r) (exportWaiting r) (alerts r) (downloads r).

Definition set_activePreviewSerial (v : nat) (r : World) : World :=
  Build_World (elements r) (state_theme r) (state_isPreviewDirty r)
  (document_title r) (overlay r) (csrfInput r) (previewTimer r) v (clock r)
  (timers r) (nextTimerId r) (previewFetches r) (previewWaiting r)
  (exportFetches r) (exportWaiting r) (alerts r) (downloads r).

Definition set_clock (v : nat) (r : World) : World :=
  Build_World (elements r) (state_theme r) (state_isPreviewDirty r)
  (document_title r) (overlay r) (csrfInput r) (previewTimer r)
  (activePreviewSerial r) v (timers r) (nextTimerId r) (previewFetches r)
  (previewWaiting r) (exportFetches r) (exportWaiting r) (alerts r) (downloads
  r).

Definition set_timers (v : list (nat * nat)) (r : World) : World :=
  Build_World (elements r) (state_theme r) (state_isPreviewDirty r)
  (document_title r) (overlay r) (csrfInput r) (previewTimer r)
  (activePreviewSerial r) (clock r) v (nextTimerId r) (previewFetches r)
  (previewWaiting r) (exportFetches r) (exportWaiting r) (alerts r) (downloads
  r).

Definition set_nextTimerId (v : nat) (r : World) : World :=
  Build_World (elements r) (state_theme r) (state_isPreviewDirty r)
  (document_title r) (overlay r) (csrfInput r) (previewTimer r)
  (activePreviewSerial r) (clock r) (timers r) v (previewFetches r)
  (previewWaiting r) (exportFetches r) (exportWaiting r) (alerts r) (downloads
  r).

Definition set_previewFetches (v : list (nat * Request)) (r : World) : World :=
  Build_World (elements r) (state_theme r) (state_isPreviewDirty r)
  (document_title r) (overlay r) (csrfInput r) (previewTimer r)
  (activePreviewSerial r) (clock r) (timers r) (nextTimerId r) v
  (previewWaiting r) (exportFetches r) (exportWaiting r) (alerts r) (downloads
  r).

Definition set_previewWaiting (v : list nat) (r : World) : World :=
  Build_World (elements r) (state_theme r) (state_isPreviewDirty r)
  (document_title r) (overlay r) (csrfInput r) (previewTimer r)
  (activePreviewSerial r) (clock r) (timers r) (nextTimerId r) (previewFetches
  r) v (exportFetches r) (exportWaiting r) (alerts r) (downloads r).

Definition set_exportFetches (v : list Request) (r : World) : World :=
  Build_World (elements r) (state_theme r) (state_isPreviewDirty r)
  (document_title r) (overlay r) (csrfInput r) (previewTimer r)
  (activePreviewSerial r) (clock r) (timers r) (nextTimerId r) (previewFetches
  r) (previewWaiting r) v (exportWaiting r) (alerts r) (downloads r).

Definition set_exportWaiting (v : list (nat * bool)) (r : World) : World :=
  Build_World (elements r) (state_theme r) (state_isPreviewDirty r)
  (document_title r) (overlay r) (csrfInput r) (previewTimer r)
  (activePreviewSerial r) (clock r) (timers r) (nextTimerId r) (previewFetches
  r) (previewWaiting r) (exportFetches r) v (alerts r) (downloads r).

Definition set_alerts (v : list jsstring) (r : World) : World :=
  Build_World (elements r) (state_theme r) (state_isPreviewDirty r)
  (document_title r) (overlay r) (csrfInput r) (previewTimer r)
  (activePreviewSerial r) (clock r) (timers r) (nextTimerId r) (previewFetches
  r) (previewWaiting r) (exportFetches r) (exportWaiting r) v (downloads r).

Definition set_downloads (v : list (jsstring * Blob)) (r : World) : World :=
  Build_World (elements r) (state_theme r) (state_isPreviewDirty r)
  (document_title r) (overlay r) (csrfInput r) (previewTimer r)
  (activePreviewSerial r) (clock r) (timers r) (nextTimerId r) (previewFetches
  r) (previewWaiting r) (exportFetches r) (exportWaiting r) (alerts r) v.


(** ** A page to run the script on

    A host and a page for the examples at the end: the two conversions
    of the engine on the strings and numbers the examples use, the default
    theme of the specification's scenario, and a page that has every
    element. *)

Module Sample.

Fixpoint numeralValue (acc : N) (s : jsstring) : option N :=
  match s with
  | [] => Some acc
  | c :: r =>
      if ((48 <=? c) && (c <=? 57))%N
      then numeralValue (10 * acc + (c - 48))%N r
      else None
  end.

(** [Number(s)] on a decimal numeral with white space around it, and on
    the empty string, which is 0. (Strings of another form do not occur
    in the examples; they are read as NaN here.) *)
Definition StringToNumber (s : jsstring) : number :=
  match numeralValue 0 (trim s) with
  | Some n => ofZ (Z.of_N n)
  | None => NaN
  end.

(** [String(n)] on a non-negative integer. (Other numbers do not occur
    in the examples.) *)
Definition NumberToString (n : number) : jsstring :=
  match n with
  | Fin q => String_nat (Z.to_nat (Qfloor q))
  | _ => lit "NaN"
  end.

(** A default theme that sets nothing but [customOrderedDigits]. *)
Definition themeWithDigits (digits : option (list jsstring)) : DefaultTheme :=
  {| d_title := VUndefined;
     d_fontFamily := VUndefined;
     d_baseFontSize := VUndefined;
     d_backgroundColor := VUndefined;
     d_textColor := VUndefined;
     d_headingColor := VUndefined;
     d_accentColor := VUndefined;
     d_blockquoteBackground := VUndefined;
     d_blockquoteBorderColor := VUndefined;
     d_blockquoteTextColor := VUndefined;
     d_codeBackground := VUndefined;
     d_codeTextColor := VUndefined;
     d_listStyle := VUndefined;
     d_orderedListStyle := VUndefined;
     d_lineHeight := VUndefined;
     d_cardShadow := VUndefined;
     d_customBulletSequence := None;
     d_customOrderedDigits := digits;
     d_customOrderedBase := VUndefined;
     d_orderedMarkerPrefix := VUndefined;
     d_orderedMarkerSuffix := VUndefined |}.

(** The default theme [{customOrderedDigits: ["0","1","2"]}]. *)
Definition defaultTheme : DefaultTheme :=
  themeWithDigits (Some [lit "0"; lit "1"; lit "2"]).

Definition urls : Urls :=
  {| preview := Some (lit "/api/preview/"); pdf := Some (lit "/api/pdf/") |}.

Definition digitRow (i : nat) (value : jsstring) : OrderedRow :=
  {| o_index := String_nat i;
     o_placeholder := String_nat i;
     o_value := value;
     o_disabled := false |}.

Definition bulletRow (value : jsstring) : BulletRow :=
  {| b_value := value; b_inputDisabled := false; b_removeDisabled := false |}.

(** A page that has every element: custom bullets and custom digits are
    switched on, the only bullet row is blank, the digit table shows the
    three default digits. *)
Definition page : Elements :=
  {| el_control :=
       fun c =>
         match c with
         | CTitle => Some (lit "Notes")
         | CFontSize => Some (lit "16")
         | CPagePadding => Some (lit "48")
         | CMarkdown => Some (lit "# Hello")
         | _ => Some []
         end;
     el_previewStyle := Some [];
     el_previewOutput := Some [];
     el_previewStatus :=
       Some {| s_textContent := []; s_isLoading := false; s_isError := false |};
     el_btnPreview := true;
     el_btnDownload := Some false;
     el_toggleCustomBullets := Some true;
     el_bulletEditor := Some false;
     el_bulletSequenceList := Some [bulletRow (lit " ")];
     el_btnAddBullet := Some false;
     el_toggleCustomOrdered := Some true;
     el_orderedEditor := Some false;
     el_orderedSequenceList :=
       Some [digitRow 0 (lit "0"); digitRow 1 (lit "1"); digitRow 2 (lit "2")];
     el_customOrderedBase := Some {| f_value := lit "3"; f_disabled := false |};
     el_customOrderedPrefix := Some {| f_value := []; f_disabled := false |};
     el_customOrderedSuffix := Some {| f_value := lit "."; f_disabled := false |};
     el_loadingTemplate := true |}.

Definition world : World :=
  {| elements := page;
     state_theme := DefaultClone;
     state_isPreviewDirty := true;
     document_title := lit "Markdown Styler";
     overlay := false;
     csrfInput := Some (lit "token");
     previewTimer := None;
     activePreviewSerial := 0;
     clock := 0;
     timers := [];
     nextTimerId := 1;
     previewFetches := [];
     previewWaiting := [];
     exportFetches := [];
     exportWaiting := [];
     alerts := [];
     downloads := [] |}.

Definition firstResult : PreviewData :=
  {| html := Some (lit "<h1>Hello</h1>"); css := Some (lit "h1{}") |}.

Definition secondResult : PreviewData :=
  {| html := Some (lit "<h1>Hello!</h1>"); css := Some (lit "h1{}") |}.

End Sample.
Section Workspace.

(** The engine's conversions between strings and numbers
    ([Number(s)] on a string, [String(n)] on a number). *)
Variable StringToNumber : jsstring -> number.
Variable NumberToString : number -> jsstring.

Variable defaultTheme : DefaultTheme.

(** [Number(value)] *)
Definition ToNumber (v : jsvalue) : number :=
  match v with
  | VUndefined => NaN
  | VNull => ofZ 0
  | VBool true => ofZ 1
  | VBool false => ofZ 0
  | VNum n => n
  | VStr s => StringToNumber s
  | VObj p => StringToNumber p
  end.

Definition parseNumberOr (value : jsvalue) (fallback : number) : number :=
  let parsed := ToNumber value in
  if Number_isFinite parsed then parsed else fallback.

Definition clamp (value min max : number) : number :=
  Math_min max (Math_max min value).

Definition defaultBulletSequence : list jsstring :=
  match d_customBulletSequence defaultTheme with
  | Some l => l
  | None => [[8226%N]; [9702%N]; [9642%N]]
  end.

Definition defaultOrderedDigits : list jsstring :=
  match d_customOrderedDigits defaultTheme with
  | Some l => l
  | None => [lit "0"; lit "1"; lit "2"]
  end.

Definition DEFAULT_ORDERED_BASE : number :=
  clamp
    (Math_round
       (parseNumberOr (d_customOrderedBase defaultTheme)
          (let len := ofNat (length defaultOrderedDigits) in
           if numberTruthy len then len else ofZ 3)))
    (ofZ 2) (ofZ 10).

Definition sanitizeOrderedBase (value : jsvalue) : number :=
  let parsed := Math_round (parseNumberOr value DEFAULT_ORDERED_BASE) in
  clamp (if Number_isNaN parsed then DEFAULT_ORDERED_BASE else parsed)
    (ofZ 2) (ofZ 10).


(** [String(v)], as a template literal applies it. *)
Definition ToString (v : jsvalue) : jsstring :=
  match v with
  | VUndefined => lit "undefined"
  | VNull => lit "null"
  | VBool true => lit "true"
  | VBool false => lit "false"
  | VNum n => NumberToString n
  | VStr s => s
  | VObj p => p
  end.

(** ** The bullet sequence editor *)

Definition addBulletRow (value : jsstring) (els : Elements) : Elements :=
  match el_bulletSequenceList els with
  | None => els
  | Some rows =>
      set_el_bulletSequenceList
        (Some (rows ++ [{| b_value := stripNewlines value;
                           b_inputDisabled := false;
                           b_removeDisabled := false |}]))
        els
  end.

Definition updateBulletRemoveButtons (els : Elements) : Elements :=
  match el_bulletSequenceList els with
  | None => els
  | Some rows =>
      set_el_bulletSequenceList
        (Some (map (fun row =>
                      {| b_value := b_value row;
                         b_inputDisabled := b_inputDisabled row;
                         b_removeDisabled := length rows <=? 1 |})
                 rows))
        els
  end.

Definition renderBulletSequence (values : list jsstring) (els : Elements) : Elements :=
  match el_bulletSequenceList els with
  | None => els
  | Some _ =>
      let effective :=
        match values with [] => defaultBulletSequence | _ :: _ => values end in
      let effective :=
        match effective with [] => [[]] | _ :: _ => effective end in
      let els := set_el_bulletSequenceList (Some []) els in
      let els := fold_left (fun e value => addBulletRow value e) effective els in
      updateBulletRemoveButtons els
  end.

(** The values the rows of the bullet editor show. *)
Definition bulletRowValues (els : Elements) : list jsstring :=
  match el_bulletSequenceList els with
  | None => []
  | Some rows => map b_value rows
  end.

Definition readBulletSequence (els : Elements) : list jsstring :=
  match el_bulletSequenceList els with
  | None => []
  | Some rows =>
      filter (fun value => 0 <? length value)
        (map (fun row => trim (b_value row)) rows)
  end.

Definition setBulletEditorDisabled (disabled : bool) (els : Elements) : Elements :=
  let els :=
    match el_bulletEditor els with
    | Some _ => set_el_bulletEditor (Some disabled) els
    | None => els
    end in
  let els :=
    match el_btnAddBullet els with
    | Some _ => set_el_btnAddBullet (Some disabled) els
    | None => els
    end in
  match el_bulletSequenceList els with
  | None => els
  | Some rows =>
      set_el_bulletSequenceList
        (Some (map (fun row =>
                      {| b_value := b_value row;
                         b_inputDisabled := disabled;
                         b_removeDisabled := disabled |})
                 rows))
        els
  end.

(** ** The ordered digit editor *)

(** [a[i] ?? b] on an array of strings. *)
Definition itemOr (a : list jsstring) (i : nat) (b : jsstring) : jsstring :=
  match nth_error a i with
  | Some v => v
  | None => b
  end.

Definition renderOrderedSequence (baseValue : jsvalue) (values : list jsstring)
    (els : Elements) : Elements :=
  match el_orderedSequenceList els with
  | None => els
  | Some _ =>
      let targetBase := sanitizeOrderedBase baseValue in
      set_el_orderedSequenceList
        (Some (forIndex
                 (fun i rows =>
                    rows ++
                    [{| o_index := String_nat i;
                        o_placeholder := itemOr defaultOrderedDigits i (String_nat i);
                        o_value :=
                          stripNewlines
                            (itemOr values i (itemOr defaultOrderedDigits i []));
                        o_disabled := false |}])
                 0 (loopCount targetBase) []))
        els
  end.

(** The values the rows of the digit editor show. *)
Definition orderedRowValues (els : Elements) : list jsstring :=
  match el_orderedSequenceList els with
  | None => []
  | Some rows => map o_value rows
  end.

Definition readOrderedSequence (els : Elements) : list jsstring :=
  match el_orderedSequenceList els with
  | None => []
  | Some rows => map (fun row => trim (o_value row)) rows
  end.

Definition ensureOrderedDigits (values : list jsstring) (base : number) : list jsstring :=
  forIndex
    (fun i digits =>
       let candidate := trim (itemOr values i []) in
       if nonEmpty candidate then digits ++ [candidate]
       else
         match nth_error defaultOrderedDigits i with
         | Some (c :: d) => digits ++ [c :: d]
         | _ => digits ++ [String_nat i]
         end)
    0 (loopCount base) [].

Definition setFieldDisabled (disabled : bool) (f : option Field) : option Field :=
  match f with
  | Some x => Some {| f_value := f_value x; f_disabled := disabled |}
  | None => None
  end.

Definition setOrderedEditorDisabled (disabled : bool) (els : Elements) : Elements :=
  let els :=
    match el_orderedEditor els with
    | Some _ => set_el_orderedEditor (Some disabled) els
    | None => els
    end in
  let els := set_el_customOrderedBase (setFieldDisabled disabled (el_customOrderedBase els)) els in
  let els := set_el_customOrderedPrefix (setFieldDisabled disabled (el_customOrderedPrefix els)) els in
  let els := set_el_customOrderedSuffix (setFieldDisabled disabled (el_customOrderedSuffix els)) els in
  match el_orderedSequenceList els with
  | None => els
  | Some rows =>
      set_el_orderedSequenceList
        (Some (map (fun row =>
                      {| o_index := o_index row;
                         o_placeholder := o_placeholder row;
                         o_value := o_value row;
                         o_disabled := disabled |})
                 rows))
        els
  end.

(** [el?.checked ?? false] *)
Definition checked (toggle : option bool) : bool :=
  match toggle with
  | Some b => b
  | None => false
  end.

Definition updateCustomControlsState (els : Elements) : Elements :=
  let bulletsEnabled := checked (el_toggleCustomBullets els) in
  let els := setBulletEditorDisabled (negb bulletsEnabled) els in
  let els := updateBulletRemoveButtons els in
  let orderedEnabled := checked (el_toggleCustomOrdered els) in
  setOrderedEditorDisabled (negb orderedEnabled) els.

(** ** Gathering the theme *)

(** [control?.value || fallback] *)
Definition valueOr (control : option jsstring) (fallback : jsvalue) : jsvalue :=
  match control with
  | Some v => if nonEmpty v then VStr v else fallback
  | None => fallback
  end.

(** [Number(control?.value) || fallback] *)
Definition numberOr (control : option jsstring) (fallback : jsvalue) : jsvalue :=
  let n :=
    ToNumber (match control with Some v => VStr v | None => VUndefined end) in
  if numberTruthy n then VNum n else fallback.

(** [field?.value?.trim() ?? a ?? b] *)
Definition trimmedOr (field : option Field) (a : jsvalue) (b : jsstring) : jsvalue :=
  match field with
  | Some f => VStr (trim (f_value f))
  | None => js_nullish a (VStr b)
  end.

(** The gathered theme, and the elements after the gather wrote the
    sanitized base back into its control. *)
Definition gatherTheme (els0 : Elements) : Theme * Elements :=
  let bulletSequence := readBulletSequence els0 in
  let orderedBase :=
    sanitizeOrderedBase
      (match el_customOrderedBase els0 with
       | Some f => VStr (f_value f)
       | None => VUndefined
       end) in
  let els :=
    match el_customOrderedBase els0 with
    | Some f =>
        set_el_customOrderedBase
          (Some {| f_value := NumberToString orderedBase;
                   f_disabled := f_disabled f |})
          els0
    | None => els0
    end in
  let orderedDigitsRaw := readOrderedSequence els in
  let orderedDigits := ensureOrderedDigits orderedDigitsRaw orderedBase in
  let useCustomBullets :=
    checked (el_toggleCustomBullets els) && (0 <? length bulletSequence) in
  let useCustomOrdered := checked (el_toggleCustomOrdered els) in
  ({| title :=
        match el_control els CTitle with
        | Some v => if nonEmpty (trim v) then trim v else lit "Untitled"
        | None => lit "Untitled"
        end;
      fontFamily := valueOr (el_control els CFont) (d_fontFamily defaultTheme);
      baseFontSize := numberOr (el_control els CFontSize) (d_baseFontSize defaultTheme);
      backgroundColor := valueOr (el_control els CBackground) (d_backgroundColor defaultTheme);
      textColor := valueOr (el_control els CTextColor) (d_textColor defaultTheme);
      headingColor := valueOr (el_control els CHeadingColor) (d_headingColor defaultTheme);
      accentColor := valueOr (el_control els CAccentColor) (d_accentColor defaultTheme);
      blockquoteBackground :=
        valueOr (el_control els CBlockquoteBg) (d_blockquoteBackground defaultTheme);
      blockquoteBorderColor :=
        valueOr (el_control els CBlockquoteBorder) (d_blockquoteBorderColor defaultTheme);
      blockquoteTextColor := d_blockquoteTextColor defaultTheme;
      codeBackground := valueOr (el_control els CCodeBg) (d_codeBackground defaultTheme);
      codeTextColor := valueOr (el_control els CCodeText) (d_codeTextColor defaultTheme);
      listStyle := valueOr (el_control els CListStyle) (d_listStyle defaultTheme);
      orderedListStyle :=
        valueOr (el_control els COrderedListStyle) (d_orderedListStyle defaultTheme);
      pagePadding :=
        ToString (numberOr (el_control els CPagePadding) (VNum (ofZ 48))) ++ lit "px";
      lineHeight := numberOr (el_control els CLineHeight) (d_lineHeight defaultTheme);
      cardShadow := valueOr (el_control els CShadow) (d_cardShadow defaultTheme);
      useCustomBullets := useCustomBullets;
      customBulletSequence := bulletSequence;
      useCustomOrdered := useCustomOrdered;
      customOrderedDigits := orderedDigits;
      customOrderedBase := length orderedDigits;
      orderedMarkerPrefix :=
        trimmedOr (el_customOrderedPrefix els) (d_orderedMarkerPrefix defaultTheme) [];
      orderedMarkerSuffix :=
        trimmedOr (el_customOrderedSuffix els) (d_orderedMarkerSuffix defaultTheme)
          (lit ".") |},
   els).

(** ** The preview pipeline *)

Variable urls : Urls.

(** A URL as a condition: set and not empty. *)
Definition configured (url : option jsstring) : option jsstring :=
  match url with
  | Some (c :: u) => Some (c :: u)
  | _ => None
  end.

Definition getCsrfToken (w : World) : jsstring := orEmpty (csrfInput w).

(** [state.theme.title] *)
Definition themeTitle (slot : ThemeSlot) : jsvalue :=
  match slot with
  | DefaultClone => d_title defaultTheme
  | Gathered t => VStr (title t)
  end.

Definition updateStatus (text : jsstring) (variant : Variant) (els : Elements) : Elements :=
  match el_previewStatus els with
  | None => els
  | Some _ =>
      set_el_previewStatus
        (Some {| s_textContent := text;
                 s_isLoading := match variant with Loading => true | _ => false end;
                 s_isError := match variant with Error => true | _ => false end |})
        els
  end.

(** The host's [clearTimeout] and [setTimeout(runPreview, delay)]. *)
Definition clearTimeout (id : option nat) (w : World) : World :=
  match id with
  | None => w
  | Some i => set_timers (filter (fun t => negb (fst t =? i)) (timers w)) w
  end.

Definition setTimeout (delay : nat) (w : World) : nat * World :=
  let id := nextTimerId w in
  (id, set_nextTimerId (S id) (set_timers ((id, clock w + delay) :: timers w) w)).

Definition schedulePreview (immediate : bool) (w : World) : World :=
  let w := set_state_isPreviewDirty true w in
  let delay := if immediate then 0 else 280 in
  let w := clearTimeout (previewTimer w) w in
  let (id, w) := setTimeout delay w in
  set_previewTimer (Some id) w.

(** [runPreview] up to its first [await]: the request is sent and the
    call is suspended with [serial] captured. *)
Definition runPreview (w : World) : World :=
  match configured (preview urls) with
  | None => w
  | Some url =>
      let (theme, els) := gatherTheme (elements w) in
      let w := set_state_theme (Gathered theme) (set_elements els w) in
      let markdown := orEmpty (el_control (elements w) CMarkdown) in
      let w := set_elements (updateStatus MSG_RENDERING Loading (elements w)) w in
      let serial := S (activePreviewSerial w) in
      let w := set_activePreviewSerial serial w in
      let request :=
        {| r_url := url;
           r_csrfToken := getCsrfToken w;
           r_markdown := markdown;
           r_theme := theme;
           r_title := title theme |} in
      set_previewWaiting (serial :: previewWaiting w)
        (set_previewFetches ((serial, request) :: previewFetches w) w)
  end.

(** The [catch] block of [runPreview]. *)
Definition previewCatch (message : jsstring) (w : World) : World :=
  set_elements
    (updateStatus (if nonEmpty message then message else MSG_PREVIEW_ERROR) Error
       (elements w))
    w.

(** The message of the error thrown for a response that is not ok.
    With the body [null], reading [payload.error] throws, with the
    engine's message. Otherwise it is the message of
    [new Error(payload.error || prefix + status + ")")], the string the
    argument converts to. *)
Definition errorMessage (payload : Payload) (prefix : jsstring) (status : nat) : jsstring :=
  match payload with
  | NullBody m => m
  | Member error =>
      ToString (js_or error (VStr (prefix ++ String_nat status ++ lit ")")))
  end.

(** The rest of [runPreview], run when the fetch of the call that
    captured [serial] has settled with [outcome]. *)
Definition runPreviewSettled (serial : nat) (outcome : Outcome PreviewData) (w : World) : World :=
  match outcome with
  | NetworkFailure m => previewCatch m w
  | HttpFailure status payload =>
      previewCatch (errorMessage payload MSG_PREVIEW_FAILED status) w
  | BodyFailure m => previewCatch m w
  | HttpSuccess data =>
      if negb (serial =? activePreviewSerial w) then w
      else
        let els := elements w in
        let els :=
          match el_previewStyle els with
          | Some _ =>
              set_el_previewStyle (Some (orEmpty (css data))) els
          | None => els
          end in
        let els :=
          match el_previewOutput els with
          | Some _ =>
              set_el_previewOutput (Some (orEmpty (html data))) els
          | None => els
          end in
        let w := set_elements els w in
        let w := set_document_title (ToString (themeTitle (state_theme w)) ++ TITLE_SUFFIX) w in
        let w := set_elements (updateStatus MSG_APPLIED Idle (elements w)) w in
        set_state_isPreviewDirty false w
  end.

(** ** The PDF export *)

(** [toggleLoading]: the world after it, and whether it returned an
    element. *)
Definition toggleLoading (isLoading : bool) (w : World) : bool * World :=
  let existing := overlay w in
  if isLoading then
    if existing then (true, w)
    else if el_loadingTemplate (elements w) then (true, set_overlay true w)
    else (false, w)
  else (false, if existing then set_overlay false w else w).

Definition setDownloadDisabled (disabled : bool) (els : Elements) : Elements :=
  match el_btnDownload els with
  | Some _ => set_el_btnDownload (Some disabled) els
  | None => els
  end.

(** [downloadPdf] up to its first [await]. The suspended call keeps
    whether its [overlay] is an element. *)
Definition downloadPdf (w : World) : World :=
  match configured (pdf urls) with
  | None => w
  | Some url =>
      let (theme, els) := gatherTheme (elements w) in
      let w := set_state_theme (Gathered theme) (set_elements els w) in
      let markdown := orEmpty (el_control (elements w) CMarkdown) in
      let shown := toggleLoading true w in
      let overlayIsElement := fst shown in
      let w := snd shown in
      let w := set_elements (setDownloadDisabled true (elements w)) w in
      let request :=
        {| r_url := url;
           r_csrfToken := getCsrfToken w;
           r_markdown := markdown;
           r_theme := theme;
           r_title := title theme |} in
      set_exportWaiting ((length (exportFetches w), overlayIsElement) :: exportWaiting w)
        (set_exportFetches (request :: exportFetches w) w)
  end.

(** The [catch] block of [downloadPdf]. *)
Definition exportCatch (message : jsstring) (w : World) : World :=
  set_alerts ((if nonEmpty message then message else MSG_PDF_ERROR) :: alerts w) w.

(** The [finally] block of [downloadPdf]. *)
Definition exportFinally (overlayIsElement : bool) (w : World) : World :=
  let w := if overlayIsElement then snd (toggleLoading false w) else w in
  set_elements (setDownloadDisabled false (elements w)) w.

(** The rest of [downloadPdf], run when its fetch has settled;
    [timestamp] is what [new Date().toISOString()] returns then. *)
Definition downloadPdfSettled (overlayIsElement : bool) (outcome : Outcome Blob)
    (timestamp : jsstring) (w : World) : World :=
  let w :=
    match outcome with
    | NetworkFailure m => exportCatch m w
    | HttpFailure status payload =>
        exportCatch (errorMessage payload MSG_PDF_FAILED status) w
    | BodyFailure m => exportCatch m w
    | HttpSuccess blob =>
        let name :=
          ToString (js_or (themeTitle (state_theme w)) (VStr (lit "Document")))
          ++ lit "_" ++ replaceColonDot timestamp ++ lit ".pdf" in
        set_downloads ((name, blob) :: downloads w) w
    end in
  exportFinally overlayIsElement w.

(** ** The listeners

    What can happen to the page: a listener the script attached runs, time
    passes, a timeout comes due, a fetch settles. [handle e w] is [None]
    when [e] cannot happen in [w] (the element is missing or disabled, the
    timeout is not due, no such request is waiting). The reset button and
    the palette toggle are left out: the first needs the initial rendering
    of the controls, the second touches the palette only. *)

Inductive Event : Type :=
| Input (c : Control) (v : jsstring)     (* a plain control or the markdown text changes *)
| PrefixInput (v : jsstring)
| SuffixInput (v : jsstring)
| BulletInput (i : nat) (v : jsstring)   (* typing into row [i] of the bullet editor *)
| DigitInput (i : nat) (v : jsstring)    (* typing into row [i] of the digit editor *)
| ToggleBullets
| ToggleOrdered
| BaseInput (v : jsstring)               (* "input" on the base control *)
| BaseChange                             (* "change" on the base control *)
| AddBullet
| RemoveBullet (i : nat)
| ClickPreview
| ClickDownload
| Elapse (ms : nat)
| TimerFires (id : nat)
| PreviewSettles (serial : nat) (outcome : Outcome PreviewData)
| ExportSettles (ticket : nat) (outcome : Outcome Blob) (timestamp : jsstring).

Definition setControlValue (c : Control) (v : jsstring) (els : Elements) : Elements :=
  set_el_control
    (fun c' => if Control_eq_dec c c' then Some v else el_control els c')
    els.

(** The list with item [i] replaced by [f] of it. *)
Fixpoint updateAt (A : Type) (i : nat) (f : A -> A) (l : list A) : list A :=
  match l, i with
  | [], _ => []
  | x :: r, O => f x :: r
  | x :: r, S j => x :: updateAt j f r
  end.

(** The list without item [i]. *)
Fixpoint removeAt (A : Type) (i : nat) (l : list A) : list A :=
  match l, i with
  | [], _ => []
  | _ :: r, O => r
  | x :: r, S j => x :: removeAt j r
  end.

(** An enabled field taking the typed value. *)
Definition typeInto (v : jsstring) (field : option Field) : option Field :=
  match field with
  | Some f =>
      if f_disabled f then None
      else Some {| f_value := v; f_disabled := false |}
  | None => None
  end.

(** The two listeners of the base control: the table is read, the base
    sanitized (and, on "change", written back), the table rendered anew,
    the editors' disabled state refreshed and a preview scheduled. *)
Definition onBaseEdited (commit : bool) (w : World) : option World :=
  match el_customOrderedBase (elements w) with
  | None => None
  | Some f =>
      let currentValues := readOrderedSequence (elements w) in
      let nextBase := sanitizeOrderedBase (VStr (f_value f)) in
      let els :=
        if commit then
          set_el_customOrderedBase
            (Some {| f_value := NumberToString nextBase; f_disabled := f_disabled f |})
            (elements w)
        else elements w in
      let els := renderOrderedSequence (VNum nextBase) currentValues els in
      let els := updateCustomControlsState els in
      Some (schedulePreview commit (set_elements els w))
  end.

Definition handle (e : Event) (w : World) : option World :=
  let els := elements w in
  match e with
  | Input c v =>
      match el_control els c with
      | Some _ => Some (schedulePreview false (set_elements (setControlValue c v els) w))
      | None => None
      end
  | PrefixInput v =>
      match typeInto v (el_customOrderedPrefix els) with
      | Some f =>
          Some (schedulePreview false
                  (set_elements (set_el_customOrderedPrefix (Some f) els) w))
      | None => None
      end
  | SuffixInput v =>
      match typeInto v (el_customOrderedSuffix els) with
      | Some f =>
          Some (schedulePreview false
                  (set_elements (set_el_customOrderedSuffix (Some f) els) w))
      | None => None
      end
  | BulletInput i v =>
      match el_bulletSequenceList els with
      | Some rows =>
          match nth_error rows i with
          | Some row =>
              if b_inputDisabled row then None
              else
                let rows :=
                  updateAt i
                    (fun r => {| b_value := v;
                                 b_inputDisabled := b_inputDisabled r;
                                 b_removeDisabled := b_removeDisabled r |})
                    rows in
                Some (schedulePreview false
                        (set_elements (set_el_bulletSequenceList (Some rows) els) w))
          | None => None
          end
      | None => None
      end
  | DigitInput i v =>
      match el_orderedSequenceList els with
      | Some rows =>
          match nth_error rows i with
          | Some row =>
              if o_disabled row then None
              else
                let rows :=
                  updateAt i
                    (fun r => {| o_index := o_index r;
                                 o_placeholder := o_placeholder r;
                                 o_value := v;
                                 o_disabled := o_disabled r |})
                    rows in
                Some (schedulePreview false
                        (set_elements (set_el_orderedSequenceList (Some rows) els) w))
          | None => None
          end
      | None => None
      end
  | ToggleBullets =>
      match el_toggleCustomBullets els with
      | Some b =>
          let els := set_el_toggleCustomBullets (Some (negb b)) els in
          Some (schedulePreview false (set_elements (updateCustomControlsState els) w))
      | None => None
      end
  | ToggleOrdered =>
      match el_toggleCustomOrdered els with
      | Some b =>
          let els := set_el_toggleCustomOrdered (Some (negb b)) els in
          Some (schedulePreview false (set_elements (updateCustomControlsState els) w))
      | None => None
      end
  | BaseInput v =>
      match typeInto v (el_customOrderedBase els) with
      | Some f => onBaseEdited false (set_elements (set_el_customOrderedBase (Some f) els) w)
      | None => None
      end
  | BaseChange =>
      match el_customOrderedBase els with
      | Some f => if f_disabled f then None else onBaseEdited true w
      | None => None
      end
  | AddBullet =>
      match el_btnAddBullet els with
      | Some false =>
          let els := updateBulletRemoveButtons (addBulletRow [] els) in
          Some (schedulePreview true (set_elements els w))
      | _ => None
      end
  | RemoveBullet i =>
      match el_bulletSequenceList els with
      | Some rows =>
          match nth_error rows i with
          | Some row =>
              if b_removeDisabled row then None
              else
                let els := set_el_bulletSequenceList (Some (removeAt i rows)) els in
                let els := updateBulletRemoveButtons els in
                Some (schedulePreview true (set_elements els w))
          | None => None
          end
      | None => None
      end
  | ClickPreview =>
      if el_btnPreview els then Some (schedulePreview true w) else None
  | ClickDownload =>
      match el_btnDownload els with
      | Some false => Some (downloadPdf w)
      | _ => None
      end
  | Elapse ms => Some (set_clock (clock w + ms) w)
  | TimerFires id =>
      match find (fun t => fst t =? id) (timers w) with
      | Some (_, due) =>
          if due <=? clock w
          then Some (runPreview (clearTimeout (Some id) w))
          else None
      | None => None
      end
  | PreviewSettles serial outcome =>
      if existsb (Nat.eqb serial) (previewWaiting w) then
        Some (runPreviewSettled serial outcome
                (set_previewWaiting
                   (filter (fun s => negb (s =? serial)) (previewWaiting w)) w))
      else None
  | ExportSettles ticket outcome timestamp =>
      match find (fun x => fst x =? ticket) (exportWaiting w) with
      | Some (_, overlayIsElement) =>
          Some (downloadPdfSettled overlayIsElement outcome timestamp
                  (set_exportWaiting
                     (filter (fun x => negb (fst x =? ticket)) (exportWaiting w)) w))
      | None => None
      end
  end.

(** One event after the other. *)
Fixpoint run (events : list Event) (w : World) : option World :=
  match events with
  | [] => Some w
  | e :: rest =>
      match handle e w with
      | Some w' => run rest w'
      | None => None
      end
  end.

(** The world after [events], if they can all happen. *)
Definition after (events : list Event) (w : World) : World :=
  match run events w with
  | Some w' => w'
  | None => w
  end.

(** Whether the listener behind [e] calls [schedulePreview], and with
    which [immediate]. *)
Definition schedules (e : Event) : option bool :=
  match e with
  | Input _ _ | PrefixInput _ | SuffixInput _ | BulletInput _ _ | DigitInput _ _
  | ToggleBullets | ToggleOrdered | BaseInput _ => Some false
  | BaseChange | AddBullet | RemoveBullet _ | ClickPreview => Some true
  | ClickDownload | Elapse _ | TimerFires _ | PreviewSettles _ _
  | ExportSettles _ _ _ => None
  end.

Definition delayOf (immediate : bool) : nat := if immediate then 0 else 280.

(** The request [runPreview] (or [downloadPdf]) sends to [url] from [w]. *)
Definition requestFrom (url : jsstring) (w : World) : Request :=
  let theme := fst (gatherTheme (elements w)) in
  {| r_url := url;
     r_csrfToken := getCsrfToken w;
     r_markdown := orEmpty (el_control (elements w) CMarkdown);
     r_theme := theme;
     r_title := title theme |}.

(** What the [catch] block of [runPreview] leaves on the status line. *)
Definition errorStatus (message : jsstring) : Status :=
  {| s_textContent := if nonEmpty message then message else MSG_PREVIEW_ERROR;
     s_isLoading := false;
     s_isError := true |}.

(** At most one timeout is pending, and it is the one [previewTimer]
    names. *)
Definition timersOk (w : World) : Prop :=
  timers w = []
  \/ exists id due, timers w = [(id, due)] /\ previewTimer w = Some id.

(** The host's side of the preview pipeline. *)
Definition pipeline (w : World) :=
  (timers w, previewTimer w, nextTimerId w, previewFetches w,
   activePreviewSerial w).

(** The elements no listener of a control touches: the preview surface
    and the buttons. *)
Definition surface (els : Elements) :=
  (el_previewStyle els, el_previewOutput els, el_previewStatus els,
   el_btnPreview els, el_btnDownload els, el_loadingTemplate els).

(** What the export shows and holds. *)
Definition exportSide (w : World) :=
  (overlay w, el_btnDownload (elements w), el_loadingTemplate (elements w),
   exportFetches w, exportWaiting w, alerts w, downloads w).

Definition isExportSettles (e : Event) : bool :=
  match e with
  | ExportSettles _ _ _ => true
  | _ => false
  end.

(** ** Invariants of the running page *)

(** The serials of the requests sent count up from 1 to the active
    serial, and a response is awaited only for a serial that was sent, and
    once. *)
Definition serialsOk (w : World) : Prop :=
  map fst (previewFetches w) = rev (seq 1 (activePreviewSerial w))
  /\ Forall (fun s => 1 <= s <= activePreviewSerial w) (previewWaiting w)
  /\ NoDup (previewWaiting w).

(** Either no export is in flight, no overlay is shown and the download
    button is not disabled; or one export is in flight and the button is
    disabled, the overlay being shown if the export could create it. *)
Definition exportOk (w : World) : Prop :=
  (exportWaiting w = [] /\ overlay w = false
   /\ el_btnDownload (elements w) <> Some true)
  \/ (exists ticket ov,
        exportWaiting w = [(ticket, ov)]
        /\ el_btnDownload (elements w) = Some true
        /\ (ov = false -> overlay w = false)).

(** The bullet editor keeps a row, and a single row cannot be removed. *)
Definition bulletFloor (els : Elements) : Prop :=
  match el_bulletSequenceList els with
  | None => True
  | Some rows =>
      rows <> []
      /\ (length rows <= 1 -> Forall (fun row => b_removeDisabled row = true) rows)
  end.




(** The editors, as far as the listeners of the preview and the export
    are concerned. *)
Definition editors (els : Elements) :=
  (el_bulletSequenceList els, el_orderedSequenceList els, el_control els,
   el_toggleCustomBullets els, el_toggleCustomOrdered els).

(** The digit table has as many rows as the base the base control holds,
    sanitized. *)
Definition digitsMatchBase (els : Elements) : Prop :=
  match el_customOrderedBase els, el_orderedSequenceList els with
  | Some f, Some rows =>
      length rows = loopCount (sanitizeOrderedBase (VStr (f_value f)))
  | _, _ => True
  end.

(** What [digitsMatchBase] looks at. *)
Definition baseShape (els : Elements) : option jsstring * option nat :=
  (option_map f_value (el_customOrderedBase els),
   option_map (@length OrderedRow) (el_orderedSequenceList els)).

(** * Properties *)

Unset Implicit Arguments.

(** *** Strings, loops *)

Lemma forIndex_snoc (A : Type) (f : nat -> A) (count i : nat) (acc : list A) :
  forIndex (fun i acc => acc ++ [f i]) i count acc = acc ++ map f (seq i count).
Proof.
  revert i acc. induction count as [| c IH]; intros i acc; simpl.
  - now rewrite app_nil_r.
  - rewrite IH, <- app_assoc. reflexivity.
Qed.

Lemma forIndex_ext (A : Type) (f g : nat -> A -> A) (count i : nat) (acc : A) :
  (forall j a, f j a = g j a) ->
  forIndex f i count acc = forIndex g i count acc.
Proof.
  intros H. revert i acc. induction count as [| c IH]; intros i acc; simpl.
  - reflexivity.
  - now rewrite H, IH.
Qed.

Lemma loopCount_ofZ (z : Z) : loopCount (ofZ z) = Z.to_nat z.
Proof.
  unfold loopCount, ofZ. now rewrite Qceiling_Z.
Qed.

Lemma loopCount_ofNat (b : nat) : loopCount (ofNat b) = b.
Proof.
  unfold ofNat. rewrite loopCount_ofZ. apply Nat2Z.id.
Qed.

Lemma nth_error_map_seq (A : Type) (f : nat -> A) (n i : nat) :
  i < n -> nth_error (map f (seq 0 n)) i = Some (f i).
Proof.
  intros Hi. rewrite nth_error_map, nth_error_seq.
  destruct (Nat.ltb_spec i n); [reflexivity | lia].
Qed.

Lemma String_nat_nonEmpty (i : nat) : nonEmpty (String_nat i) = true.
Proof.
  unfold String_nat.
  rewrite <- (DecimalNat.Unsigned.of_to i) at 1.
  rewrite DecimalNat.Unsigned.to_of.
  unfold Decimal.unorm.
  destruct (Decimal.nzhead (Nat.to_uint i)); reflexivity.
Qed.

Lemma nonEmpty_true (s : jsstring) : nonEmpty s = true <-> s <> [].
Proof.
  destruct s; simpl; split; congruence.
Qed.

Lemma nonEmpty_length (s : jsstring) : nonEmpty s = (0 <? length s).
Proof.
  now destruct s.
Qed.

Lemma trimStart_nil (s : jsstring) : trimStart s = [] <-> blank s = true.
Proof.
  unfold blank. induction s as [| c s IH]; simpl.
  - tauto.
  - destruct (isWhiteSpace c); simpl; [exact IH | split; discriminate].
Qed.

(** What [trimStart] leaves starts with a character that is not white
    space. *)
Lemma trimStart_head (s : jsstring) (c : codeunit) (r : jsstring) :
  trimStart s = c :: r -> isWhiteSpace c = false.
Proof.
  induction s as [| x s IH]; simpl; [discriminate |].
  destruct (isWhiteSpace x) eqn:E; [exact IH |].
  intros H. injection H as -> _. exact E.
Qed.

Lemma blank_rev (s : jsstring) : blank (rev s) = blank s.
Proof.
  unfold blank. induction s as [| c s IH]; simpl; [reflexivity |].
  rewrite forallb_app, IH. simpl. rewrite andb_true_r. apply andb_comm.
Qed.

Lemma trim_nil (s : jsstring) : trim s = [] <-> blank s = true.
Proof.
  unfold trim, trimEnd. split.
  - intros H.
    assert (H1 : trimStart (rev (trimStart s)) = []).
    { destruct (trimStart (rev (trimStart s))); [reflexivity |].
      apply (f_equal (@length _)) in H. rewrite length_rev in H. discriminate. }
    apply trimStart_nil in H1. rewrite blank_rev in H1.
    destruct (trimStart s) as [| c r] eqn:E.
    + now apply trimStart_nil.
    + apply trimStart_head in E. simpl in H1. rewrite E in H1. discriminate.
  - intros H. apply trimStart_nil in H. rewrite H. reflexivity.
Qed.

Lemma nonEmpty_trim (s : jsstring) : nonEmpty (trim s) = negb (blank s).
Proof.
  destruct (blank s) eqn:E.
  - apply trim_nil in E. now rewrite E.
  - destruct (trim s) eqn:T; [| reflexivity].
    apply trim_nil in T. congruence.
Qed.
(** *** Properties of the base sanitizer *)

Lemma Qle_bool_inject_Z (a b : Z) :
  Qle_bool (inject_Z a) (inject_Z b) = (a <=? b)%Z.
Proof.
  unfold Qle_bool, inject_Z. cbn [Qnum Qden]. now rewrite !Z.mul_1_r.
Qed.

Lemma clamp_ofZ (z lo hi : Z) :
  (lo <= hi)%Z ->
  clamp (ofZ z) (ofZ lo) (ofZ hi) = ofZ (Z.min hi (Z.max lo z)).
Proof.
  intros Hlh. unfold clamp, ofZ, Math_min, Math_max.
  rewrite Qle_bool_inject_Z.
  destruct (Z.leb_spec lo z) as [H1 | H1].
  - rewrite Qle_bool_inject_Z.
    destruct (Z.leb_spec hi z) as [H2 | H2]; f_equal; f_equal; lia.
  - rewrite Qle_bool_inject_Z.
    destruct (Z.leb_spec hi lo) as [H2 | H2]; f_equal; f_equal; lia.
Qed.

Lemma Math_round_ofZ (z : Z) : Math_round (ofZ z) = ofZ z.
Proof.
  unfold Math_round, ofZ. do 2 f_equal.
  unfold Qfloor, inject_Z, Qplus. cbn [Qnum Qden Pos.mul].
  replace (z * 2 + 1 * 1)%Z with (1 + z * 2)%Z by lia.
  rewrite Z.div_add by lia. reflexivity.
Qed.

(** Rounding a finite number gives an integer. *)
Lemma Math_round_finite (n : number) :
  Number_isFinite n = true -> exists z, Math_round n = ofZ z.
Proof.
  destruct n as [ | | | q]; simpl; try discriminate.
  intros _. now exists (Qfloor (q + (1 # 2))%Q).
Qed.

Lemma parseNumberOr_finite (v : jsvalue) (fb : number) :
  Number_isFinite fb = true -> Number_isFinite (parseNumberOr v fb) = true.
Proof.
  intros Hfb. unfold parseNumberOr.
  destruct (Number_isFinite (ToNumber v)) eqn:E; simpl; auto.
Qed.

Lemma clamp_round_range (n : number) :
  Number_isFinite n = true ->
  exists z, (2 <= z <= 10)%Z /\ clamp (Math_round n) (ofZ 2) (ofZ 10) = ofZ z.
Proof.
  intros Hn. destruct (Math_round_finite n Hn) as [z Hz].
  rewrite Hz, clamp_ofZ by lia.
  exists (Z.min 10 (Z.max 2 z)). split; [lia | reflexivity].
Qed.

Lemma DEFAULT_ORDERED_BASE_range :
  exists z, (2 <= z <= 10)%Z /\ DEFAULT_ORDERED_BASE = ofZ z.
Proof.
  unfold DEFAULT_ORDERED_BASE. apply clamp_round_range.
  apply parseNumberOr_finite.
  destruct (numberTruthy (ofNat (length defaultOrderedDigits))); reflexivity.
Qed.

Lemma sanitizeOrderedBase_range (x : jsvalue) :
  exists z, (2 <= z <= 10)%Z /\ sanitizeOrderedBase x = ofZ z.
Proof.
  destruct DEFAULT_ORDERED_BASE_range as [d [Hd Ed]].
  unfold sanitizeOrderedBase.
  assert (Hf : Number_isFinite (parseNumberOr x DEFAULT_ORDERED_BASE) = true).
  { apply parseNumberOr_finite. rewrite Ed. reflexivity. }
  destruct (Math_round_finite _ Hf) as [z Hz].
  rewrite Hz. simpl Number_isNaN. cbv iota.
  rewrite clamp_ofZ by lia.
  exists (Z.min 10 (Z.max 2 z)). split; [lia | reflexivity].
Qed.

Lemma sanitizeOrderedBase_fixes_range (z : Z) :
  (2 <= z <= 10)%Z -> sanitizeOrderedBase (VNum (ofZ z)) = ofZ z.
Proof.
  intros Hz. unfold sanitizeOrderedBase, parseNumberOr. simpl ToNumber.
  simpl Number_isFinite. cbv iota.
  rewrite Math_round_ofZ. simpl Number_isNaN. cbv iota.
  rewrite clamp_ofZ by lia. f_equal. lia.
Qed.

Lemma sanitizeOrderedBase_not_finite (x : jsvalue) :
  Number_isFinite (ToNumber x) = false ->
  sanitizeOrderedBase x = DEFAULT_ORDERED_BASE.
Proof.
  intros Hx. destruct DEFAULT_ORDERED_BASE_range as [d [Hd Ed]].
  unfold sanitizeOrderedBase, parseNumberOr. rewrite Hx, Ed.
  rewrite Math_round_ofZ. simpl Number_isNaN. cbv iota.
  rewrite clamp_ofZ by lia. f_equal. lia.
Qed.

(** C4. The base sanitizer is idempotent, returns an integer between 2
    and 10 on every input, and returns the default base whenever the
    input does not convert to a number (NaN). *)
Theorem sanitizeOrderedBase_idempotent_in_range (x : jsvalue) :
  sanitizeOrderedBase (VNum (sanitizeOrderedBase x)) = sanitizeOrderedBase x
  /\ (exists z, (2 <= z <= 10)%Z /\ sanitizeOrderedBase x = ofZ z)
  /\ (ToNumber x = NaN -> sanitizeOrderedBase x = DEFAULT_ORDERED_BASE).
Proof.
  destruct (sanitizeOrderedBase_range x) as [z [Hz Ez]].
  repeat split.
  - rewrite Ez. now apply sanitizeOrderedBase_fixes_range.
  - now exists z.
  - intros Hnan. apply sanitizeOrderedBase_not_finite. now rewrite Hnan.
Qed.


(** *** The ordered digit editor *)

Lemma itemOr_nth (a : list jsstring) (i : nat) (b : jsstring) :
  itemOr a i b = nth i a b.
Proof.
  unfold itemOr. revert i. induction a as [| x a IH]; intros [| i]; simpl; auto.
Qed.

(** The digit [ensureOrderedDigits] pushes at index [i]. *)
Lemma ensureOrderedDigits_map (values : list jsstring) (base : number) :
  ensureOrderedDigits values base =
  map (fun i =>
         if nonEmpty (trim (nth i values [])) then trim (nth i values [])
         else match nth_error defaultOrderedDigits i with
              | Some d => if nonEmpty d then d else String_nat i
              | None => String_nat i
              end)
    (seq 0 (loopCount base)).
Proof.
  unfold ensureOrderedDigits.
  rewrite <- (app_nil_l (map _ _)), <- forIndex_snoc.
  apply forIndex_ext. intros j a. cbv zeta. rewrite itemOr_nth.
  destruct (nonEmpty (trim (nth j values []))); [reflexivity |].
  destruct (nth_error defaultOrderedDigits j) as [[| c d] |]; reflexivity.
Qed.

Lemma ensureOrderedDigits_length (values : list jsstring) (base : number) :
  length (ensureOrderedDigits values base) = loopCount base.
Proof.
  now rewrite ensureOrderedDigits_map, length_map, length_seq.
Qed.

(** C5. [ensureOrderedDigits] returns, for every list of values and every
    base, exactly [base] digits; position [i] holds the trimmed candidate
    [values[i]] when that is not empty, else the default digit of the
    position when there is one (a non-empty string), else the index as a
    string. *)
Theorem ensureOrderedDigits_total_positions (values : list jsstring) (base : nat) :
  length (ensureOrderedDigits values (ofNat base)) = base
  /\ forall i, i < base ->
       let candidate := trim (nth i values []) in
       nth_error (ensureOrderedDigits values (ofNat base)) i =
       Some (if nonEmpty candidate then candidate
             else match nth_error defaultOrderedDigits i with
                  | Some d => if nonEmpty d then d else String_nat i
                  | None => String_nat i
                  end).
Proof.
  split.
  - now rewrite ensureOrderedDigits_length, loopCount_ofNat.
  - intros i Hi candidate. subst candidate.
    rewrite ensureOrderedDigits_map, loopCount_ofNat.
    now rewrite nth_error_map_seq.
Qed.

(** C10, as the script has it. For every list of values and every base
    but [+Infinity] (for which the loop does not end), no digit
    [ensureOrderedDigits] returns is the empty string. A candidate that
    is blank (missing, empty or white space only) gives way to the default
    digit of its position, which is tested for the empty string only: a
    default that is missing or the empty string gives way to the index as
    a string and is never emitted, while any other default is emitted as
    it is, also one that holds white space only. *)
Theorem ensureOrderedDigits_nonEmpty (values : list jsstring) (base : number) :
  base <> PosInf ->
  Forall (fun digit => digit <> []) (ensureOrderedDigits values base)
  /\ forall i, i < loopCount base ->
       blank (nth i values []) = true ->
       nth_error (ensureOrderedDigits values base) i =
       Some (match nth_error defaultOrderedDigits i with
             | Some (c :: d) => c :: d
             | Some [] | None => String_nat i
             end).
Proof.
  intros _. rewrite ensureOrderedDigits_map. split.
  - apply Forall_forall. intros digit Hin.
    apply in_map_iff in Hin. destruct Hin as [i [Hd _]]. subst digit.
    apply nonEmpty_true.
    destruct (nonEmpty (trim (nth i values []))) eqn:E; [exact E |].
    destruct (nth_error defaultOrderedDigits i) as [d |];
      [| apply String_nat_nonEmpty].
    destruct (nonEmpty d) eqn:D; [exact D | apply String_nat_nonEmpty].
  - intros i Hi Hblank.
    rewrite nth_error_map_seq by exact Hi.
    rewrite nonEmpty_trim, Hblank. simpl.
    destruct (nth_error defaultOrderedDigits i) as [[| c d] |]; reflexivity.
Qed.

Lemma renderOrderedSequence_map (baseValue : jsvalue) (values : list jsstring)
    (els : Elements) (rows0 : list OrderedRow) :
  el_orderedSequenceList els = Some rows0 ->
  el_orderedSequenceList (renderOrderedSequence baseValue values els) =
  Some (map (fun i =>
               {| o_index := String_nat i;
                  o_placeholder := nth i defaultOrderedDigits (String_nat i);
                  o_value := stripNewlines (nth i values (nth i defaultOrderedDigits []));
                  o_disabled := false |})
          (seq 0 (loopCount (sanitizeOrderedBase baseValue)))).
Proof.
  intros H. unfold renderOrderedSequence. rewrite H. cbn.
  f_equal. rewrite <- (app_nil_l (map _ _)), <- forIndex_snoc.
  apply forIndex_ext. intros j a. now rewrite !itemOr_nth.
Qed.

(** C3, as the script has it. Rendering the digit table against a base
    [b] between 2 and 10 leaves exactly [b] rows. Row [i] is given the
    prior value [values[i]] when there is one ([i] below the length of
    [values]); beyond the prior values it is given the default digit of
    the position when there is one and the empty string otherwise. A row
    is a text input: it shows what it is given without its line feeds and
    carriage returns. The index as a string is the row's label, and its
    placeholder when the position has no default. *)
Theorem renderOrderedSequence_rows (b : nat) (values : list jsstring)
    (els : Elements) (rows0 : list OrderedRow) :
  2 <= b <= 10 ->
  el_orderedSequenceList els = Some rows0 ->
  let els' := renderOrderedSequence (VNum (ofNat b)) values els in
  length (orderedRowValues els') = b
  /\ (forall i, i < b -> i < length values ->
        nth_error (orderedRowValues els') i =
        option_map stripNewlines (nth_error values i))
  /\ (forall i, i < b -> length values <= i ->
        nth_error (orderedRowValues els') i =
        Some (match nth_error defaultOrderedDigits i with
              | Some d => stripNewlines d
              | None => []
              end))
  /\ (forall i, i < b ->
        exists row,
          option_map (fun rows => nth_error rows i) (el_orderedSequenceList els')
          = Some (Some row)
          /\ o_index row = String_nat i
          /\ o_placeholder row =
             match nth_error defaultOrderedDigits i with
             | Some d => d
             | None => String_nat i
             end).
Proof.
  intros Hb Hrows els'. subst els'.
  unfold orderedRowValues.
  rewrite (renderOrderedSequence_map _ _ _ _ Hrows).
  assert (Hs : sanitizeOrderedBase (VNum (ofNat b)) = ofNat b).
  { unfold ofNat. apply sanitizeOrderedBase_fixes_range. lia. }
  rewrite Hs, loopCount_ofNat, map_map. cbn [o_value].
  repeat split.
  - now rewrite length_map, length_seq.
  - intros i Hi Hlen. rewrite nth_error_map_seq by exact Hi.
    rewrite (nth_error_nth' values (nth i defaultOrderedDigits []) Hlen).
    reflexivity.
  - intros i Hi Hlen. rewrite nth_error_map_seq by exact Hi.
    rewrite (nth_overflow values) by exact Hlen. f_equal.
    destruct (nth_error defaultOrderedDigits i) as [d |] eqn:E.
    + f_equal. now apply nth_error_nth.
    + rewrite nth_overflow by now apply nth_error_None. reflexivity.
  - intros i Hi. eexists. cbn [option_map]. rewrite nth_error_map_seq by exact Hi.
    split; [reflexivity |]. cbn. split; [reflexivity |].
    destruct (nth_error defaultOrderedDigits i) as [d |] eqn:E.
    + now apply nth_error_nth.
    + apply nth_overflow. now apply nth_error_None.
Qed.

(** *** The bullet editor and the gathered theme *)

Lemma filter_map_comm (A B : Type) (f : A -> B) (p : B -> bool) (l : list A) :
  filter p (map f l) = map f (filter (fun x => p (f x)) l).
Proof.
  induction l as [| x l IH]; simpl; [reflexivity |].
  destruct (p (f x)); simpl; now rewrite IH.
Qed.

Lemma readBulletSequence_spec (els : Elements) :
  readBulletSequence els =
  map trim (filter (fun v => negb (blank v)) (bulletRowValues els)).
Proof.
  unfold readBulletSequence, bulletRowValues.
  destruct (el_bulletSequenceList els) as [rows |]; [| reflexivity].
  rewrite filter_map_comm, filter_map_comm, map_map.
  f_equal. apply filter_ext. intros row.
  now rewrite <- nonEmpty_length, nonEmpty_trim.
Qed.

Lemma gatherTheme_useCustomBullets (els : Elements) :
  useCustomBullets (fst (gatherTheme els)) =
  checked (el_toggleCustomBullets els) && (0 <? length (readBulletSequence els)).
Proof.
  unfold gatherTheme. cbn [fst useCustomBullets].
  destruct (el_customOrderedBase els); reflexivity.
Qed.

(** C7. Reading the bullet editor gives the row values in order, trimmed,
    without the rows that are empty or hold white space only; the gathered
    theme carries that sequence, and its [useCustomBullets] is false when
    the sequence is empty, whatever the toggle says. *)
Theorem readBulletSequence_excludes_blank (els : Elements) :
  readBulletSequence els =
    map trim (filter (fun v => negb (blank v)) (bulletRowValues els))
  /\ Forall (fun v => v <> []) (readBulletSequence els)
  /\ customBulletSequence (fst (gatherTheme els)) = readBulletSequence els
  /\ (readBulletSequence els = [] ->
      useCustomBullets (fst (gatherTheme els)) = false)
  /\ useCustomBullets (fst (gatherTheme els)) =
     checked (el_toggleCustomBullets els)
     && negb (forallb blank (bulletRowValues els)).
Proof.
  split; [apply readBulletSequence_spec |].
  split.
  { unfold readBulletSequence.
    destruct (el_bulletSequenceList els); [| constructor].
    apply Forall_forall. intros v Hv. apply filter_In in Hv.
    destruct Hv as [_ Hv]. destruct v; [discriminate | congruence]. }
  split; [reflexivity |].
  rewrite gatherTheme_useCustomBullets. split.
  - intros Hempty. rewrite Hempty. apply andb_false_r.
  - f_equal. rewrite readBulletSequence_spec.
    induction (bulletRowValues els) as [| v l IH]; simpl; [reflexivity |].
    destruct (blank v); simpl; [exact IH | reflexivity].
Qed.

(** C6. In every gathered theme the digit list is as long as the base
    the theme carries, and that base is the sanitized value of the base
    control, between 2 and 10, whatever rows the digit editor holds. *)
Theorem gatherTheme_digits_length_is_base (els : Elements) :
  let theme := fst (gatherTheme els) in
  length (customOrderedDigits theme) = customOrderedBase theme
  /\ ofNat (customOrderedBase theme) =
     sanitizeOrderedBase
       (match el_customOrderedBase els with
        | Some f => VStr (f_value f)
        | None => VUndefined
        end)
  /\ 2 <= customOrderedBase theme <= 10.
Proof.
  cbv zeta. cbn [fst gatherTheme customOrderedDigits customOrderedBase].
  rewrite ensureOrderedDigits_length.
  destruct (sanitizeOrderedBase_range
              (match el_customOrderedBase els with
               | Some f => VStr (f_value f)
               | None => VUndefined
               end)) as [z [Hz Ez]].
  rewrite Ez, loopCount_ofZ. unfold ofNat. rewrite Z2Nat.id by lia.
  repeat split; lia.
Qed.

(** *** Frames: what the handlers leave alone *)

Ltac cases :=
  repeat match goal with
    | |- context [match ?x with _ => _ end] => destruct x eqn:?
    end.

Lemma gatherTheme_snd_frame (els : Elements) :
  let els' := snd (gatherTheme els) in
  el_control els' CMarkdown = el_control els CMarkdown
  /\ el_previewStatus els' = el_previewStatus els
  /\ el_previewOutput els' = el_previewOutput els
  /\ el_previewStyle els' = el_previewStyle els
  /\ el_btnDownload els' = el_btnDownload els
  /\ el_loadingTemplate els' = el_loadingTemplate els.
Proof.
  unfold gatherTheme. cbn [snd].
  destruct (el_customOrderedBase els); repeat split.
Qed.

Lemma runPreview_unconfigured (w : World) :
  configured (preview urls) = None -> runPreview w = w.
Proof.
  intros H. unfold runPreview. now rewrite H.
Qed.

Lemma runPreview_sends (w : World) (url : jsstring) :
  configured (preview urls) = Some url ->
  previewFetches (runPreview w) =
    (S (activePreviewSerial w), requestFrom url w) :: previewFetches w
  /\ activePreviewSerial (runPreview w) = S (activePreviewSerial w)
  /\ previewWaiting (runPreview w) = S (activePreviewSerial w) :: previewWaiting w
  /\ timers (runPreview w) = timers w
  /\ previewTimer (runPreview w) = previewTimer w
  /\ nextTimerId (runPreview w) = nextTimerId w
  /\ clock (runPreview w) = clock w.
Proof.
  intros H. unfold runPreview. rewrite H.
  destruct (gatherTheme_snd_frame (elements w)) as [Hm _].
  unfold requestFrom.
  destruct (gatherTheme (elements w)) as [theme els] eqn:G.
  cbn in Hm |- *. rewrite Hm. repeat split.
Qed.

Lemma runPreviewSettled_pipeline (serial : nat) (o : Outcome PreviewData) (w : World) :
  pipeline (runPreviewSettled serial o w) = pipeline w
  /\ clock (runPreviewSettled serial o w) = clock w.
Proof.
  unfold runPreviewSettled, previewCatch.
  destruct o; cases; split; reflexivity.
Qed.

Lemma toggleLoading_pipeline (isLoading : bool) (w : World) :
  pipeline (snd (toggleLoading isLoading w)) = pipeline w
  /\ clock (snd (toggleLoading isLoading w)) = clock w
  /\ elements (snd (toggleLoading isLoading w)) = elements w.
Proof.
  unfold toggleLoading. cases; repeat split.
Qed.

Lemma downloadPdf_pipeline (w : World) :
  pipeline (downloadPdf w) = pipeline w /\ clock (downloadPdf w) = clock w.
Proof.
  unfold downloadPdf.
  destruct (configured (pdf urls)); [| split; reflexivity].
  destruct (gatherTheme (elements w)) as [theme els]. cbv zeta.
  match goal with
  | |- context [toggleLoading true ?x] =>
      destruct (toggleLoading_pipeline true x) as [Hp [Hc _]];
      revert Hp Hc; generalize (toggleLoading true x)
  end.
  intros [ov w1] Hp Hc. cbn in Hp, Hc |- *.
  unfold pipeline in *. cbn in *. split; [exact Hp | exact Hc].
Qed.

Lemma downloadPdfSettled_pipeline (ov : bool) (o : Outcome Blob) (ts : jsstring) (w : World) :
  pipeline (downloadPdfSettled ov o ts w) = pipeline w
  /\ clock (downloadPdfSettled ov o ts w) = clock w.
Proof.
  unfold downloadPdfSettled, exportFinally, exportCatch, toggleLoading.
  destruct o, ov; cases; split; reflexivity.
Qed.

(** The listeners of the controls leave the preview surface and the
    buttons alone. *)
Lemma surface_updateBulletRemoveButtons (els : Elements) :
  surface (updateBulletRemoveButtons els) = surface els.
Proof.
  unfold updateBulletRemoveButtons. destruct (el_bulletSequenceList els); reflexivity.
Qed.

Lemma surface_addBulletRow (value : jsstring) (els : Elements) :
  surface (addBulletRow value els) = surface els.
Proof.
  unfold addBulletRow. destruct (el_bulletSequenceList els); reflexivity.
Qed.

Lemma surface_setBulletEditorDisabled (disabled : bool) (els : Elements) :
  surface (setBulletEditorDisabled disabled els) = surface els.
Proof.
  unfold setBulletEditorDisabled. cbv zeta.
  destruct (el_bulletEditor els); cases; reflexivity.
Qed.

Lemma surface_setOrderedEditorDisabled (disabled : bool) (els : Elements) :
  surface (setOrderedEditorDisabled disabled els) = surface els.
Proof.
  unfold setOrderedEditorDisabled. cbv zeta.
  destruct (el_orderedEditor els); cases; reflexivity.
Qed.

Lemma surface_updateCustomControlsState (els : Elements) :
  surface (updateCustomControlsState els) = surface els.
Proof.
  unfold updateCustomControlsState. cbv zeta.
  now rewrite surface_setOrderedEditorDisabled, surface_updateBulletRemoveButtons,
    surface_setBulletEditorDisabled.
Qed.

Lemma surface_renderOrderedSequence (baseValue : jsvalue) (values : list jsstring)
    (els : Elements) :
  surface (renderOrderedSequence baseValue values els) = surface els.
Proof.
  unfold renderOrderedSequence. destruct (el_orderedSequenceList els); reflexivity.
Qed.

Lemma onBaseEdited_schedules (commit : bool) (w w' : World) :
  onBaseEdited commit w = Some w' ->
  exists els,
    w' = schedulePreview commit (set_elements els w)
    /\ surface els = surface (elements w).
Proof.
  unfold onBaseEdited. destruct (el_customOrderedBase (elements w)); [| discriminate].
  cbv zeta. intros H. injection H as <-. eexists. split; [reflexivity |].
  rewrite surface_updateCustomControlsState, surface_renderOrderedSequence.
  destruct commit; reflexivity.
Qed.

(** A listener that schedules a preview changes elements only, then
    calls [schedulePreview]. *)
Lemma handle_schedules (e : Event) (im : bool) (w w' : World) :
  schedules e = Some im ->
  handle e w = Some w' ->
  exists els,
    w' = schedulePreview im (set_elements els w)
    /\ surface els = surface (elements w).
Proof.
  intros Hs Hh.
  destruct e; simpl in Hs; try discriminate; injection Hs as <-;
    unfold handle in Hh; cbv beta iota zeta in Hh.
  - (* Input *)
    destruct (el_control (elements w) c); [| discriminate].
    injection Hh as <-. eexists. split; reflexivity.
  - (* PrefixInput *)
    destruct (typeInto v (el_customOrderedPrefix (elements w))); [| discriminate].
    injection Hh as <-. eexists. split; reflexivity.
  - (* SuffixInput *)
    destruct (typeInto v (el_customOrderedSuffix (elements w))); [| discriminate].
    injection Hh as <-. eexists. split; reflexivity.
  - (* BulletInput *)
    destruct (el_bulletSequenceList (elements w)) as [rows |]; [| discriminate].
    destruct (nth_error rows i) as [row |]; [| discriminate].
    destruct (b_inputDisabled row); [discriminate |].
    injection Hh as <-. eexists. split; reflexivity.
  - (* DigitInput *)
    destruct (el_orderedSequenceList (elements w)) as [rows |]; [| discriminate].
    destruct (nth_error rows i) as [row |]; [| discriminate].
    destruct (o_disabled row); [discriminate |].
    injection Hh as <-. eexists. split; reflexivity.
  - (* ToggleBullets *)
    destruct (el_toggleCustomBullets (elements w)); [| discriminate].
    injection Hh as <-. eexists. split; [reflexivity |].
    now rewrite surface_updateCustomControlsState.
  - (* ToggleOrdered *)
    destruct (el_toggleCustomOrdered (elements w)); [| discriminate].
    injection Hh as <-. eexists. split; [reflexivity |].
    now rewrite surface_updateCustomControlsState.
  - (* BaseInput *)
    destruct (typeInto v (el_customOrderedBase (elements w))); [| discriminate].
    apply onBaseEdited_schedules in Hh. destruct Hh as [els [-> Hsurf]].
    exists els. split; [reflexivity | exact Hsurf].
  - (* BaseChange *)
    destruct (el_customOrderedBase (elements w)) as [f |]; [| discriminate].
    destruct (f_disabled f); [discriminate |].
    now apply onBaseEdited_schedules.
  - (* AddBullet *)
    destruct (el_btnAddBullet (elements w)) as [[|] |]; try discriminate.
    injection Hh as <-. eexists. split; [reflexivity |].
    now rewrite surface_updateBulletRemoveButtons, surface_addBulletRow.
  - (* RemoveBullet *)
    destruct (el_bulletSequenceList (elements w)) as [rows |]; [| discriminate].
    destruct (nth_error rows i) as [row |]; [| discriminate].
    destruct (b_removeDisabled row); [discriminate |].
    injection Hh as <-. eexists. split; [reflexivity |].
    now rewrite surface_updateBulletRemoveButtons.
  - (* ClickPreview *)
    destruct (el_btnPreview (elements w)); [| discriminate].
    injection Hh as <-. exists (elements w). split; [| reflexivity].
    now destruct w.
Qed.

Lemma schedulePreview_frame (im : bool) (w : World) :
  activePreviewSerial (schedulePreview im w) = activePreviewSerial w
  /\ previewFetches (schedulePreview im w) = previewFetches w
  /\ previewWaiting (schedulePreview im w) = previewWaiting w
  /\ clock (schedulePreview im w) = clock w
  /\ elements (schedulePreview im w) = elements w
  /\ exportSide (schedulePreview im w) = exportSide w.
Proof.
  unfold schedulePreview, clearTimeout, setTimeout. cbn.
  cases; repeat split.
Qed.

(** *** The debounce timer *)

(** Scheduling cancels the pending timeout and leaves exactly one, due
    280 ms later, or at once when [immediate] is set. *)
Lemma schedulePreview_single_timer (im : bool) (w : World) :
  timersOk w ->
  timers (schedulePreview im w) = [(nextTimerId w, clock w + delayOf im)]
  /\ previewTimer (schedulePreview im w) = Some (nextTimerId w).
Proof.
  intros Hok. unfold schedulePreview, clearTimeout, setTimeout, delayOf. cbn.
  destruct Hok as [H | [id [due [H Hp]]]].
  - destruct (previewTimer w); cbn; rewrite H; split; reflexivity.
  - rewrite Hp. cbn. rewrite H. cbn. rewrite Nat.eqb_refl. cbn.
    split; reflexivity.
Qed.

Lemma handle_quiet (e : Event) (w w' : World) :
  schedules e = None ->
  handle e w = Some w' ->
  (pipeline w' = pipeline w /\ clock w <= clock w')
  \/ (exists id due,
        e = TimerFires id /\ In (id, due) (timers w) /\ due <= clock w
        /\ w' = runPreview (clearTimeout (Some id) w)).
Proof.
  intros Hs Hh. destruct e; simpl in Hs; try discriminate; cbn in Hh.
  - (* ClickDownload *)
    left. destruct (el_btnDownload (elements w)) as [[|] |]; try discriminate.
    injection Hh as <-. destruct (downloadPdf_pipeline w) as [-> ->]. auto.
  - (* Elapse *)
    left. injection Hh as <-. cbn. split; [reflexivity | lia].
  - (* TimerFires *)
    right. destruct (find (fun t => fst t =? id) (timers w)) as [[i due] |] eqn:F;
      [| discriminate].
    destruct (Nat.leb_spec due (clock w)); [| discriminate].
    injection Hh as <-. apply find_some in F. destruct F as [Hin Heq].
    cbn in Heq. apply Nat.eqb_eq in Heq. subst i.
    exists id, due. auto.
  - (* PreviewSettles *)
    left. destruct (existsb (Nat.eqb serial) (previewWaiting w)); [| discriminate].
    injection Hh as <-.
    match goal with
    | |- context [runPreviewSettled ?s ?o ?x] =>
        destruct (runPreviewSettled_pipeline s o x) as [-> ->]
    end.
    split; [reflexivity | cbn; lia].
  - (* ExportSettles *)
    left. destruct (find (fun x => fst x =? ticket) (exportWaiting w)) as [[n ov] |];
      [| discriminate].
    injection Hh as <-.
    match goal with
    | |- context [downloadPdfSettled ?a ?o ?t ?x] =>
        destruct (downloadPdfSettled_pipeline a o t x) as [-> ->]
    end.
    split; [reflexivity | cbn; lia].
Qed.

Lemma handle_clock (e : Event) (w w' : World) :
  handle e w = Some w' -> clock w <= clock w'.
Proof.
  intros Hh. destruct (schedules e) as [im |] eqn:Hs.
  - destruct (handle_schedules _ _ _ _ Hs Hh) as [els [-> _]].
    destruct (schedulePreview_frame im (set_elements els w)) as [_ [_ [_ [-> _]]]].
    cbn. lia.
  - destruct (handle_quiet _ _ _ Hs Hh) as [[_ H] | [id [due [_ [_ [_ ->]]]]]];
      [exact H |].
    destruct (configured (preview urls)) as [url |] eqn:C.
    + destruct (runPreview_sends (clearTimeout (Some id) w) _ C)
        as [_ [_ [_ [_ [_ [_ ->]]]]]].
      cbn. lia.
    + rewrite (runPreview_unconfigured _ C). cbn. lia.
Qed.

(** The serial counter never goes down. *)
Lemma handle_serial_monotone (e : Event) (w w' : World) :
  handle e w = Some w' -> activePreviewSerial w <= activePreviewSerial w'.
Proof.
  intros Hh. destruct (schedules e) as [im |] eqn:Hs.
  - destruct (handle_schedules _ _ _ _ Hs Hh) as [els [-> _]].
    destruct (schedulePreview_frame im (set_elements els w)) as [-> _].
    cbn. lia.
  - destruct (handle_quiet _ _ _ Hs Hh) as [[H _] | [id [due [_ [_ [_ ->]]]]]].
    + unfold pipeline in H. injection H as _ _ _ _ ->. lia.
    + destruct (configured (preview urls)) as [url |] eqn:C.
      * destruct (runPreview_sends (clearTimeout (Some id) w) _ C) as [_ [-> _]].
        cbn. lia.
      * rewrite (runPreview_unconfigured _ C). cbn. lia.
Qed.

Lemma run_serial_monotone (events : list Event) (w w' : World) :
  run events w = Some w' -> activePreviewSerial w <= activePreviewSerial w'.
Proof.
  revert w. induction events as [| e rest IH]; intros w H; simpl in H.
  - injection H as <-. lia.
  - destruct (handle e w) as [w1 |] eqn:Hh; [| discriminate].
    apply handle_serial_monotone in Hh. apply IH in H. lia.
Qed.

Lemma run_clock (events : list Event) (w w' : World) :
  run events w = Some w' -> clock w <= clock w'.
Proof.
  revert w. induction events as [| e rest IH]; intros w H; simpl in H.
  - injection H as <-. lia.
  - destruct (handle e w) as [w1 |] eqn:Hh; [| discriminate].
    apply handle_clock in Hh. apply IH in H. lia.
Qed.

Lemma run_app (a b : list Event) (w : World) :
  run (a ++ b) w =
  match run a w with
  | Some w' => run b w'
  | None => None
  end.
Proof.
  revert w. induction a as [| e a IH]; intros w; simpl; [reflexivity |].
  destruct (handle e w); [apply IH | reflexivity].
Qed.

(** Every event keeps the timer invariant. *)
Lemma handle_timersOk (e : Event) (w w' : World) :
  timersOk w -> handle e w = Some w' -> timersOk w'.
Proof.
  intros Hok Hh. destruct (schedules e) as [im |] eqn:Hs.
  - destruct (handle_schedules _ _ _ _ Hs Hh) as [els [-> _]].
    destruct (schedulePreview_single_timer im (set_elements els w)) as [H1 H2];
      [exact Hok |].
    right. eauto.
  - destruct (handle_quiet _ _ _ Hs Hh) as [[H _] | [id [due [_ [Hin [_ ->]]]]]].
    + unfold pipeline in H. injection H as Ht Hp _ _ _.
      unfold timersOk. rewrite Ht, Hp. exact Hok.
    + left.
      assert (Hc : timers (clearTimeout (Some id) w) = []).
      { destruct Hok as [H | [i [d [H _]]]]; rewrite H in Hin; [destruct Hin |].
        destruct Hin as [Heq | []]. injection Heq as -> ->.
        cbn. rewrite H. cbn. now rewrite Nat.eqb_refl. }
      destruct (configured (preview urls)) as [url |] eqn:C.
      * destruct (runPreview_sends (clearTimeout (Some id) w) _ C)
          as [_ [_ [_ [-> _]]]].
        exact Hc.
      * now rewrite (runPreview_unconfigured _ C).
Qed.

Lemma run_timersOk (events : list Event) (w w' : World) :
  timersOk w -> run events w = Some w' -> timersOk w'.
Proof.
  revert w. induction events as [| e rest IH]; intros w Hok Hr; simpl in Hr.
  - now injection Hr as <-.
  - destruct (handle e w) as [w1 |] eqn:Hh; [| discriminate].
    apply (IH w1); [| exact Hr]. exact (handle_timersOk _ _ _ Hok Hh).
Qed.

Lemma quiet_run_no_timer (events : list Event) (w w' : World) :
  timers w = [] ->
  Forall (fun e => schedules e = None) events ->
  run events w = Some w' ->
  timers w' = [] /\ previewFetches w' = previewFetches w.
Proof.
  revert w. induction events as [| e rest IH]; intros w Ht Hq Hr; simpl in Hr.
  - injection Hr as <-. auto.
  - destruct (handle e w) as [w1 |] eqn:Hh; [| discriminate].
    inversion Hq as [| ? ? He Hrest]; subst.
    destruct (handle_quiet _ _ _ He Hh) as [[Hp _] | [id [due [_ [Hin _]]]]].
    + unfold pipeline in Hp. injection Hp as Ht1 _ _ Hf1 _.
      rewrite Ht in Ht1. destruct (IH w1 Ht1 Hrest Hr) as [H1 H2].
      split; [exact H1 | congruence].
    + rewrite Ht in Hin. destruct Hin.
Qed.

(** While one timeout is pending and nothing schedules a preview, no
    request goes out until the timeout fires, which it does once, not
    before it is due, with the page as it is then. *)
Lemma quiet_run_pending (url : jsstring) (id due : nat) (events : list Event)
    (w w' : World) :
  configured (preview urls) = Some url ->
  timers w = [(id, due)] ->
  Forall (fun e => schedules e = None) events ->
  run events w = Some w' ->
  (timers w' = [(id, due)] /\ previewFetches w' = previewFetches w)
  \/ (timers w' = []
      /\ exists pre post wf,
           events = pre ++ TimerFires id :: post
           /\ run pre w = Some wf
           /\ due <= clock wf
           /\ previewFetches w' =
              (S (activePreviewSerial wf), requestFrom url wf) :: previewFetches w).
Proof.
  intros Hurl. revert w.
  induction events as [| e rest IH]; intros w Ht Hq Hr; simpl in Hr.
  - injection Hr as <-. left. auto.
  - destruct (handle e w) as [w1 |] eqn:Hh; [| discriminate].
    inversion Hq as [| ? ? He Hrest]; subst.
    destruct (handle_quiet _ _ _ He Hh) as [[Hp _] | [i [d [-> [Hin [Hdue ->]]]]]].
    + unfold pipeline in Hp. injection Hp as Ht1 _ _ Hf1 _.
      rewrite Ht in Ht1.
      destruct (IH w1 Ht1 Hrest Hr)
        as [[H1 H2] | [H1 [pre [post [wf [-> [Hpre [Hd Hf]]]]]]]].
      * left. split; [exact H1 | congruence].
      * right. split; [exact H1 |].
        exists (e :: pre), post, wf. repeat split; auto.
        -- simpl. now rewrite Hh.
        -- now rewrite Hf, Hf1.
    + rewrite Ht in Hin. destruct Hin as [Heq | []]. injection Heq as <- <-.
      destruct (runPreview_sends (clearTimeout (Some id) w) _ Hurl)
        as [Hf [_ [_ [Htm _]]]].
      assert (Hc : timers (clearTimeout (Some id) w) = []).
      { cbn. rewrite Ht. cbn. now rewrite Nat.eqb_refl. }
      rewrite Hc in Htm.
      destruct (quiet_run_no_timer _ _ _ Htm Hrest Hr) as [H1 H2].
      right. split; [exact H1 |].
      exists [], rest, w. repeat split; auto.
      rewrite H2, Hf. reflexivity.
Qed.

(** C8. A listener that schedules a preview cancels the pending timeout
    and starts one of its own, due after 280 ms, or at once when it
    schedules with [immediate]. So when a second scheduling event comes
    before the timeout of the first is due, whatever else happened in
    between, the two leave one timeout pending; as long as nothing
    schedules again, no request goes out before that timeout fires, it
    fires at most once and not before it is due, and the one request it
    sends carries the theme and the markdown gathered from the page as it
    is at that moment. Once the delay has passed it can fire.
    ([timersOk] holds when the script has loaded and every event keeps
    it; the preview URL is taken to be set, as [runPreview] returns at
    once without it.) *)
Theorem debounce_collapses_burst
    (url : jsstring) (w0 w1 w1' w2 w3 : World) (e1 e2 : Event) (im1 im2 : bool)
    (gapEvents events : list Event) :
  configured (preview urls) = Some url ->
  timersOk w0 ->
  schedules e1 = Some im1 -> handle e1 w0 = Some w1 ->
  Forall (fun e => schedules e = None) gapEvents ->
  run gapEvents w1 = Some w1' ->
  clock w1' < clock w0 + delayOf im1 ->
  schedules e2 = Some im2 -> handle e2 w1' = Some w2 ->
  Forall (fun e => schedules e = None) events ->
  run events w2 = Some w3 ->
  timers w1 = [(nextTimerId w0, clock w0 + delayOf im1)]
  /\ timers w2 = [(nextTimerId w1', clock w1' + delayOf im2)]
  /\ previewFetches w2 = previewFetches w0
  /\ ((timers w3 = timers w2 /\ previewFetches w3 = previewFetches w0)
      \/ (timers w3 = []
          /\ exists pre post wf,
               events = pre ++ TimerFires (nextTimerId w1') :: post
               /\ run pre w2 = Some wf
               /\ clock w1' + delayOf im2 <= clock wf
               /\ previewFetches w3 =
                  (S (activePreviewSerial wf), requestFrom url wf)
                  :: previewFetches w0))
  /\ exists w4,
       run [Elapse (delayOf im2); TimerFires (nextTimerId w1')] w2 = Some w4
       /\ previewFetches w4 =
          (S (activePreviewSerial w2), requestFrom url w2) :: previewFetches w0.
Proof.
  intros Hurl Hok Hs1 Hh1 Hgap Hrun1 Hwindow Hs2 Hh2 Hquiet Hrun2.
  (* the first scheduling *)
  destruct (handle_schedules _ _ _ _ Hs1 Hh1) as [els1 [E1 _]].
  destruct (schedulePreview_single_timer im1 (set_elements els1 w0) Hok)
    as [T1 P1].
  destruct (schedulePreview_frame im1 (set_elements els1 w0))
    as [_ [F1 [_ [C1 _]]]].
  rewrite <- E1 in T1, P1, F1, C1. cbn in T1, P1, F1, C1.
  (* the gap: the timeout is not due, so it is still pending *)
  destruct (quiet_run_pending _ _ _ _ _ _ Hurl T1 Hgap Hrun1)
    as [[T1' F1'] | [_ [pre [post [wf [-> [Hpre [Hdue _]]]]]]]].
  2:{ rewrite run_app, Hpre in Hrun1. cbn [run] in Hrun1.
      destruct (handle (TimerFires (nextTimerId w0)) wf) as [wx |] eqn:Hx;
        [| discriminate].
      apply handle_clock in Hx. apply run_clock in Hrun1. lia. }
  assert (Hok1 : timersOk w1).
  { right. eauto. }
  pose proof (run_timersOk _ _ _ Hok1 Hrun1) as Hok1'.
  (* the second scheduling *)
  destruct (handle_schedules _ _ _ _ Hs2 Hh2) as [els2 [E2 _]].
  destruct (schedulePreview_single_timer im2 (set_elements els2 w1') Hok1')
    as [T2 P2].
  destruct (schedulePreview_frame im2 (set_elements els2 w1'))
    as [A2 [F2 [_ [C2 _]]]].
  rewrite <- E2 in T2, P2, F2, C2, A2. cbn in T2, P2, F2, C2, A2.
  assert (F20 : previewFetches w2 = previewFetches w0) by congruence.
  split; [exact T1 |]. split; [exact T2 |]. split; [exact F20 |].
  split.
  - destruct (quiet_run_pending _ _ _ _ _ _ Hurl T2 Hquiet Hrun2)
      as [[T3 F3] | [T3 [pre [post [wf [-> [Hpre [Hdue F3]]]]]]]].
    + left. split; congruence.
    + right. split; [exact T3 |].
      exists pre, post, wf. repeat split; auto. now rewrite F3, F20.
  - simpl run. cbn [handle]. cbn [timers set_clock]. rewrite T2.
    cbn [find fst]. rewrite Nat.eqb_refl.
    cbn [clock set_clock]. rewrite C2.
    destruct (Nat.leb_spec (clock w1' + delayOf im2) (clock w1' + delayOf im2));
      [| lia].
    eexists. split; [reflexivity |].
    match goal with
    | |- context [runPreview ?x] =>
        destruct (runPreview_sends x _ Hurl) as [-> _]
    end.
    cbn. rewrite F20. reflexivity.
Qed.

(** *** Stale responses *)

(** A successful response whose serial is not the active one leaves the
    world as it is. *)
Lemma runPreviewSettled_stale_success (serial : nat) (data : PreviewData) (w : World) :
  serial <> activePreviewSerial w ->
  runPreviewSettled serial (HttpSuccess data) w = w.
Proof.
  intros H. unfold runPreviewSettled.
  destruct (Nat.eqb_spec serial (activePreviewSerial w)); [contradiction |].
  reflexivity.
Qed.

(** A successful response whose serial is the active one is applied. *)
Lemma runPreviewSettled_current_success (data : PreviewData) (w : World) :
  let w' := runPreviewSettled (activePreviewSerial w) (HttpSuccess data) w in
  el_previewOutput (elements w') =
    option_map (fun _ => orEmpty (html data)) (el_previewOutput (elements w))
  /\ el_previewStyle (elements w') =
    option_map (fun _ => orEmpty (css data)) (el_previewStyle (elements w))
  /\ activePreviewSerial w' = activePreviewSerial w.
Proof.
  unfold runPreviewSettled, updateStatus. rewrite Nat.eqb_refl. cbn.
  cases; cbn in *; repeat split; try congruence;
    repeat match goal with
      | H : ?x = _ |- context [?x] => rewrite H
      end; reflexivity.
Qed.

(** C1. Of two requests with serials [s1 < s2], let the successful
    response of [s2] arrive while [s2] is the active serial, so that it is
    applied: the preview surface then shows its html and css. Whatever
    happens afterwards, the successful response of [s1] changes nothing
    when it arrives: not the surface, not the status, not the title. In
    particular, arriving right after, it leaves the surface showing the
    result of [s2]. *)
Theorem stale_success_is_discarded (w w3 : World) (s1 s2 : nat)
    (d1 d2 : PreviewData) (events : list Event) :
  s1 < s2 ->
  activePreviewSerial w = s2 ->
  run events (runPreviewSettled s2 (HttpSuccess d2) w) = Some w3 ->
  let w2 := runPreviewSettled s2 (HttpSuccess d2) w in
  el_previewOutput (elements w2) =
    option_map (fun _ => orEmpty (html d2)) (el_previewOutput (elements w))
  /\ el_previewStyle (elements w2) =
    option_map (fun _ => orEmpty (css d2)) (el_previewStyle (elements w))
  /\ runPreviewSettled s1 (HttpSuccess d1) w3 = w3
  /\ runPreviewSettled s1 (HttpSuccess d1) w2 = w2.
Proof.
  intros Hlt Hs Hrun w2. subst w2 s2.
  destruct (runPreviewSettled_current_success d2 w) as [Ho [Hc Ha]].
  split; [exact Ho |]. split; [exact Hc |].
  apply run_serial_monotone in Hrun.
  split; apply runPreviewSettled_stale_success; lia.
Qed.

(** The failure paths of [runPreview] never look at the serial: a
    response that is an error, stale or not, puts its message on the
    status line and marks it as an error. *)
Theorem error_response_updates_status (serial : nat) (w : World) :
  (forall status payload,
      el_previewStatus
        (elements (runPreviewSettled serial (HttpFailure status payload) w)) =
      option_map
        (fun _ => errorStatus (errorMessage payload MSG_PREVIEW_FAILED status))
        (el_previewStatus (elements w)))
  /\ (forall message,
        el_previewStatus
          (elements (runPreviewSettled serial (NetworkFailure message) w)) =
        option_map (fun _ => errorStatus message) (el_previewStatus (elements w))).
Proof.
  split; intros; unfold runPreviewSettled, previewCatch, updateStatus, errorStatus;
    cbn; destruct (el_previewStatus (elements w)) eqn:E; cbn; rewrite ?E;
    reflexivity.
Qed.

(** *** The export *)

Lemma runPreview_exportSide (w : World) :
  exportSide (runPreview w) = exportSide w.
Proof.
  unfold runPreview. destruct (configured (preview urls)); [| reflexivity].
  destruct (gatherTheme_snd_frame (elements w)) as [_ [_ [_ [_ [Hb Hl]]]]].
  destruct (gatherTheme (elements w)) as [theme els]. cbn in Hb, Hl.
  unfold exportSide, updateStatus. cbn. cases; cbn; rewrite ?Hb, ?Hl; reflexivity.
Qed.

Lemma runPreviewSettled_exportSide (serial : nat) (o : Outcome PreviewData) (w : World) :
  exportSide (runPreviewSettled serial o w) = exportSide w.
Proof.
  unfold runPreviewSettled, previewCatch, updateStatus, exportSide.
  destruct o; cases; reflexivity.
Qed.

(** While the download button is disabled, nothing but the export's own
    response touches what the export shows and holds. *)
Lemma handle_exportSide (e : Event) (w w' : World) :
  isExportSettles e = false ->
  el_btnDownload (elements w) = Some true ->
  handle e w = Some w' ->
  exportSide w' = exportSide w.
Proof.
  intros He Hb Hh. destruct (schedules e) as [im |] eqn:Hs.
  - destruct (handle_schedules _ _ _ _ Hs Hh) as [els [-> Hsurf]].
    destruct (schedulePreview_frame im (set_elements els w))
      as [_ [_ [_ [_ [_ ->]]]]].
    unfold surface in Hsurf. injection Hsurf as _ _ _ _ H1 H2.
    unfold exportSide. cbn. now rewrite H1, H2.
  - destruct e; simpl in Hs, He; try discriminate; cbn in Hh.
    + rewrite Hb in Hh. discriminate.
    + injection Hh as <-. reflexivity.
    + destruct (find (fun t => fst t =? id) (timers w)) as [[i due] |];
        [| discriminate].
      destruct (due <=? clock w); [| discriminate].
      injection Hh as <-. rewrite runPreview_exportSide. reflexivity.
    + destruct (existsb (Nat.eqb serial) (previewWaiting w)); [| discriminate].
      injection Hh as <-. rewrite runPreviewSettled_exportSide. reflexivity.
Qed.

Lemma run_exportSide (events : list Event) (w w' : World) :
  Forall (fun e => isExportSettles e = false) events ->
  el_btnDownload (elements w) = Some true ->
  run events w = Some w' ->
  exportSide w' = exportSide w.
Proof.
  revert w. induction events as [| e rest IH]; intros w Hq Hb Hr; simpl in Hr.
  - now injection Hr as <-.
  - destruct (handle e w) as [w1 |] eqn:Hh; [| discriminate].
    inversion Hq as [| ? ? He Hrest]; subst.
    pose proof (handle_exportSide _ _ _ He Hb Hh) as H1.
    rewrite (IH w1 Hrest) ; [exact H1 | | exact Hr].
    unfold exportSide in H1. injection H1 as _ -> _ _ _ _ _. exact Hb.
Qed.

(** The export, from the click to the settled request. *)
Lemma downloadPdf_started (url : jsstring) (w : World) :
  configured (pdf urls) = Some url ->
  el_btnDownload (elements w) = Some false ->
  let w1 := downloadPdf w in
  el_btnDownload (elements w1) = Some true
  /\ exportFetches w1 = requestFrom url w :: exportFetches w
  /\ alerts w1 = alerts w
  /\ downloads w1 = downloads w
  /\ exists ov,
       exportWaiting w1 = (length (exportFetches w), ov) :: exportWaiting w
       /\ (ov = false -> overlay w1 = false).
Proof.
  intros Hurl Hb. unfold downloadPdf. rewrite Hurl.
  destruct (gatherTheme_snd_frame (elements w)) as [Hm [_ [_ [_ [Hd Hl]]]]].
  unfold requestFrom.
  destruct (gatherTheme (elements w)) as [theme els]. cbn in Hm, Hd, Hl.
  unfold toggleLoading, setDownloadDisabled. cbn. rewrite Hl.
  destruct (overlay w) eqn:Ho; [| destruct (el_loadingTemplate (elements w))];
    cbn; rewrite Hd, Hb, Hm; cbn; repeat split;
    eexists; (split; [reflexivity |]); intros H; congruence.
Qed.

Lemma exportFinally_clean (ov : bool) (w : World) :
  (ov = false -> overlay w = false) ->
  el_btnDownload (elements w) = Some true ->
  overlay (exportFinally ov w) = false
  /\ el_btnDownload (elements (exportFinally ov w)) = Some false.
Proof.
  intros Hov Hb. unfold exportFinally, toggleLoading, setDownloadDisabled.
  destruct ov; cbn [snd].
  - destruct (overlay w) eqn:E; cbn; rewrite Hb; cbn; auto.
  - rewrite Hb. cbn. auto.
Qed.

Lemma exportFinally_alerts (ov : bool) (w : World) :
  alerts (exportFinally ov w) = alerts w.
Proof.
  unfold exportFinally, toggleLoading. cases; reflexivity.
Qed.

Lemma exportFinally_downloads (ov : bool) (w : World) :
  downloads (exportFinally ov w) = downloads w.
Proof.
  unfold exportFinally, toggleLoading. cases; reflexivity.
Qed.

(** C9, as the script has it. An export runs from the click on the
    download button to the settling of its request; other events may come
    in between. However the request settles (the document arrives, the
    server answers with an error and whatever body, the network fails,
    the body cannot be read), afterwards no loading overlay is left and
    the download button is enabled again. When the server answers with an
    error status and a JSON body whose [error] is a non-empty string,
    that string is shown in an alert; when [error] is the empty string,
    the alert shows the generic message with the status instead. A
    document that arrives is downloaded and nothing is alerted. *)
Theorem export_cleans_up_and_alerts (url : jsstring) (w w1 w1' w2 : World)
    (events : list Event) (outcome : Outcome Blob) (timestamp : jsstring) :
  configured (pdf urls) = Some url ->
  handle ClickDownload w = Some w1 ->
  Forall (fun e => isExportSettles e = false) events ->
  run events w1 = Some w1' ->
  handle (ExportSettles (length (exportFetches w)) outcome timestamp) w1' = Some w2 ->
  overlay w2 = false
  /\ el_btnDownload (elements w2) = Some false
  /\ (forall status message,
        outcome = HttpFailure status (Member (VStr message)) -> message <> [] ->
        alerts w2 = message :: alerts w)
  /\ (forall status,
        outcome = HttpFailure status (Member (VStr [])) ->
        alerts w2 = (MSG_PDF_FAILED ++ String_nat status ++ lit ")") :: alerts w)
  /\ (forall blob,
        outcome = HttpSuccess blob ->
        alerts w2 = alerts w
        /\ exists name, downloads w2 = (name, blob) :: downloads w).
Proof.
  intros Hurl Hclick Hq Hrun Hsettle.
  cbn in Hclick.
  destruct (el_btnDownload (elements w)) as [[|] |] eqn:Hb; try discriminate.
  injection Hclick as <-.
  destruct (downloadPdf_started url w Hurl Hb)
    as [Hb1 [_ [Ha1 [Hd1 [ov [Hw1 Hov]]]]]].
  pose proof (run_exportSide _ _ _ Hq Hb1 Hrun) as Hside.
  unfold exportSide in Hside. injection Hside as Ho' Hb' _ _ Hw' Ha' Hd'.
  cbv zeta in Hb1, Ha1, Hd1, Hw1, Hov.
  rewrite Hb1 in Hb'. rewrite Hw1 in Hw'. rewrite Ha1 in Ha'. rewrite Hd1 in Hd'.
  cbn [handle] in Hsettle. rewrite Hw' in Hsettle.
  cbn [find fst] in Hsettle. rewrite Nat.eqb_refl in Hsettle.
  injection Hsettle as <-.
  unfold downloadPdfSettled.
  assert (Hov' : ov = false -> overlay w1' = false).
  { intros H. rewrite Ho'. now apply Hov. }
  set (x := set_exportWaiting _ w1') in *.
  assert (Hclean : forall y,
             overlay y = overlay w1' ->
             elements y = elements w1' ->
             overlay (exportFinally ov y) = false
             /\ el_btnDownload (elements (exportFinally ov y)) = Some false).
  { intros y Hoy Hey. apply exportFinally_clean.
    - rewrite Hoy. exact Hov'.
    - rewrite Hey. exact Hb'. }
  destruct outcome as [m | status payload | blob | m].
  - destruct (Hclean (exportCatch m x)) as [H1 H2]; try reflexivity.
    split; [exact H1 |]. split; [exact H2 |].
    split; [| split]; intros; discriminate.
  - destruct (Hclean (exportCatch (errorMessage payload MSG_PDF_FAILED status) x))
      as [H1 H2]; try reflexivity.
    split; [exact H1 |]. split; [exact H2 |].
    rewrite exportFinally_alerts. cbn [alerts exportCatch set_alerts x set_exportWaiting].
    rewrite Ha'. split; [| split].
    + intros st message Heq Hne. injection Heq as -> ->.
      destruct message; [contradiction | reflexivity].
    + intros st Heq. injection Heq as -> ->. reflexivity.
    + intros; discriminate.
  - match goal with
    | |- context [exportFinally ov ?y] =>
        destruct (Hclean y) as [H1 H2]; try reflexivity
    end.
    split; [exact H1 |]. split; [exact H2 |].
    rewrite exportFinally_alerts, exportFinally_downloads.
    cbn [alerts downloads set_downloads x set_exportWaiting].
    rewrite Ha', Hd'. split; [| split]; try (intros; discriminate).
    intros b Heq. injection Heq as ->. split; [reflexivity |].
    eexists. reflexivity.
  - destruct (Hclean (exportCatch m x)) as [H1 H2]; try reflexivity.
    split; [exact H1 |]. split; [exact H2 |].
    split; [| split]; intros; discriminate.
Qed.

(** *** More on strings *)

(** What [trimStart] drops is white space. *)
Lemma trimStart_split (s : jsstring) :
  exists p, s = p ++ trimStart s /\ blank p = true.
Proof.
  induction s as [| c s [p [Hs Hp]]]; simpl.
  - exists []. auto.
  - destruct (isWhiteSpace c) eqn:E.
    + exists (c :: p). simpl. unfold blank in *. simpl. rewrite E, Hp.
      split; [f_equal; exact Hs | reflexivity].
    + exists []. auto.
Qed.

Lemma trimStart_fixed (s : jsstring) :
  match s with [] => True | c :: _ => isWhiteSpace c = false end ->
  trimStart s = s.
Proof.
  destruct s as [| c r]; simpl; [reflexivity |]. now intros ->.
Qed.

Lemma trimStart_head_cases (s : jsstring) :
  match trimStart s with [] => True | c :: _ => isWhiteSpace c = false end.
Proof.
  destruct (trimStart s) as [| c r] eqn:E; [exact I |].
  exact (trimStart_head _ _ _ E).
Qed.

Lemma trim_idempotent (s : jsstring) : trim (trim s) = trim s.
Proof.
  unfold trim, trimEnd.
  set (a := trimStart s).
  set (r := trimStart (rev a)).
  assert (Hr : trimStart r = r).
  { apply trimStart_fixed. apply trimStart_head_cases. }
  assert (Ht : trimStart (rev r) = rev r).
  { apply trimStart_fixed.
    destruct (trimStart_split (rev a)) as [p [Hs _]]. fold r in Hs.
    apply (f_equal (@rev _)) in Hs. rewrite rev_involutive, rev_app_distr in Hs.
    pose proof (trimStart_head_cases s) as Ha. fold a in Ha.
    destruct (rev r) as [| c t]; [exact I |].
    rewrite Hs in Ha. exact Ha. }
  rewrite Ht, rev_involutive, Hr. reflexivity.
Qed.

Lemma trim_fixed_nonblank (s : jsstring) :
  trim s = s -> s <> [] -> blank s = false.
Proof.
  intros Ht Hs. destruct (blank s) eqn:E; [| reflexivity].
  apply trim_nil in E. congruence.
Qed.

(** *** More on the base sanitizer *)

Lemma sanitizeOrderedBase_finite (x : jsvalue) (q : Q) :
  ToNumber x = Fin q ->
  sanitizeOrderedBase x = ofZ (Z.min 10 (Z.max 2 (Qfloor (q + (1 # 2))%Q))).
Proof.
  intros Hx. unfold sanitizeOrderedBase, parseNumberOr. rewrite Hx.
  cbn [Number_isFinite Math_round Number_isNaN].
  change (Fin (inject_Z (Qfloor (q + (1 # 2))%Q)))
    with (ofZ (Qfloor (q + (1 # 2))%Q)).
  now rewrite clamp_ofZ by lia.
Qed.

(** X1. On a finite number the sanitizer rounds to the nearest integer
    (a tie going up) and clamps to 2..10. Infinity and -Infinity are not
    clamped to 10 and 2: like NaN they give the default base. *)
Theorem sanitizeOrderedBase_on_numbers (q : Q) :
  sanitizeOrderedBase (VNum (Fin q))
  = ofZ (Z.min 10 (Z.max 2 (Qfloor (q + (1 # 2))%Q)))
  /\ sanitizeOrderedBase (VNum PosInf) = DEFAULT_ORDERED_BASE
  /\ sanitizeOrderedBase (VNum NegInf) = DEFAULT_ORDERED_BASE.
Proof.
  split; [now apply sanitizeOrderedBase_finite |].
  split; now apply sanitizeOrderedBase_not_finite.
Qed.



(** *** More on the gathered theme *)

Lemma gatherTheme_title_cases (els : Elements) :
  title (fst (gatherTheme els)) <> []
  /\ match el_control els CTitle with
     | Some v =>
         if blank v then title (fst (gatherTheme els)) = lit "Untitled"
         else title (fst (gatherTheme els)) = trim v
     | None => title (fst (gatherTheme els)) = lit "Untitled"
     end.
Proof.
  assert (E : title (fst (gatherTheme els)) =
              match el_control els CTitle with
              | Some v => if nonEmpty (trim v) then trim v else lit "Untitled"
              | None => lit "Untitled"
              end).
  { unfold gatherTheme. cbn [fst title].
    destruct (el_customOrderedBase els); reflexivity. }
  rewrite E. destruct (el_control els CTitle) as [v |].
  - rewrite nonEmpty_trim. destruct (blank v) eqn:B; cbn [negb].
    + split; [discriminate | reflexivity].
    + split; [| reflexivity].
      intros H. apply trim_nil in H. congruence.
  - split; [discriminate | reflexivity].
Qed.

(** X3. The title of a gathered theme is never empty: it is the trimmed
    value of the title control, and "Untitled" when the control is missing
    or blank. *)
Theorem gatherTheme_title (els : Elements) :
  let t := title (fst (gatherTheme els)) in
  t <> []
  /\ match el_control els CTitle with
     | Some v => if blank v then t = lit "Untitled" else t = trim v
     | None => t = lit "Untitled"
     end.
Proof.
  exact (gatherTheme_title_cases els).
Qed.

(** *** More on the bullet editor *)

Lemma fold_addBulletRow (values : list jsstring) (els : Elements)
    (rows : list BulletRow) :
  el_bulletSequenceList els = Some rows ->
  fold_left (fun e value => addBulletRow value e) values els =
  set_el_bulletSequenceList
    (Some (rows ++
           map (fun value => {| b_value := stripNewlines value;
                                b_inputDisabled := false;
                                b_removeDisabled := false |})
             values))
    els.
Proof.
  revert els rows. induction values as [| v l IH]; intros els rows H; simpl.
  - rewrite app_nil_r. destruct els. cbn in H. subst. reflexivity.
  - unfold addBulletRow at 2. rewrite H.
    rewrite (IH _ (rows ++ [{| b_value := stripNewlines v; b_inputDisabled := false;
                             b_removeDisabled := false |}])) by reflexivity.
    rewrite <- app_assoc. reflexivity.
Qed.

(** X4. Rendering the bullet editor never leaves it without a row: it
    makes a row for each of the given values, for each bullet of the
    default sequence when no value is given, and one empty row when the
    default is empty too. A row is a text input: it shows its value
    without line feeds and carriage returns. Every row is enabled, and
    the remove buttons are disabled exactly when a single row is shown. *)
Theorem renderBulletSequence_rows (values : list jsstring) (els : Elements)
    (rows0 : list BulletRow) :
  el_bulletSequenceList els = Some rows0 ->
  let shown :=
    match values, defaultBulletSequence with
    | _ :: _, _ => values
    | [], _ :: _ => defaultBulletSequence
    | [], [] => [[]]
    end in
  el_bulletSequenceList (renderBulletSequence values els)
  = Some (map (fun value => {| b_value := stripNewlines value;
                               b_inputDisabled := false;
                               b_removeDisabled := length shown <=? 1 |})
            shown)
  /\ shown <> [].
Proof.
  intros H shown. unfold renderBulletSequence. rewrite H. cbv zeta.
  match goal with
  | |- context [fold_left _ ?e _] => set (effective := e)
  end.
  assert (Hs : effective = shown).
  { subst effective shown. destruct values; [| reflexivity].
    destruct defaultBulletSequence; reflexivity. }
  rewrite (fold_addBulletRow effective (set_el_bulletSequenceList (Some []) els) [])
    by reflexivity.
  rewrite Hs. unfold updateBulletRemoveButtons. cbn.
  rewrite map_map, length_map. cbn. split; [reflexivity |].
  subst shown. destruct values; [destruct defaultBulletSequence |]; discriminate.
Qed.

Ltac frames :=
  cbv zeta; cases; cbn in *; repeat split;
  repeat match goal with
    | H : ?x = _ |- context [?x] => rewrite H
    end;
  cbn; try reflexivity.

Lemma setBulletEditorDisabled_effect (disabled : bool) (els : Elements) :
  let els' := setBulletEditorDisabled disabled els in
  el_bulletSequenceList els' =
    option_map
      (map (fun row => {| b_value := b_value row;
                          b_inputDisabled := disabled;
                          b_removeDisabled := disabled |}))
      (el_bulletSequenceList els)
  /\ el_orderedSequenceList els' = el_orderedSequenceList els
  /\ el_orderedEditor els' = el_orderedEditor els
  /\ el_customOrderedBase els' = el_customOrderedBase els
  /\ el_customOrderedPrefix els' = el_customOrderedPrefix els
  /\ el_customOrderedSuffix els' = el_customOrderedSuffix els
  /\ el_control els' = el_control els
  /\ el_toggleCustomBullets els' = el_toggleCustomBullets els
  /\ el_toggleCustomOrdered els' = el_toggleCustomOrdered els.
Proof.
  unfold setBulletEditorDisabled. frames.
Qed.

Lemma updateBulletRemoveButtons_effect (els : Elements) :
  let els' := updateBulletRemoveButtons els in
  el_bulletSequenceList els' =
    option_map
      (fun rows =>
         map (fun row => {| b_value := b_value row;
                            b_inputDisabled := b_inputDisabled row;
                            b_removeDisabled := length rows <=? 1 |})
           rows)
      (el_bulletSequenceList els)
  /\ el_orderedSequenceList els' = el_orderedSequenceList els
  /\ el_orderedEditor els' = el_orderedEditor els
  /\ el_customOrderedBase els' = el_customOrderedBase els
  /\ el_customOrderedPrefix els' = el_customOrderedPrefix els
  /\ el_customOrderedSuffix els' = el_customOrderedSuffix els
  /\ el_control els' = el_control els
  /\ el_toggleCustomBullets els' = el_toggleCustomBullets els
  /\ el_toggleCustomOrdered els' = el_toggleCustomOrdered els.
Proof.
  unfold updateBulletRemoveButtons. frames.
Qed.

Lemma setOrderedEditorDisabled_effect (disabled : bool) (els : Elements) :
  let els' := setOrderedEditorDisabled disabled els in
  el_bulletSequenceList els' = el_bulletSequenceList els
  /\ el_orderedSequenceList els' =
    option_map
      (map (fun row => {| o_index := o_index row;
                          o_placeholder := o_placeholder row;
                          o_value := o_value row;
                          o_disabled := disabled |}))
      (el_orderedSequenceList els)
  /\ el_customOrderedBase els' = setFieldDisabled disabled (el_customOrderedBase els)
  /\ el_customOrderedPrefix els' = setFieldDisabled disabled (el_customOrderedPrefix els)
  /\ el_customOrderedSuffix els' = setFieldDisabled disabled (el_customOrderedSuffix els)
  /\ el_control els' = el_control els
  /\ el_toggleCustomBullets els' = el_toggleCustomBullets els
  /\ el_toggleCustomOrdered els' = el_toggleCustomOrdered els.
Proof.
  unfold setOrderedEditorDisabled. frames.
Qed.

Lemma updateCustomControlsState_fields (els : Elements) :
  let els' := updateCustomControlsState els in
  el_bulletSequenceList els' =
    option_map
      (fun rows =>
         map (fun row =>
                {| b_value := b_value row;
                   b_inputDisabled := negb (checked (el_toggleCustomBullets els));
                   b_removeDisabled := length rows <=? 1 |})
           rows)
      (el_bulletSequenceList els)
  /\ el_orderedSequenceList els' =
    option_map
      (fun rows =>
         map (fun row =>
                {| o_index := o_index row;
                   o_placeholder := o_placeholder row;
                   o_value := o_value row;
                   o_disabled := negb (checked (el_toggleCustomOrdered els)) |})
           rows)
      (el_orderedSequenceList els)
  /\ el_customOrderedBase els' =
     setFieldDisabled (negb (checked (el_toggleCustomOrdered els)))
       (el_customOrderedBase els)
  /\ el_control els' = el_control els
  /\ el_toggleCustomBullets els' = el_toggleCustomBullets els
  /\ el_toggleCustomOrdered els' = el_toggleCustomOrdered els.
Proof.
  cbv zeta. unfold updateCustomControlsState. cbv zeta.
  destruct (setBulletEditorDisabled_effect
              (negb (checked (el_toggleCustomBullets els))) els)
    as [B1 [O1 [_ [F1 [_ [_ [C1 [T1 U1]]]]]]]].
  set (e1 := setBulletEditorDisabled _ els) in *.
  destruct (updateBulletRemoveButtons_effect e1)
    as [B2 [O2 [_ [F2 [_ [_ [C2 [T2 U2]]]]]]]].
  set (e2 := updateBulletRemoveButtons e1) in *.
  rewrite ?T2, ?T1, ?U2, ?U1.
  destruct (setOrderedEditorDisabled_effect
              (negb (checked (el_toggleCustomOrdered els))) e2)
    as [B3 [O3 [F3 [_ [_ [C3 [T3 U3]]]]]]].
  rewrite B3, O3, F3, C3, T3, U3, B2, B1, O2, O1, F2, F1, C2, C1, ?T2, ?T1, ?U2, ?U1.
  repeat split; try congruence.
  destruct (el_bulletSequenceList els) as [rows |]; [| reflexivity].
  cbn. rewrite map_map, length_map. reflexivity.
Qed.


(** *** Rendering, reading and repairing the digit table *)

Lemma readOrderedSequence_render (baseValue : jsvalue) (values : list jsstring)
    (els : Elements) (rows0 : list OrderedRow) :
  el_orderedSequenceList els = Some rows0 ->
  readOrderedSequence (renderOrderedSequence baseValue values els) =
  map (fun i => trim (stripNewlines (nth i values (nth i defaultOrderedDigits []))))
    (seq 0 (loopCount (sanitizeOrderedBase baseValue))).
Proof.
  intros H. unfold readOrderedSequence.
  rewrite (renderOrderedSequence_map _ _ _ _ H), map_map. reflexivity.
Qed.

Lemma nth_map_seq (A : Type) (f : nat -> A) (n i : nat) (d : A) :
  i < n -> nth i (map f (seq 0 n)) d = f i.
Proof.
  intros Hi. apply nth_error_nth. now apply nth_error_map_seq.
Qed.

Lemma nth_map_stripNewlines (i : nat) (values : list jsstring) :
  nth i (map stripNewlines values) [] = stripNewlines (nth i values []).
Proof.
  exact (map_nth stripNewlines values [] i).
Qed.

Lemma map_stripNewlines_fixed (values : list jsstring) :
  Forall (fun v => stripNewlines v = v) values -> map stripNewlines values = values.
Proof.
  induction 1 as [| v l Hv _ IH]; simpl; congruence.
Qed.

(** X6. The digit table loses line breaks and nothing else that
    matters: rendering it from a list of values and reading it back gives
    [ensureOrderedDigits] the same result as the values with their line
    feeds and carriage returns stripped, hence as the values themselves
    when they hold none. This needs the default digits to hold no line
    break and no white space around them (a default that does is trimmed
    and stripped on the way through the table, but pushed as it is when
    taken directly). *)
Theorem ensure_after_render_and_read (baseValue : jsvalue) (values : list jsstring)
    (els : Elements) (rows0 : list OrderedRow) :
  el_orderedSequenceList els = Some rows0 ->
  Forall (fun d => trim d = d /\ stripNewlines d = d) defaultOrderedDigits ->
  ensureOrderedDigits
    (readOrderedSequence (renderOrderedSequence baseValue values els))
    (sanitizeOrderedBase baseValue)
  = ensureOrderedDigits (map stripNewlines values) (sanitizeOrderedBase baseValue)
  /\ (Forall (fun v => stripNewlines v = v) values ->
      ensureOrderedDigits
        (readOrderedSequence (renderOrderedSequence baseValue values els))
        (sanitizeOrderedBase baseValue)
      = ensureOrderedDigits values (sanitizeOrderedBase baseValue)).
Proof.
  intros Hrows Hdef.
  assert (Hmain :
            ensureOrderedDigits
              (readOrderedSequence (renderOrderedSequence baseValue values els))
              (sanitizeOrderedBase baseValue)
            = ensureOrderedDigits (map stripNewlines values)
                (sanitizeOrderedBase baseValue)).
  { rewrite (readOrderedSequence_render _ _ _ _ Hrows).
    rewrite !ensureOrderedDigits_map.
    apply map_ext_in. intros i Hi. apply in_seq in Hi.
    rewrite nth_map_seq by lia. rewrite trim_idempotent.
    destruct (Nat.lt_ge_cases i (length values)) as [Hlt | Hge].
    - rewrite (nth_indep values _ [] Hlt).
      rewrite nth_map_stripNewlines. reflexivity.
    - rewrite (nth_overflow values) by exact Hge.
      rewrite (nth_overflow (map stripNewlines values))
        by (rewrite length_map; exact Hge).
      change (trim []) with (@nil codeunit). cbn [nonEmpty].
      destruct (nth_error defaultOrderedDigits i) as [d |] eqn:E.
      + rewrite (nth_error_nth _ _ _ E).
        assert (Hd : trim d = d /\ stripNewlines d = d).
        { rewrite Forall_forall in Hdef. apply Hdef.
          now apply nth_error_In in E. }
        destruct Hd as [Ht Hs]. rewrite Hs, Ht.
        destruct (nonEmpty d); reflexivity.
      + rewrite nth_overflow by now apply nth_error_None.
        reflexivity. }
  split; [exact Hmain |].
  intros Hv. rewrite Hmain. now rewrite map_stripNewlines_fixed.
Qed.

(** The sanitizer looks at its argument through [Number] only. *)
Lemma sanitizeOrderedBase_ToNumber (x y : jsvalue) :
  ToNumber x = ToNumber y -> sanitizeOrderedBase x = sanitizeOrderedBase y.
Proof.
  intros H. unfold sanitizeOrderedBase, parseNumberOr. now rewrite H.
Qed.

(** X7. Gathering is idempotent: a second gather right after the first
    gives the same theme and leaves the controls as the first left them.
    This needs the engine to read back as [z] the string it prints for an
    integer [z] from 2 to 10, since the first gather writes the sanitized
    base into the base control. *)
Theorem gatherTheme_idempotent (els : Elements) :
  (forall z, (2 <= z <= 10)%Z -> StringToNumber (NumberToString (ofZ z)) = ofZ z) ->
  gatherTheme (snd (gatherTheme els)) = gatherTheme els.
Proof.
  intros Hhost.
  destruct (el_customOrderedBase els) as [f |] eqn:E.
  - destruct (sanitizeOrderedBase_range (VStr (f_value f))) as [z [Hz Ez]].
    assert (Hs : sanitizeOrderedBase (VStr (NumberToString (ofZ z))) = ofZ z).
    { rewrite (sanitizeOrderedBase_ToNumber _ (VNum (ofZ z))).
      - now apply sanitizeOrderedBase_fixes_range.
      - cbn. now apply Hhost. }
    unfold gatherTheme at 2. rewrite E. cbn [snd].
    unfold gatherTheme. cbn [el_customOrderedBase set_el_customOrderedBase f_value
                             f_disabled].
    rewrite E. cbn [f_value]. rewrite Ez, Hs. reflexivity.
  - unfold gatherTheme at 2. rewrite E. reflexivity.
Qed.


(** *** The name of the downloaded file *)

Lemma replaceColonDot_safe (s : jsstring) :
  length (replaceColonDot s) = length s
  /\ Forall (fun c => c <> 58%N /\ c <> 46%N) (replaceColonDot s).
Proof.
  unfold replaceColonDot. split; [apply length_map |].
  apply Forall_forall. intros c Hc. apply in_map_iff in Hc.
  destruct Hc as [x [<- _]].
  destruct (N.eqb_spec x 58) as [-> | H1]; [cbn; split; discriminate |].
  destruct (N.eqb_spec x 46) as [-> | H2]; [cbn; split; discriminate |].
  cbn. split; assumption.
Qed.

Lemma replaceColonDot_at (s : jsstring) (i : nat) (c : codeunit) :
  nth_error s i = Some c ->
  nth_error (replaceColonDot s) i =
  Some (if ((c =? 58) || (c =? 46))%N then 45%N else c).
Proof.
  intros H. unfold replaceColonDot. rewrite nth_error_map. unfold codeunit in *.
  rewrite H. reflexivity.
Qed.

(** X8. When the document arrives, one download starts and nothing is
    alerted. The file is named after the title of [state.theme] as it is
    at that moment ("Document" when that is empty), followed by "_", the
    stamp and ".pdf". The stamp is the timestamp, character by character,
    with "-" in the place of every colon and every period and every other
    character kept; so it is as long as the timestamp and has no colon
    and no period left. *)
Theorem downloadPdfSettled_file_name (ov : bool) (blob : Blob)
    (timestamp : jsstring) (w : World) :
  exists stamp,
    downloads (downloadPdfSettled ov (HttpSuccess blob) timestamp w)
    = (ToString (js_or (themeTitle (state_theme w)) (VStr (lit "Document")))
       ++ lit "_" ++ stamp ++ lit ".pdf", blob) :: downloads w
    /\ length stamp = length timestamp
    /\ (forall i c,
          nth_error timestamp i = Some c ->
          nth_error stamp i = Some (if ((c =? 58) || (c =? 46))%N then 45%N else c))
    /\ Forall (fun c => c <> 58%N /\ c <> 46%N) stamp
    /\ alerts (downloadPdfSettled ov (HttpSuccess blob) timestamp w) = alerts w.
Proof.
  exists (replaceColonDot timestamp).
  unfold downloadPdfSettled.
  rewrite exportFinally_downloads, exportFinally_alerts.
  destruct (replaceColonDot_safe timestamp) as [Hl Hf].
  split; [reflexivity |]. split; [exact Hl |].
  split; [apply replaceColonDot_at |]. split; [exact Hf | reflexivity].
Qed.

(** *** More frames *)


Lemma gatherTheme_snd_editors (els : Elements) :
  editors (snd (gatherTheme els)) = editors els.
Proof.
  unfold gatherTheme. cbn [snd]. destruct (el_customOrderedBase els); reflexivity.
Qed.

Lemma updateStatus_editors (text : jsstring) (variant : Variant) (els : Elements) :
  editors (updateStatus text variant els) = editors els.
Proof.
  unfold updateStatus. destruct (el_previewStatus els); reflexivity.
Qed.

Lemma runPreview_effect (w : World) :
  match configured (preview urls) with
  | None => runPreview w = w
  | Some url =>
      state_theme (runPreview w) = Gathered (fst (gatherTheme (elements w)))
      /\ previewFetches (runPreview w) =
         (S (activePreviewSerial w), requestFrom url w) :: previewFetches w
      /\ previewWaiting (runPreview w) = S (activePreviewSerial w) :: previewWaiting w
      /\ activePreviewSerial (runPreview w) = S (activePreviewSerial w)
      /\ exportSide (runPreview w) = exportSide w
  end
  /\ editors (elements (runPreview w)) = editors (elements w).
Proof.
  destruct (configured (preview urls)) as [url |] eqn:C.
  - destruct (runPreview_sends w url C) as [Hf [Ha [Hw _]]].
    split; [split; [| repeat split; auto using runPreview_exportSide] |].
    + unfold runPreview. rewrite C.
      destruct (gatherTheme (elements w)) as [theme els]. reflexivity.
    + unfold runPreview. rewrite C.
      pose proof (gatherTheme_snd_editors (elements w)) as He.
      destruct (gatherTheme (elements w)) as [theme els]. cbn in He |- *.
      now rewrite updateStatus_editors.
  - split; [| rewrite runPreview_unconfigured]; auto using runPreview_unconfigured.
Qed.

Lemma runPreviewSettled_frame (serial : nat) (o : Outcome PreviewData) (w : World) :
  let w' := runPreviewSettled serial o w in
  previewFetches w' = previewFetches w
  /\ previewWaiting w' = previewWaiting w
  /\ activePreviewSerial w' = activePreviewSerial w
  /\ state_theme w' = state_theme w
  /\ editors (elements w') = editors (elements w).
Proof.
  unfold runPreviewSettled, previewCatch, updateStatus.
  destruct o; cbv zeta; cases; repeat split.
Qed.

Lemma downloadPdf_effect (w : World) :
  match configured (pdf urls) with
  | None => downloadPdf w = w
  | Some url =>
      state_theme (downloadPdf w) = Gathered (fst (gatherTheme (elements w)))
      /\ exportFetches (downloadPdf w) = requestFrom url w :: exportFetches w
  end
  /\ previewFetches (downloadPdf w) = previewFetches w
  /\ previewWaiting (downloadPdf w) = previewWaiting w
  /\ activePreviewSerial (downloadPdf w) = activePreviewSerial w
  /\ editors (elements (downloadPdf w)) = editors (elements w).
Proof.
  unfold downloadPdf, requestFrom.
  destruct (configured (pdf urls)) as [url |]; [| repeat split].
  pose proof (gatherTheme_snd_editors (elements w)) as He.
  destruct (gatherTheme_snd_frame (elements w)) as [Hm _].
  destruct (gatherTheme (elements w)) as [theme els]. cbn in He, Hm. cbv zeta.
  match goal with
  | |- context [toggleLoading true ?x] =>
      destruct (toggleLoading_pipeline true x) as [_ [_ Hel]];
      assert (Hfr : previewFetches (snd (toggleLoading true x)) = previewFetches x
                    /\ previewWaiting (snd (toggleLoading true x)) = previewWaiting x
                    /\ activePreviewSerial (snd (toggleLoading true x))
                       = activePreviewSerial x
                    /\ state_theme (snd (toggleLoading true x)) = state_theme x
                    /\ exportFetches (snd (toggleLoading true x)) = exportFetches x
                    /\ csrfInput (snd (toggleLoading true x)) = csrfInput x)
        by (unfold toggleLoading; cases; repeat split);
      revert Hel Hfr; generalize (toggleLoading true x)
  end.
  intros [ov w1] Hel [H1 [H2 [H3 [H4 [H5 H6]]]]]. cbn in Hel, H1, H2, H3, H4, H5, H6.
  unfold setDownloadDisabled, getCsrfToken. cbn. rewrite Hel. cbn.
  rewrite H1, H2, H3, H4, H5, H6, Hm.
  destruct (el_btnDownload els); cbn; repeat split; auto.
Qed.

Lemma downloadPdfSettled_frame (ov : bool) (o : Outcome Blob) (ts : jsstring)
    (w : World) :
  let w' := downloadPdfSettled ov o ts w in
  previewFetches w' = previewFetches w
  /\ previewWaiting w' = previewWaiting w
  /\ activePreviewSerial w' = activePreviewSerial w
  /\ state_theme w' = state_theme w
  /\ exportFetches w' = exportFetches w
  /\ exportWaiting w' = exportWaiting w
  /\ editors (elements w') = editors (elements w).
Proof.
  unfold downloadPdfSettled, exportFinally, exportCatch, toggleLoading,
    setDownloadDisabled.
  destruct o, ov; cbv zeta; cases; repeat split.
Qed.

(** *** Invariants along runs *)

(** An invariant that every event keeps holds after every run. *)
Lemma run_invariant (P : World -> Prop) :
  (forall e w w', P w -> handle e w = Some w' -> P w') ->
  forall events w w', P w -> run events w = Some w' -> P w'.
Proof.
  intros Hstep events. induction events as [| e rest IH]; intros w w' Hw Hr;
    simpl in Hr.
  - now injection Hr as <-.
  - destruct (handle e w) as [w1 |] eqn:Hh; [| discriminate].
    exact (IH w1 w' (Hstep e w w1 Hw Hh) Hr).
Qed.

(** What an event does to the ledger of the preview. *)
Lemma handle_preview_ledger (e : Event) (w w' : World) :
  handle e w = Some w' ->
  (previewFetches w' = previewFetches w
   /\ activePreviewSerial w' = activePreviewSerial w
   /\ (previewWaiting w' = previewWaiting w
       \/ exists serial,
            In serial (previewWaiting w)
            /\ previewWaiting w' =
               filter (fun s => negb (s =? serial)) (previewWaiting w)))
  \/ (exists url id,
        e = TimerFires id
        /\ configured (preview urls) = Some url
        /\ previewFetches w' =
           (S (activePreviewSerial w),
            requestFrom url (clearTimeout (Some id) w)) :: previewFetches w
        /\ activePreviewSerial w' = S (activePreviewSerial w)
        /\ previewWaiting w' = S (activePreviewSerial w) :: previewWaiting w).
Proof.
  intros Hh. destruct (schedules e) as [im |] eqn:Hs.
  - left. destruct (handle_schedules _ _ _ _ Hs Hh) as [els [-> _]].
    destruct (schedulePreview_frame im (set_elements els w))
      as [-> [-> [-> _]]].
    cbn. auto.
  - destruct e; simpl in Hs; try discriminate; cbn in Hh.
    + left. destruct (el_btnDownload (elements w)) as [[|] |]; try discriminate.
      injection Hh as <-.
      destruct (downloadPdf_effect w) as [_ [-> [-> [-> _]]]]. auto.
    + left. injection Hh as <-. cbn. auto.
    + destruct (find (fun t => fst t =? id) (timers w)) as [[i due] |];
        [| discriminate].
      destruct (due <=? clock w); [| discriminate].
      injection Hh as <-.
      match goal with
      | |- context [runPreview ?x] => pose proof (runPreview_effect x) as [H _]
      end.
      destruct (configured (preview urls)) as [url |] eqn:C.
      * right. destruct H as [_ [Hf [Hw [Ha _]]]].
        exists url, id. repeat split; auto.
      * left. rewrite H. cbn. auto.
    + left. destruct (existsb (Nat.eqb serial) (previewWaiting w)) eqn:Ex;
        [| discriminate].
      injection Hh as <-.
      match goal with
      | |- context [runPreviewSettled ?s ?o ?x] =>
          destruct (runPreviewSettled_frame s o x) as [-> [-> [-> _]]]
      end.
      cbn. repeat split. right. exists serial. split; [| reflexivity].
      apply existsb_exists in Ex. destruct Ex as [x [Hin Heq]].
      apply Nat.eqb_eq in Heq. now subst x.
    + left.
      destruct (find (fun x => fst x =? ticket) (exportWaiting w)) as [[n ov] |];
        [| discriminate].
      injection Hh as <-.
      match goal with
      | |- context [downloadPdfSettled ?a ?o ?t ?x] =>
          destruct (downloadPdfSettled_frame a o t x) as [-> [-> [-> _]]]
      end.
      cbn. auto.
Qed.

Lemma handle_serialsOk (e : Event) (w w' : World) :
  serialsOk w -> handle e w = Some w' -> serialsOk w'.
Proof.
  intros [Hlog [Hrange Hnodup]] Hh. unfold serialsOk.
  destruct (handle_preview_ledger _ _ _ Hh)
    as [[-> [-> Hw]] | [url [id [_ [_ [-> [-> ->]]]]]]].
  - destruct Hw as [-> | [serial [_ ->]]]; [auto |].
    split; [exact Hlog |]. split.
    + apply Forall_forall. intros s Hs. apply filter_In in Hs.
      rewrite Forall_forall in Hrange. now apply Hrange.
    + now apply NoDup_filter.
  - split; [| split].
    + cbn [map fst]. rewrite Hlog, seq_S, rev_app_distr. reflexivity.
    + constructor; [lia |].
      eapply Forall_impl; [| exact Hrange]. cbn. intros; lia.
    + constructor; [| exact Hnodup].
      intros Hin. rewrite Forall_forall in Hrange. apply Hrange in Hin. lia.
Qed.

(** X9. Every preview request gets a serial of its own: along every run
    the serials of the requests sent are 1, 2, ... up to the active
    serial, without a gap, and a response is awaited only for a serial
    that was sent and at most once for each. *)
Theorem preview_serials_count_up (events : list Event) (w w' : World) :
  serialsOk w -> run events w = Some w' -> serialsOk w'.
Proof.
  apply run_invariant. exact handle_serialsOk.
Qed.

(** X10. At most one timeout is pending at any time, and it is the one
    [previewTimer] names: timeouts never overlap and none is lost track
    of. *)
Theorem timeouts_never_overlap (events : list Event) (w w' : World) :
  timersOk w ->
  run events w = Some w' ->
  length (timers w') <= 1
  /\ forall id due, In (id, due) (timers w') -> previewTimer w' = Some id.
Proof.
  intros Hok Hr. destruct (run_timersOk _ _ _ Hok Hr) as [H | [id [due [H Hp]]]];
    rewrite H; cbn.
  - split; [lia | intros ? ? []].
  - split; [lia |]. intros i d [Heq | []]. now injection Heq as <- <-.
Qed.

(** X11. Without a preview URL no preview request is ever sent and the
    serial never moves, whatever happens on the page. *)
Theorem no_preview_url_no_request (events : list Event) (w w' : World) :
  configured (preview urls) = None ->
  run events w = Some w' ->
  previewFetches w' = previewFetches w
  /\ activePreviewSerial w' = activePreviewSerial w.
Proof.
  intros Hurl.
  apply (run_invariant
           (fun x => previewFetches x = previewFetches w
                     /\ activePreviewSerial x = activePreviewSerial w));
    [| auto].
  intros e x x' [Hf Ha] Hh.
  destruct (handle_preview_ledger _ _ _ Hh)
    as [[-> [-> _]] | [url [id [_ [C _]]]]]; [auto | congruence].
Qed.

(** *** The export, one at a time *)

Lemma handle_exportSide_other (e : Event) (w w' : World) :
  isExportSettles e = false ->
  e <> ClickDownload ->
  handle e w = Some w' ->
  exportSide w' = exportSide w.
Proof.
  intros He Hc Hh. destruct (schedules e) as [im |] eqn:Hs.
  - destruct (handle_schedules _ _ _ _ Hs Hh) as [els [-> Hsurf]].
    destruct (schedulePreview_frame im (set_elements els w))
      as [_ [_ [_ [_ [_ ->]]]]].
    unfold surface in Hsurf. injection Hsurf as _ _ _ _ H1 H2.
    unfold exportSide. cbn. now rewrite H1, H2.
  - destruct e; simpl in Hs, He; try discriminate; cbn in Hh.
    + contradiction.
    + injection Hh as <-. reflexivity.
    + destruct (find (fun t => fst t =? id) (timers w)) as [[i due] |];
        [| discriminate].
      destruct (due <=? clock w); [| discriminate].
      injection Hh as <-. rewrite runPreview_exportSide. reflexivity.
    + destruct (existsb (Nat.eqb serial) (previewWaiting w)); [| discriminate].
      injection Hh as <-. rewrite runPreviewSettled_exportSide. reflexivity.
Qed.

Lemma downloadPdfSettled_clean (ov : bool) (o : Outcome Blob) (ts : jsstring)
    (w : World) :
  (ov = false -> overlay w = false) ->
  el_btnDownload (elements w) = Some true ->
  overlay (downloadPdfSettled ov o ts w) = false
  /\ el_btnDownload (elements (downloadPdfSettled ov o ts w)) = Some false.
Proof.
  intros Hov Hb. unfold downloadPdfSettled.
  destruct o; apply exportFinally_clean; assumption.
Qed.

Lemma handle_exportOk (e : Event) (w w' : World) :
  exportOk w -> handle e w = Some w' -> exportOk w'.
Proof.
  intros Hok Hh.
  destruct (isExportSettles e) eqn:He.
  - (* the export's response *)
    destruct e; try discriminate. cbn in Hh.
    destruct Hok as [[Hw _] | [t [ov [Hw [Hb Hov]]]]]; rewrite Hw in Hh; cbn in Hh;
      [discriminate |].
    destruct (t =? ticket); cbn in Hh; [| discriminate].
    injection Hh as <-. left.
    match goal with
    | |- context [downloadPdfSettled ?a ?o ?s ?x] =>
        destruct (downloadPdfSettled_frame a o s x) as [_ [_ [_ [_ [_ [-> _]]]]]];
        destruct (downloadPdfSettled_clean a o s x Hov Hb) as [-> ->]
    end.
    cbn. repeat split. discriminate.
  - destruct e; try (assert (Hs : exportSide w' = exportSide w)
                       by (eapply handle_exportSide_other; eauto; discriminate);
                     unfold exportSide in Hs; injection Hs as Ho Hb _ _ Hw _ _;
                     unfold exportOk; rewrite Ho, Hb, Hw; exact Hok).
    + (* a click on the download button *)
      cbn in Hh.
      destruct (el_btnDownload (elements w)) as [[|] |] eqn:Hb; try discriminate.
      injection Hh as <-.
      destruct Hok as [[Hw [Ho _]] | [t [ov [_ [Hb' _]]]]]; [| congruence].
      destruct (configured (pdf urls)) as [url |] eqn:C.
      * destruct (downloadPdf_started url w C Hb)
          as [Hb1 [_ [_ [_ [ov [Hw1 Hov]]]]]].
        right. exists (length (exportFetches w)), ov.
        cbv zeta in Hw1. rewrite Hw in Hw1. auto.
      * destruct (downloadPdf_effect w) as [H _]. rewrite C in H. rewrite H.
        left. repeat split; auto. congruence.
Qed.

(** X12. Exports never overlap. Along every run at most one export is in
    flight; while it is, the download button is disabled, so that a click
    on it does nothing; when none is, no overlay is shown and the button
    is not disabled. *)
Theorem exports_never_overlap (events : list Event) (w w' : World) :
  exportOk w ->
  run events w = Some w' ->
  exportOk w'
  /\ length (exportWaiting w') <= 1
  /\ (exportWaiting w' <> [] -> handle ClickDownload w' = None).
Proof.
  intros Hok Hr.
  assert (Hok' : exportOk w') by (eapply run_invariant; eauto using handle_exportOk).
  split; [exact Hok' |].
  destruct Hok' as [[Hw _] | [t [ov [Hw [Hb _]]]]]; rewrite Hw; cbn.
  - split; [lia | congruence].
  - split; [lia |]. intros _. now rewrite Hb.
Qed.

(** *** The themes that are sent *)




(** *** A failed preview *)

(** X14. A preview that fails, by the network, by an error status or by
    an unreadable body, touches nothing but the status line: the surface
    keeps the last preview, and the title, the serial, the timers and the
    theme stay as they are. The status line, if there is one, is marked
    as an error. *)
Theorem failed_preview_keeps_surface (serial : nat) (o : Outcome PreviewData)
    (w : World) :
  match o with
  | HttpSuccess _ => True
  | _ =>
      let w' := runPreviewSettled serial o w in
      el_previewOutput (elements w') = el_previewOutput (elements w)
      /\ el_previewStyle (elements w') = el_previewStyle (elements w)
      /\ document_title w' = document_title w
      /\ state_isPreviewDirty w' = state_isPreviewDirty w
      /\ activePreviewSerial w' = activePreviewSerial w
      /\ timers w' = timers w
      /\ state_theme w' = state_theme w
      /\ option_map s_isError (el_previewStatus (elements w'))
         = option_map (fun _ => true) (el_previewStatus (elements w))
  end.
Proof.
  destruct o; try exact I;
    unfold runPreviewSettled, previewCatch, updateStatus; cbv zeta;
    destruct (el_previewStatus (elements w)) eqn:E; cbn; rewrite ?E;
    repeat split.
Qed.

(** *** The floor of the bullet editor *)

Lemma length_updateAt (A : Type) (i : nat) (f : A -> A) (l : list A) :
  length (updateAt i f l) = length l.
Proof.
  revert i. induction l as [| x r IH]; intros [| i]; simpl; auto.
Qed.

Lemma Forall_updateAt (A : Type) (P : A -> Prop) (i : nat) (f : A -> A) (l : list A) :
  (forall x, P x -> P (f x)) -> Forall P l -> Forall P (updateAt i f l).
Proof.
  intros Hf. revert i. induction l as [| x r IH]; intros [| i] H; simpl; auto;
    inversion H; subst; constructor; auto.
Qed.

Lemma length_removeAt (A : Type) (i : nat) (l : list A) :
  i < length l -> S (length (removeAt i l)) = length l.
Proof.
  revert i. induction l as [| x r IH]; intros [| i] H; simpl in *; try lia.
  rewrite IH; lia.
Qed.

(** After the remove buttons are refreshed, a list that has a row
    satisfies the floor. *)
Lemma bulletFloor_refreshed (els : Elements) (rows : list BulletRow)
    (f : BulletRow -> BulletRow) :
  rows <> [] ->
  el_bulletSequenceList els =
    Some (map (fun row => {| b_value := b_value (f row);
                             b_inputDisabled := b_inputDisabled (f row);
                             b_removeDisabled := length rows <=? 1 |})
            rows) ->
  bulletFloor els.
Proof.
  intros Hne H. unfold bulletFloor. rewrite H. split.
  - destruct rows; [contradiction | discriminate].
  - rewrite length_map. intros Hlen. apply Forall_forall. intros row Hin.
    apply in_map_iff in Hin. destruct Hin as [x [<- _]]. cbn.
    now apply Nat.leb_le.
Qed.

Lemma bulletFloor_updateBulletRemoveButtons (els : Elements) :
  match el_bulletSequenceList els with
  | Some rows => rows <> []
  | None => True
  end ->
  bulletFloor (updateBulletRemoveButtons els).
Proof.
  intros H. destruct (updateBulletRemoveButtons_effect els) as [Hb _].
  cbv zeta in Hb. destruct (el_bulletSequenceList els) as [rows |] eqn:E.
  - cbn in Hb. exact (bulletFloor_refreshed _ rows (fun r => r) H Hb).
  - cbn in Hb. unfold bulletFloor. now rewrite Hb.
Qed.

Lemma bulletFloor_updateCustomControlsState (els : Elements) :
  match el_bulletSequenceList els with
  | Some rows => rows <> []
  | None => True
  end ->
  bulletFloor (updateCustomControlsState els).
Proof.
  intros H. destruct (updateCustomControlsState_fields els) as [Hb _].
  destruct (el_bulletSequenceList els) as [rows |] eqn:E.
  - cbn in Hb.
    refine (bulletFloor_refreshed _ rows
              (fun r => {| b_value := b_value r;
                           b_inputDisabled := negb (checked (el_toggleCustomBullets els));
                           b_removeDisabled := b_removeDisabled r |}) H _).
    exact Hb.
  - cbn in Hb. unfold bulletFloor. now rewrite Hb.
Qed.

Lemma bulletFloor_rows (els : Elements) :
  bulletFloor els ->
  match el_bulletSequenceList els with
  | Some rows => rows <> []
  | None => True
  end.
Proof.
  unfold bulletFloor. destruct (el_bulletSequenceList els); tauto.
Qed.

Lemma bulletFloor_same (els els' : Elements) :
  el_bulletSequenceList els' = el_bulletSequenceList els ->
  bulletFloor els -> bulletFloor els'.
Proof.
  unfold bulletFloor. now intros ->.
Qed.

Lemma renderOrderedSequence_bullets (baseValue : jsvalue) (values : list jsstring)
    (els : Elements) :
  el_bulletSequenceList (renderOrderedSequence baseValue values els) =
  el_bulletSequenceList els.
Proof.
  unfold renderOrderedSequence. now destruct (el_orderedSequenceList els).
Qed.

Lemma onBaseEdited_bulletFloor (commit : bool) (w w' : World) :
  bulletFloor (elements w) ->
  onBaseEdited commit w = Some w' ->
  bulletFloor (elements w').
Proof.
  intros Hf. unfold onBaseEdited.
  destruct (el_customOrderedBase (elements w)); [| discriminate].
  cbv zeta. intros H. injection H as <-.
  destruct (schedulePreview_frame commit
              (set_elements
                 (updateCustomControlsState
                    (renderOrderedSequence
                       (VNum (sanitizeOrderedBase (VStr (f_value f))))
                       (readOrderedSequence (elements w))
                       (if commit
                        then set_el_customOrderedBase
                               (Some {| f_value := NumberToString
                                          (sanitizeOrderedBase (VStr (f_value f)));
                                        f_disabled := f_disabled f |})
                               (elements w)
                        else elements w)))
                 w)) as [_ [_ [_ [_ [-> _]]]]].
  cbn [elements set_elements].
  apply bulletFloor_updateCustomControlsState.
  apply bulletFloor_rows in Hf.
  rewrite renderOrderedSequence_bullets.
  destruct commit; exact Hf.
Qed.

Lemma handle_bulletFloor (e : Event) (w w' : World) :
  bulletFloor (elements w) -> handle e w = Some w' -> bulletFloor (elements w').
Proof.
  intros Hf Hh.
  pose proof (bulletFloor_rows _ Hf) as Hrows.
  destruct e; unfold handle in Hh; cbv beta iota zeta in Hh.
  - (* Input *)
    destruct (el_control (elements w) c); [| discriminate].
    injection Hh as <-.
    match goal with
    | |- context [schedulePreview ?i ?x] =>
        destruct (schedulePreview_frame i x) as [_ [_ [_ [_ [-> _]]]]]
    end.
    exact Hf.
  - destruct (typeInto v (el_customOrderedPrefix (elements w))); [| discriminate].
    injection Hh as <-.
    match goal with
    | |- context [schedulePreview ?i ?x] =>
        destruct (schedulePreview_frame i x) as [_ [_ [_ [_ [-> _]]]]]
    end.
    exact Hf.
  - destruct (typeInto v (el_customOrderedSuffix (elements w))); [| discriminate].
    injection Hh as <-.
    match goal with
    | |- context [schedulePreview ?i ?x] =>
        destruct (schedulePreview_frame i x) as [_ [_ [_ [_ [-> _]]]]]
    end.
    exact Hf.
  - (* BulletInput *)
    destruct (el_bulletSequenceList (elements w)) as [rows |] eqn:E; [| discriminate].
    destruct (nth_error rows i) as [row |]; [| discriminate].
    destruct (b_inputDisabled row); [discriminate |].
    injection Hh as <-.
    match goal with
    | |- context [schedulePreview ?i ?x] =>
        destruct (schedulePreview_frame i x) as [_ [_ [_ [_ [-> _]]]]]
    end.
    unfold bulletFloor in Hf |- *. rewrite E in Hf. cbn. destruct Hf as [Hne Hfl].
    rewrite length_updateAt. split.
    + intros Hnil. apply (f_equal (@length _)) in Hnil.
      rewrite length_updateAt in Hnil. destruct rows; [contradiction | discriminate].
    + intros Hlen. apply Forall_updateAt; [| auto]. intros x Hx. exact Hx.
  - (* DigitInput *)
    destruct (el_orderedSequenceList (elements w)) as [rows |]; [| discriminate].
    destruct (nth_error rows i) as [row |]; [| discriminate].
    destruct (o_disabled row); [discriminate |].
    injection Hh as <-.
    match goal with
    | |- context [schedulePreview ?i ?x] =>
        destruct (schedulePreview_frame i x) as [_ [_ [_ [_ [-> _]]]]]
    end.
    exact Hf.
  - (* ToggleBullets *)
    destruct (el_toggleCustomBullets (elements w)); [| discriminate].
    injection Hh as <-.
    match goal with
    | |- context [schedulePreview ?i ?x] =>
        destruct (schedulePreview_frame i x) as [_ [_ [_ [_ [-> _]]]]]
    end.
    cbn [elements set_elements].
    apply bulletFloor_updateCustomControlsState. exact Hrows.
  - (* ToggleOrdered *)
    destruct (el_toggleCustomOrdered (elements w)); [| discriminate].
    injection Hh as <-.
    match goal with
    | |- context [schedulePreview ?i ?x] =>
        destruct (schedulePreview_frame i x) as [_ [_ [_ [_ [-> _]]]]]
    end.
    cbn [elements set_elements].
    apply bulletFloor_updateCustomControlsState. exact Hrows.
  - (* BaseInput *)
    destruct (typeInto v (el_customOrderedBase (elements w))); [| discriminate].
    apply onBaseEdited_bulletFloor in Hh; [exact Hh | exact Hf].
  - (* BaseChange *)
    destruct (el_customOrderedBase (elements w)) as [f |]; [| discriminate].
    destruct (f_disabled f); [discriminate |].
    now apply onBaseEdited_bulletFloor in Hh.
  - (* AddBullet *)
    destruct (el_btnAddBullet (elements w)) as [[|] |]; try discriminate.
    injection Hh as <-.
    match goal with
    | |- context [schedulePreview ?i ?x] =>
        destruct (schedulePreview_frame i x) as [_ [_ [_ [_ [-> _]]]]]
    end.
    cbn [elements set_elements].
    apply bulletFloor_updateBulletRemoveButtons.
    unfold addBulletRow.
    destruct (el_bulletSequenceList (elements w)) as [rows |] eqn:E;
      cbn; rewrite ?E; [| exact I].
    intros Hnil. now apply app_eq_nil in Hnil.
  - (* RemoveBullet *)
    destruct (el_bulletSequenceList (elements w)) as [rows |] eqn:E; [| discriminate].
    destruct (nth_error rows i) as [row |] eqn:En; [| discriminate].
    destruct (b_removeDisabled row) eqn:Er; [discriminate |].
    injection Hh as <-.
    match goal with
    | |- context [schedulePreview ?i ?x] =>
        destruct (schedulePreview_frame i x) as [_ [_ [_ [_ [-> _]]]]]
    end.
    cbn [elements set_elements].
    apply bulletFloor_updateBulletRemoveButtons. cbn.
    unfold bulletFloor in Hf. rewrite E in Hf. destruct Hf as [_ Hfl].
    assert (Hi : i < length rows) by (apply nth_error_Some; congruence).
    assert (Hlen : 2 <= length rows).
    { destruct (Nat.le_gt_cases (length rows) 1) as [Hle | Hgt]; [| lia].
      apply Hfl in Hle. rewrite Forall_forall in Hle.
      apply nth_error_In in En. apply Hle in En. congruence. }
    intros Hnil. apply (f_equal (@length _)) in Hnil.
    pose proof (length_removeAt _ i rows Hi) as Hr. rewrite Hnil in Hr. cbn in Hr. lia.
  - (* ClickPreview *)
    destruct (el_btnPreview (elements w)); [| discriminate].
    injection Hh as <-.
    destruct (schedulePreview_frame true w) as [_ [_ [_ [_ [-> _]]]]]. exact Hf.
  - (* ClickDownload *)
    destruct (el_btnDownload (elements w)) as [[|] |]; try discriminate.
    injection Hh as <-.
    destruct (downloadPdf_effect w) as [_ [_ [_ [_ He]]]].
    unfold editors in He. injection He as Hb _ _ _ _.
    exact (bulletFloor_same _ _ Hb Hf).
  - (* Elapse *)
    injection Hh as <-. exact Hf.
  - (* TimerFires *)
    destruct (find (fun t => fst t =? id) (timers w)) as [[j due] |]; [| discriminate].
    destruct (due <=? clock w); [| discriminate].
    injection Hh as <-.
    destruct (runPreview_effect (clearTimeout (Some id) w)) as [_ He].
    unfold editors in He. injection He as Hb _ _ _ _.
    exact (bulletFloor_same _ _ Hb Hf).
  - (* PreviewSettles *)
    destruct (existsb (Nat.eqb serial) (previewWaiting w)); [| discriminate].
    injection Hh as <-.
    match goal with
    | |- context [runPreviewSettled ?s ?o ?x] =>
        destruct (runPreviewSettled_frame s o x) as [_ [_ [_ [_ He]]]]
    end.
    unfold editors in He. injection He as Hb _ _ _ _.
    exact (bulletFloor_same _ _ Hb Hf).
  - (* ExportSettles *)
    destruct (find (fun x => fst x =? ticket) (exportWaiting w)) as [[n ov] |];
      [| discriminate].
    injection Hh as <-.
    match goal with
    | |- context [downloadPdfSettled ?a ?o ?t ?x] =>
        destruct (downloadPdfSettled_frame a o t x) as [_ [_ [_ [_ [_ [_ He]]]]]]
    end.
    unfold editors in He. injection He as Hb _ _ _ _.
    exact (bulletFloor_same _ _ Hb Hf).
Qed.

(** X15. The bullet editor never drops below one row: when it shows a
    row, and a single row has its remove button disabled, this stays so
    along every run, with rows typed into, added and removed, the toggles
    flipped and the base edited. The rendering of the editor sets this
    up. *)
Theorem bullet_editor_keeps_a_row (events : list Event) (w w' : World) :
  bulletFloor (elements w) ->
  run events w = Some w' ->
  bulletFloor (elements w')
  /\ forall values,
       bulletFloor (renderBulletSequence values (elements w')).
Proof.
  intros Hf Hr.
  assert (Hf' : bulletFloor (elements w')).
  { revert Hf Hr. apply (run_invariant (fun x => bulletFloor (elements x))).
    exact handle_bulletFloor. }
  split; [exact Hf' |].
  intros values. unfold renderBulletSequence.
  destruct (el_bulletSequenceList (elements w')) as [rows |] eqn:E.
  - cbv zeta. apply bulletFloor_updateBulletRemoveButtons.
    match goal with
    | |- context [fold_left _ ?e ?x] =>
        rewrite (fold_addBulletRow e x []) by reflexivity;
        assert (He : e <> [])
          by (destruct values; [destruct defaultBulletSequence |]; discriminate)
    end.
    cbn. intros Hnil. apply map_eq_nil in Hnil. contradiction.
  - exact Hf'.
Qed.

(** *** The digit table and the base control *)

Lemma digitsMatchBase_shape (els els' : Elements) :
  baseShape els' = baseShape els -> digitsMatchBase els -> digitsMatchBase els'.
Proof.
  unfold baseShape, digitsMatchBase. intros H.
  injection H as Hb Hr.
  destruct (el_customOrderedBase els') as [f' |], (el_customOrderedBase els) as [f |];
    try discriminate; try exact (fun _ => I).
  destruct (el_orderedSequenceList els') as [r' |], (el_orderedSequenceList els) as [r |];
    try discriminate; try exact (fun _ => I).
  cbn in Hb, Hr. injection Hb as ->. injection Hr as ->. exact (fun H => H).
Qed.

(** The sanitizer reads back what the engine prints for a sanitized
    base. *)
Lemma sanitizeOrderedBase_printed (x : jsvalue) :
  (forall z, (2 <= z <= 10)%Z -> StringToNumber (NumberToString (ofZ z)) = ofZ z) ->
  sanitizeOrderedBase (VStr (NumberToString (sanitizeOrderedBase x))) =
  sanitizeOrderedBase x.
Proof.
  intros Hhost. destruct (sanitizeOrderedBase_range x) as [z [Hz ->]].
  rewrite (sanitizeOrderedBase_ToNumber _ (VNum (ofZ z))).
  - now apply sanitizeOrderedBase_fixes_range.
  - cbn. now apply Hhost.
Qed.

Lemma gatherTheme_digitsMatchBase (els : Elements) :
  (forall z, (2 <= z <= 10)%Z -> StringToNumber (NumberToString (ofZ z)) = ofZ z) ->
  digitsMatchBase els -> digitsMatchBase (snd (gatherTheme els)).
Proof.
  intros Hhost. unfold gatherTheme. cbn [snd]. unfold digitsMatchBase.
  destruct (el_customOrderedBase els) as [f |] eqn:E;
    cbn [el_customOrderedBase set_el_customOrderedBase el_orderedSequenceList f_value];
    rewrite ?E; auto.
  destruct (el_orderedSequenceList els); auto.
  now rewrite sanitizeOrderedBase_printed.
Qed.

Lemma updateStatus_baseShape (text : jsstring) (variant : Variant) (els : Elements) :
  baseShape (updateStatus text variant els) = baseShape els.
Proof.
  unfold updateStatus. now destruct (el_previewStatus els).
Qed.

Lemma setDownloadDisabled_baseShape (d : bool) (els : Elements) :
  baseShape (setDownloadDisabled d els) = baseShape els.
Proof.
  unfold setDownloadDisabled. now destruct (el_btnDownload els).
Qed.

Lemma runPreview_digitsMatchBase (w : World) :
  (forall z, (2 <= z <= 10)%Z -> StringToNumber (NumberToString (ofZ z)) = ofZ z) ->
  digitsMatchBase (elements w) -> digitsMatchBase (elements (runPreview w)).
Proof.
  intros Hhost H. unfold runPreview.
  destruct (configured (preview urls)); [| exact H].
  pose proof (gatherTheme_digitsMatchBase (elements w) Hhost H) as Hg.
  destruct (gatherTheme (elements w)) as [theme els]. cbn in Hg |- *.
  exact (digitsMatchBase_shape _ _ (updateStatus_baseShape _ _ els) Hg).
Qed.

Lemma downloadPdf_digitsMatchBase (w : World) :
  (forall z, (2 <= z <= 10)%Z -> StringToNumber (NumberToString (ofZ z)) = ofZ z) ->
  digitsMatchBase (elements w) -> digitsMatchBase (elements (downloadPdf w)).
Proof.
  intros Hhost H. unfold downloadPdf.
  destruct (configured (pdf urls)); [| exact H].
  pose proof (gatherTheme_digitsMatchBase (elements w) Hhost H) as Hg.
  destruct (gatherTheme (elements w)) as [theme els]. cbn [snd] in Hg. cbv zeta.
  match goal with
  | |- context [toggleLoading true ?x] =>
      destruct (toggleLoading_pipeline true x) as [_ [_ Hel]];
      revert Hel; generalize (toggleLoading true x)
  end.
  intros [ov w1] Hel. cbn in Hel |- *. rewrite Hel.
  exact (digitsMatchBase_shape _ _ (setDownloadDisabled_baseShape true els) Hg).
Qed.

Lemma runPreviewSettled_baseShape (serial : nat) (o : Outcome PreviewData) (w : World) :
  baseShape (elements (runPreviewSettled serial o w)) = baseShape (elements w).
Proof.
  unfold runPreviewSettled, previewCatch, updateStatus.
  destruct o; cbv zeta; cases; reflexivity.
Qed.

Lemma downloadPdfSettled_baseShape (ov : bool) (o : Outcome Blob) (ts : jsstring)
    (w : World) :
  baseShape (elements (downloadPdfSettled ov o ts w)) = baseShape (elements w).
Proof.
  unfold downloadPdfSettled, exportFinally, exportCatch, toggleLoading,
    setDownloadDisabled.
  destruct o, ov; cbv zeta; cases; reflexivity.
Qed.

Lemma updateCustomControlsState_baseShape (els : Elements) :
  baseShape (updateCustomControlsState els) = baseShape els.
Proof.
  destruct (updateCustomControlsState_fields els) as [_ [Ho [Hb _]]].
  cbv zeta in Ho, Hb. unfold baseShape. rewrite Ho, Hb.
  destruct (el_customOrderedBase els), (el_orderedSequenceList els); cbn;
    rewrite ?length_map; reflexivity.
Qed.

Lemma updateBulletRemoveButtons_baseShape (els : Elements) :
  baseShape (updateBulletRemoveButtons els) = baseShape els.
Proof.
  unfold updateBulletRemoveButtons. now destruct (el_bulletSequenceList els).
Qed.

Lemma renderOrderedSequence_base (baseValue : jsvalue) (values : list jsstring)
    (els : Elements) :
  el_customOrderedBase (renderOrderedSequence baseValue values els) =
  el_customOrderedBase els.
Proof.
  unfold renderOrderedSequence. now destruct (el_orderedSequenceList els).
Qed.

(** Either listener of the base control leaves the table with as many
    rows as the control's base, whatever the table was. *)
Lemma onBaseEdited_digitsMatchBase (commit : bool) (w w' : World) :
  (commit = true ->
   forall z, (2 <= z <= 10)%Z -> StringToNumber (NumberToString (ofZ z)) = ofZ z) ->
  onBaseEdited commit w = Some w' ->
  digitsMatchBase (elements w').
Proof.
  intros Hhost. unfold onBaseEdited.
  destruct (el_customOrderedBase (elements w)) as [f |] eqn:E; [| discriminate].
  cbv zeta. intros H. injection H as <-.
  match goal with
  | |- context [schedulePreview ?i ?x] =>
      destruct (schedulePreview_frame i x) as [_ [_ [_ [_ [-> _]]]]]
  end.
  cbn [elements set_elements].
  apply (digitsMatchBase_shape _ _ (updateCustomControlsState_baseShape _)).
  unfold digitsMatchBase.
  destruct (el_orderedSequenceList (elements w)) as [rows |] eqn:Er.
  - rewrite (renderOrderedSequence_map _ _ _ rows)
      by (destruct commit; exact Er).
    rewrite renderOrderedSequence_base.
    rewrite length_map, length_seq.
    destruct (sanitizeOrderedBase_range (VStr (f_value f))) as [z [Hz Ez]].
    destruct commit;
      cbn [el_customOrderedBase set_el_customOrderedBase f_value]; rewrite ?E.
    + rewrite sanitizeOrderedBase_printed by auto.
      rewrite Ez. now rewrite sanitizeOrderedBase_fixes_range.
    + rewrite Ez. now rewrite sanitizeOrderedBase_fixes_range.
  - unfold renderOrderedSequence.
    assert (Hn : el_orderedSequenceList
                   (if commit
                    then set_el_customOrderedBase
                           (Some {| f_value := NumberToString
                                      (sanitizeOrderedBase (VStr (f_value f)));
                                    f_disabled := f_disabled f |})
                           (elements w)
                    else elements w) = None)
      by (destruct commit; exact Er).
    rewrite Hn. cbv iota. rewrite Hn.
    match goal with |- match ?x with _ => _ end => destruct x end; exact I.
Qed.

Lemma handle_digitsMatchBase (e : Event) (w w' : World) :
  (forall z, (2 <= z <= 10)%Z -> StringToNumber (NumberToString (ofZ z)) = ofZ z) ->
  digitsMatchBase (elements w) -> handle e w = Some w' ->
  digitsMatchBase (elements w').
Proof.
  intros Hhost Hd Hh.
  destruct e; unfold handle in Hh; cbv beta iota zeta in Hh.
  - destruct (el_control (elements w) c); [| discriminate].
    injection Hh as <-. apply (digitsMatchBase_shape (elements w)); [| exact Hd].
    match goal with
    | |- context [schedulePreview ?i ?x] =>
        destruct (schedulePreview_frame i x) as [_ [_ [_ [_ [-> _]]]]]
    end.
    reflexivity.
  - destruct (typeInto v (el_customOrderedPrefix (elements w))); [| discriminate].
    injection Hh as <-. apply (digitsMatchBase_shape (elements w)); [| exact Hd].
    match goal with
    | |- context [schedulePreview ?i ?x] =>
        destruct (schedulePreview_frame i x) as [_ [_ [_ [_ [-> _]]]]]
    end.
    reflexivity.
  - destruct (typeInto v (el_customOrderedSuffix (elements w))); [| discriminate].
    injection Hh as <-. apply (digitsMatchBase_shape (elements w)); [| exact Hd].
    match goal with
    | |- context [schedulePreview ?i ?x] =>
        destruct (schedulePreview_frame i x) as [_ [_ [_ [_ [-> _]]]]]
    end.
    reflexivity.
  - destruct (el_bulletSequenceList (elements w)) as [rows |]; [| discriminate].
    destruct (nth_error rows i) as [row |]; [| discriminate].
    destruct (b_inputDisabled row); [discriminate |].
    injection Hh as <-. apply (digitsMatchBase_shape (elements w)); [| exact Hd].
    match goal with
    | |- context [schedulePreview ?i ?x] =>
        destruct (schedulePreview_frame i x) as [_ [_ [_ [_ [-> _]]]]]
    end.
    reflexivity.
  - destruct (el_orderedSequenceList (elements w)) as [rows |] eqn:E; [| discriminate].
    destruct (nth_error rows i) as [row |]; [| discriminate].
    destruct (o_disabled row); [discriminate |].
    injection Hh as <-. apply (digitsMatchBase_shape (elements w)); [| exact Hd].
    match goal with
    | |- context [schedulePreview ?i ?x] =>
        destruct (schedulePreview_frame i x) as [_ [_ [_ [_ [-> _]]]]]
    end.
    unfold baseShape. cbn. rewrite E. cbn. now rewrite length_updateAt.
  - destruct (el_toggleCustomBullets (elements w)); [| discriminate].
    injection Hh as <-. apply (digitsMatchBase_shape (elements w)); [| exact Hd].
    match goal with
    | |- context [schedulePreview ?i ?x] =>
        destruct (schedulePreview_frame i x) as [_ [_ [_ [_ [-> _]]]]]
    end.
    cbn [elements set_elements]. now rewrite updateCustomControlsState_baseShape.
  - destruct (el_toggleCustomOrdered (elements w)); [| discriminate].
    injection Hh as <-. apply (digitsMatchBase_shape (elements w)); [| exact Hd].
    match goal with
    | |- context [schedulePreview ?i ?x] =>
        destruct (schedulePreview_frame i x) as [_ [_ [_ [_ [-> _]]]]]
    end.
    cbn [elements set_elements]. now rewrite updateCustomControlsState_baseShape.
  - destruct (typeInto v (el_customOrderedBase (elements w))); [| discriminate].
    apply onBaseEdited_digitsMatchBase in Hh; [exact Hh | discriminate].
  - destruct (el_customOrderedBase (elements w)) as [f |]; [| discriminate].
    destruct (f_disabled f); [discriminate |].
    apply onBaseEdited_digitsMatchBase in Hh; [exact Hh | intros _; exact Hhost].
  - destruct (el_btnAddBullet (elements w)) as [[|] |]; try discriminate.
    injection Hh as <-. apply (digitsMatchBase_shape (elements w)); [| exact Hd].
    match goal with
    | |- context [schedulePreview ?i ?x] =>
        destruct (schedulePreview_frame i x) as [_ [_ [_ [_ [-> _]]]]]
    end.
    cbn [elements set_elements]. rewrite updateBulletRemoveButtons_baseShape.
    unfold addBulletRow. now destruct (el_bulletSequenceList (elements w)).
  - destruct (el_bulletSequenceList (elements w)) as [rows |]; [| discriminate].
    destruct (nth_error rows i) as [row |]; [| discriminate].
    destruct (b_removeDisabled row); [discriminate |].
    injection Hh as <-. apply (digitsMatchBase_shape (elements w)); [| exact Hd].
    match goal with
    | |- context [schedulePreview ?i ?x] =>
        destruct (schedulePreview_frame i x) as [_ [_ [_ [_ [-> _]]]]]
    end.
    cbn [elements set_elements]. now rewrite updateBulletRemoveButtons_baseShape.
  - destruct (el_btnPreview (elements w)); [| discriminate].
    injection Hh as <-. apply (digitsMatchBase_shape (elements w)); [| exact Hd].
    now destruct (schedulePreview_frame true w) as [_ [_ [_ [_ [-> _]]]]].
  - destruct (el_btnDownload (elements w)) as [[|] |]; try discriminate.
    injection Hh as <-. now apply downloadPdf_digitsMatchBase.
  - injection Hh as <-. exact Hd.
  - destruct (find (fun t => fst t =? id) (timers w)) as [[j due] |]; [| discriminate].
    destruct (due <=? clock w); [| discriminate].
    injection Hh as <-. now apply runPreview_digitsMatchBase.
  - destruct (existsb (Nat.eqb serial) (previewWaiting w)); [| discriminate].
    injection Hh as <-. apply (digitsMatchBase_shape (elements w)); [| exact Hd].
    rewrite runPreviewSettled_baseShape. reflexivity.
  - destruct (find (fun x => fst x =? ticket) (exportWaiting w)) as [[n ov] |];
      [| discriminate].
    injection Hh as <-. apply (digitsMatchBase_shape (elements w)); [| exact Hd].
    rewrite downloadPdfSettled_baseShape. reflexivity.
Qed.

(** X16. The digit table follows the base control. Once the table has as
    many rows as the sanitized base of the control, it keeps doing so along
    every run, and the theme gathered then has one digit for each row
    shown. This needs the engine to read back as [z] the string it prints
    for an integer [z] from 2 to 10, since gathering and the "change"
    listener write the sanitized base into the control. *)
Theorem digit_table_follows_base (events : list Event) (w w' : World) :
  (forall z, (2 <= z <= 10)%Z -> StringToNumber (NumberToString (ofZ z)) = ofZ z) ->
  digitsMatchBase (elements w) ->
  run events w = Some w' ->
  digitsMatchBase (elements w')
  /\ forall f rows,
       el_customOrderedBase (elements w') = Some f ->
       el_orderedSequenceList (elements w') = Some rows ->
       length (customOrderedDigits (fst (gatherTheme (elements w')))) = length rows.
Proof.
  intros Hhost Hd Hr.
  assert (Hd' : digitsMatchBase (elements w')).
  { revert Hd Hr. apply (run_invariant (fun x => digitsMatchBase (elements x))).
    intros e x x'. apply handle_digitsMatchBase. exact Hhost. }
  split; [exact Hd' |].
  intros f rows Ef Er. unfold digitsMatchBase in Hd'. rewrite Ef, Er in Hd'.
  unfold gatherTheme. cbn [fst customOrderedDigits].
  rewrite ensureOrderedDigits_length, Ef. symmetry. exact Hd'.
Qed.

Lemma nth_error_Some_length (A : Type) (l : list A) (i : nat) (x : A) :
  nth_error l i = Some x -> i < length l.
Proof.
  intros H. apply nth_error_Some. congruence.
Qed.

(** X17. Editing the base resizes the digit table and keeps what was
    typed: after "input" on the base control with the text [v], the table
    has as many rows as [v] sanitized, between 2 and 10, whatever it had
    before; a row that was there before is given its former value
    trimmed, a new row the default digit of its position, or nothing if
    there is none; a row being a text input, it shows what it is given
    without line feeds and carriage returns. The control keeps the text
    typed. *)
Theorem base_input_resizes_table (v : jsstring) (w w' : World) (rows0 : list OrderedRow) :
  el_orderedSequenceList (elements w) = Some rows0 ->
  handle (BaseInput v) w = Some w' ->
  exists rows,
    el_orderedSequenceList (elements w') = Some rows
    /\ length rows = loopCount (sanitizeOrderedBase (VStr v))
    /\ 2 <= length rows <= 10
    /\ (forall i row,
          nth_error rows i = Some row ->
          o_value row =
          stripNewlines
            match nth_error rows0 i with
            | Some row0 => trim (o_value row0)
            | None => nth i defaultOrderedDigits []
            end)
    /\ option_map f_value (el_customOrderedBase (elements w')) = Some v.
Proof.
  intros Er Hh.
  unfold handle in Hh; cbv beta iota zeta in Hh.
  unfold typeInto in Hh.
  destruct (el_customOrderedBase (elements w)) as [f |] eqn:E; [| discriminate].
  destruct (f_disabled f) eqn:Ed; [discriminate |].
  unfold onBaseEdited in Hh. cbn [elements set_elements el_customOrderedBase
                                  set_el_customOrderedBase] in Hh.
  cbv zeta in Hh. injection Hh as <-.
  match goal with
  | |- context [schedulePreview ?i ?x] =>
      destruct (schedulePreview_frame i x) as [_ [_ [_ [_ [Hel _]]]]]
  end.
  rewrite Hel. cbn [elements set_elements].
  match goal with
  | |- context [updateCustomControlsState ?x] =>
      destruct (updateCustomControlsState_fields x) as [_ [Ho [Hb _]]]
  end.
  cbv zeta in Ho, Hb.
  rewrite (renderOrderedSequence_map _ _ _ rows0) in Ho by exact Er.
  cbn [option_map] in Ho.
  rewrite renderOrderedSequence_base in Hb.
  cbn [el_customOrderedBase set_el_customOrderedBase setFieldDisabled f_value] in Hb.
  rewrite Hb. clear Hb.
  eexists. split; [exact Ho |].
  rewrite !length_map, length_seq.
  destruct (sanitizeOrderedBase_range (VStr v)) as [z [Hz Ez]].
  cbn [f_value]. rewrite Ez, sanitizeOrderedBase_fixes_range by exact Hz.
  rewrite loopCount_ofZ.
  split; [reflexivity |]. split; [lia |]. split; [| reflexivity].
  - intros i row Hrow. rewrite map_map in Hrow.
    assert (Hi : i < Z.to_nat z).
    { pose proof (nth_error_Some_length _ _ _ _ Hrow) as Hl.
      now rewrite length_map, length_seq in Hl. }
    rewrite nth_error_map_seq in Hrow by exact Hi.
    injection Hrow as <-. cbn [o_value].
    unfold readOrderedSequence. cbn [el_orderedSequenceList set_el_customOrderedBase].
    rewrite Er.
    f_equal. destruct (nth_error rows0 i) as [row0 |] eqn:En.
    + apply nth_error_nth. now rewrite nth_error_map, En.
    + apply nth_overflow. rewrite length_map. now apply nth_error_None.
Qed.
End Workspace.

(** * The script on the sample page *)

#[local] Abbreviation sanitize :=
  (sanitizeOrderedBase Sample.StringToNumber Sample.defaultTheme).
#[local] Abbreviation render :=
  (renderOrderedSequence Sample.StringToNumber Sample.defaultTheme).
#[local] Abbreviation gather :=
  (gatherTheme Sample.StringToNumber Sample.NumberToString Sample.defaultTheme).
#[local] Abbreviation ensure := (ensureOrderedDigits Sample.defaultTheme).
#[local] Abbreviation settled :=
  (runPreviewSettled Sample.NumberToString Sample.defaultTheme).
#[local] Abbreviation handle' :=
  (handle Sample.StringToNumber Sample.NumberToString Sample.defaultTheme
     Sample.urls).
#[local] Abbreviation run' :=
  (run Sample.StringToNumber Sample.NumberToString Sample.defaultTheme
     Sample.urls).
#[local] Abbreviation after' :=
  (after Sample.StringToNumber Sample.NumberToString Sample.defaultTheme
     Sample.urls).

(** Two previews are sent, with serials 1 and 2, and none is answered. *)
#[local] Abbreviation twoInFlight :=
  (after' [ClickPreview; TimerFires 1; Input CMarkdown (lit "# Hello!");
           Elapse 280; TimerFires 2] Sample.world).

(** The sanitizer on a numeral in range, above it, below it, on text that
    is no number, and on no value at all. *)
Example sanitizeOrderedBase_examples :
  sanitize (VStr (lit "7")) = ofZ 7
  /\ sanitize (VStr (lit "12")) = ofZ 10
  /\ sanitize (VStr (lit "0")) = ofZ 2
  /\ sanitize (VNum (Fin (5 # 2))) = ofZ 3
  /\ sanitize (VStr (lit "abc")) = ofZ 3
  /\ sanitize VUndefined = DEFAULT_ORDERED_BASE Sample.StringToNumber Sample.defaultTheme.
Proof.
  repeat split; vm_compute; reflexivity.
Qed.

(** A candidate with white space around it, a blank one with a default,
    a missing one with a default, a missing one without. *)
Example ensureOrderedDigits_example :
  ensure [lit " a "; lit " "] (ofZ 4) = [lit "a"; lit "1"; lit "2"; lit "3"].
Proof.
  reflexivity.
Qed.

(** C10, where the claim fails: with the default digits [""] and [" "]
    and no value, the empty default is skipped for the index, but the
    default that holds white space only is not the empty string and is
    emitted as it is: a blank default is emitted. *)
Lemma blank_default_is_emitted :
  let defaults := Sample.themeWithDigits (Some [[]; lit " "]) in
  nth_error (defaultOrderedDigits defaults) 1 = Some (lit " ")
  /\ blank (lit " ") = true
  /\ ensureOrderedDigits defaults [] (ofZ 3) = [lit "0"; lit " "; lit "2"]
  /\ nth_error (ensureOrderedDigits defaults [] (ofZ 3)) 1 <> Some (String_nat 1).
Proof.
  cbv zeta. split; [reflexivity |]. split; [reflexivity |].
  split; [reflexivity | discriminate].
Qed.

(** The amended C10 on a base that is no integer: the loop runs for the
    indices 0, 1 and 2; the blank candidate of position 1 gives way to the
    default "1", and position 2, past the values, gets the default "2". *)
Lemma ensureOrderedDigits_nonEmpty_witness :
  Fin (5 # 2) <> PosInf
  /\ Forall (fun digit => digit <> [])
       (ensure [lit "a"; lit " "] (Fin (5 # 2)))
  /\ nth_error (ensure [lit "a"; lit " "] (Fin (5 # 2))) 1 = Some (lit "1").
Proof.
  assert (H : Fin (5 # 2) <> PosInf) by discriminate.
  split; [exact H |].
  destruct (ensureOrderedDigits_nonEmpty Sample.defaultTheme
              [lit "a"; lit " "] (Fin (5 # 2)) H) as [Hall Hblank].
  split; [exact Hall |].
  refine (eq_trans (Hblank 1 _ _) _).
  - vm_compute. repeat constructor.
  - reflexivity.
  - reflexivity.
Defined.

(** The sample page: the toggle is checked, the only bullet row is blank. *)
Example gatherTheme_blank_bullets :
  el_toggleCustomBullets Sample.page = Some true
  /\ readBulletSequence Sample.page = []
  /\ useCustomBullets (fst (gather Sample.page)) = false
  /\ customOrderedDigits (fst (gather Sample.page)) = [lit "0"; lit "1"; lit "2"]
  /\ customOrderedBase (fst (gather Sample.page)) = 3.
Proof.
  repeat split; vm_compute; reflexivity.
Qed.

(** C3, the scenario of the specification: the default digits are "0",
    "1", "2" and the table is rendered against base 5 with the prior
    values "0", "1", "2". The rows 3 and 4 have no prior value and no
    default: their value is the empty string, not "3" and "4". *)
Lemma render_leaves_rows_beyond_prior_empty :
  let els := render (VNum (ofNat 5)) [lit "0"; lit "1"; lit "2"] Sample.page in
  nth_error (defaultOrderedDigits Sample.defaultTheme) 3 = None
  /\ nth_error (defaultOrderedDigits Sample.defaultTheme) 4 = None
  /\ orderedRowValues els = [lit "0"; lit "1"; lit "2"; []; []]
  /\ orderedRowValues els <> [lit "0"; lit "1"; lit "2"; lit "3"; lit "4"]
  /\ option_map (map o_placeholder) (el_orderedSequenceList els)
     = Some [lit "0"; lit "1"; lit "2"; lit "3"; lit "4"].
Proof.
  cbv zeta. repeat split; try (vm_compute; reflexivity).
  vm_compute. discriminate.
Qed.

(** The same through the listener of the base control: the user types 5. *)
Example base_input_leaves_new_rows_empty :
  option_map (fun w => orderedRowValues (elements w))
    (handle' (BaseInput (lit "5")) Sample.world)
  = Some [lit "0"; lit "1"; lit "2"; []; []].
Proof.
  vm_compute. reflexivity.
Qed.

(** A row is a text input: of the value "a", line feed, "b" it shows
    "ab", and of a lone carriage return nothing. *)
Example render_strips_line_breaks :
  orderedRowValues
    (render (VNum (ofNat 3)) [[97; 10; 98]%N; lit "1"; [13]%N] Sample.page)
  = [lit "ab"; lit "1"; []]
  /\ bulletRowValues (renderBulletSequence Sample.defaultTheme [[97; 10; 98]%N]
                        Sample.page)
     = [lit "ab"].
Proof.
  split; vm_compute; reflexivity.
Qed.

(** The amended C3 on the scenario. *)
Lemma renderOrderedSequence_rows_witness :
  2 <= 5 <= 10
  /\ el_orderedSequenceList Sample.page
     = Some [Sample.digitRow 0 (lit "0"); Sample.digitRow 1 (lit "1");
             Sample.digitRow 2 (lit "2")]
  /\ (let els := render (VNum (ofNat 5)) [lit "0"; lit "1"; lit "2"] Sample.page in
      length (orderedRowValues els) = 5
      /\ nth_error (orderedRowValues els) 1 = Some (lit "1")
      /\ nth_error (orderedRowValues els) 4 = Some []).
Proof.
  assert (Hb : 2 <= 5 <= 10) by (split; repeat constructor).
  assert (Hrows : el_orderedSequenceList Sample.page
                  = Some [Sample.digitRow 0 (lit "0"); Sample.digitRow 1 (lit "1");
                          Sample.digitRow 2 (lit "2")]) by reflexivity.
  split; [exact Hb |]. split; [exact Hrows |].
  destruct (renderOrderedSequence_rows Sample.StringToNumber Sample.defaultTheme
              5 [lit "0"; lit "1"; lit "2"] Sample.page _ Hb Hrows)
    as [Hlen [Hprior [Hbeyond _]]].
  split; [exact Hlen |]. split.
  - apply (Hprior 1); repeat constructor.
  - apply (Hbeyond 4); repeat constructor.
Defined.

(** C1 on the sample page: the requests 1 and 2 are in flight, the
    result of 2 arrives and is applied, the user goes on editing, then
    the result of 1 arrives. *)
Lemma stale_success_is_discarded_witness :
  1 < 2
  /\ activePreviewSerial twoInFlight = 2
  /\ (let w2 := settled 2 (HttpSuccess Sample.secondResult) twoInFlight in
      let w3 := after' [Elapse 40; Input CTitle (lit "Notes 2")] w2 in
      run' [Elapse 40; Input CTitle (lit "Notes 2")] w2 = Some w3
      /\ el_previewOutput (elements w2) = Some (lit "<h1>Hello!</h1>")
      /\ settled 1 (HttpSuccess Sample.firstResult) w3 = w3
      /\ settled 1 (HttpSuccess Sample.firstResult) w2 = w2).
Proof.
  assert (Hlt : 1 < 2) by repeat constructor.
  assert (Hs : activePreviewSerial twoInFlight = 2) by reflexivity.
  assert (Hrun :
            run' [Elapse 40; Input CTitle (lit "Notes 2")]
              (settled 2 (HttpSuccess Sample.secondResult) twoInFlight)
            = Some (after' [Elapse 40; Input CTitle (lit "Notes 2")]
                      (settled 2 (HttpSuccess Sample.secondResult)
                         twoInFlight)))
    by (vm_compute; reflexivity).
  split; [exact Hlt |]. split; [exact Hs |]. cbv zeta.
  split; [exact Hrun |].
  destruct (stale_success_is_discarded Sample.StringToNumber Sample.NumberToString
              Sample.defaultTheme Sample.urls twoInFlight _ 1 2
              Sample.firstResult Sample.secondResult _ Hlt Hs Hrun)
    as [Ho [_ [H3 H2]]].
  split; [exact Ho |]. split; [exact H3 | exact H2].
Defined.

(** C2, the failing run: the requests 1 and 2 are in flight; the result
    of 2 arrives and is applied, and the status line says so; then request
    1 is answered with HTTP 500. The surface still shows the result of 2,
    but the status line now shows the error of the stale request. *)
Lemma stale_error_overwrites_status :
  let w2 :=
    after' [PreviewSettles 2 (HttpSuccess Sample.secondResult)]
      twoInFlight in
  let w3 := after' [PreviewSettles 1 (HttpFailure 500 (Member VUndefined))] w2 in
  activePreviewSerial w2 = 2
  /\ el_previewStatus (elements w2)
     = Some {| s_textContent := MSG_APPLIED; s_isLoading := false; s_isError := false |}
  /\ activePreviewSerial w3 = 2
  /\ el_previewOutput (elements w3) = Some (lit "<h1>Hello!</h1>")
  /\ el_previewStatus (elements w3)
     = Some {| s_textContent := MSG_PREVIEW_FAILED ++ lit "500)";
               s_isLoading := false;
               s_isError := true |}.
Proof.
  cbv zeta. repeat split; vm_compute; reflexivity.
Qed.

(** C8 on the sample page: the user edits the title, 100 ms later the
    markdown; 280 ms after that the timeout fires. One request goes out,
    with the title and the markdown as they are then. *)
Lemma debounce_collapses_burst_witness :
  let e1 := Input CTitle (lit "Draft") in
  let e2 := Input CMarkdown (lit "# Hello, world") in
  let w1 := after' [e1] Sample.world in
  let w1' := after' [Elapse 100] w1 in
  let w2 := after' [e2] w1' in
  let w3 := after' [Elapse 280; TimerFires 2] w2 in
  timersOk Sample.world
  /\ handle' e1 Sample.world = Some w1
  /\ run' [Elapse 100] w1 = Some w1'
  /\ clock w1' < clock Sample.world + delayOf false
  /\ handle' e2 w1' = Some w2
  /\ run' [Elapse 280; TimerFires 2] w2 = Some w3
  /\ timers w2 = [(2, 380)]
  /\ previewFetches w2 = []
  /\ timers w3 = []
  /\ map (fun x => (fst x, r_title (snd x), r_markdown (snd x))) (previewFetches w3)
     = [(1, lit "Draft", lit "# Hello, world")].
Proof.
  cbv zeta.
  assert (Hurl : configured (preview Sample.urls) = Some (lit "/api/preview/"))
    by reflexivity.
  assert (Hok : timersOk Sample.world) by (left; reflexivity).
  assert (Hh1 : handle' (Input CTitle (lit "Draft")) Sample.world
                = Some (after' [Input CTitle (lit "Draft")] Sample.world))
    by (vm_compute; reflexivity).
  assert (Hgap : Forall (fun e => schedules e = None) [Elapse 100])
    by (repeat constructor).
  assert (Hr1 : run' [Elapse 100] (after' [Input CTitle (lit "Draft")] Sample.world)
                = Some (after' [Elapse 100]
                          (after' [Input CTitle (lit "Draft")] Sample.world)))
    by (vm_compute; reflexivity).
  assert (Hwin : clock (after' [Elapse 100]
                          (after' [Input CTitle (lit "Draft")] Sample.world))
                 < clock Sample.world + delayOf false)
    by (vm_compute; repeat constructor).
  assert (Hh2 : handle' (Input CMarkdown (lit "# Hello, world"))
                  (after' [Elapse 100]
                     (after' [Input CTitle (lit "Draft")] Sample.world))
                = Some (after' [Input CMarkdown (lit "# Hello, world")]
                          (after' [Elapse 100]
                             (after' [Input CTitle (lit "Draft")] Sample.world))))
    by (vm_compute; reflexivity).
  assert (Hq : Forall (fun e => schedules e = None) [Elapse 280; TimerFires 2])
    by (repeat constructor).
  assert (Hr2 : run' [Elapse 280; TimerFires 2]
                  (after' [Input CMarkdown (lit "# Hello, world")]
                     (after' [Elapse 100]
                        (after' [Input CTitle (lit "Draft")] Sample.world)))
                = Some (after' [Elapse 280; TimerFires 2]
                          (after' [Input CMarkdown (lit "# Hello, world")]
                             (after' [Elapse 100]
                                (after' [Input CTitle (lit "Draft")]
                                   Sample.world)))))
    by (vm_compute; reflexivity).
  destruct (debounce_collapses_burst Sample.StringToNumber Sample.NumberToString
              Sample.defaultTheme Sample.urls _ _ _ _ _ _
              (Input CTitle (lit "Draft")) (Input CMarkdown (lit "# Hello, world"))
              false false _ _
              Hurl Hok eq_refl Hh1 Hgap Hr1 Hwin eq_refl Hh2 Hq Hr2)
    as [_ [T2 [F2 _]]].
  split; [exact Hok |]. split; [exact Hh1 |]. split; [exact Hr1 |].
  split; [exact Hwin |]. split; [exact Hh2 |]. split; [exact Hr2 |].
  split; [refine (eq_trans T2 _); vm_compute; reflexivity |].
  split; [refine (eq_trans F2 _); vm_compute; reflexivity |].
  split; vm_compute; reflexivity.
Defined.

(** C9, where the claim fails: the server answers the export with HTTP
    500 and the body [{"error": ""}]. The alert does not show that (empty)
    error message but the generic one with the status. *)
Lemma empty_error_alerts_generic_message :
  let w :=
    after'
      [ClickDownload;
       ExportSettles 0 (HttpFailure 500 (Member (VStr [])))
         (lit "2026-01-01T00:00:00.000Z")]
      Sample.world in
  alerts w = [MSG_PDF_FAILED ++ lit "500)"]
  /\ alerts w <> [[]]
  /\ overlay w = false
  /\ el_btnDownload (elements w) = Some false.
Proof.
  cbv zeta. repeat split; try (vm_compute; reflexivity).
  vm_compute. discriminate.
Qed.

(** The server answers the export with HTTP 500 and the body [null]:
    reading [payload.error] throws, and the alert shows the message of
    that TypeError. With a body that has no [error] member, or is no
    JSON at all, the alert shows the generic message with the status. *)
Example null_body_alerts_the_type_error :
  let thrown := lit "Cannot read properties of null (reading 'error')" in
  let stamp := lit "2026-01-01T00:00:00.000Z" in
  alerts (after' [ClickDownload;
                  ExportSettles 0 (HttpFailure 500 (NullBody thrown)) stamp]
            Sample.world) = [thrown]
  /\ alerts (after' [ClickDownload;
                     ExportSettles 0 (HttpFailure 500 (Member VUndefined)) stamp]
               Sample.world) = [MSG_PDF_FAILED ++ lit "500)"].
Proof.
  cbv zeta. split; vm_compute; reflexivity.
Qed.

(** C9 on the scenario of the specification: HTTP 500 with the body
    [{"error": "render failed"}], a preview going out in between. *)
Lemma export_cleans_up_and_alerts_witness :
  let outcome := HttpFailure 500 (Member (VStr (lit "render failed"))) in
  let timestamp := lit "2026-01-01T00:00:00.000Z" in
  let w1 := after' [ClickDownload] Sample.world in
  let w1' := after' [ClickPreview; TimerFires 1] w1 in
  let w2 := after' [ExportSettles 0 outcome timestamp] w1' in
  handle' ClickDownload Sample.world = Some w1
  /\ overlay w1 = true
  /\ el_btnDownload (elements w1) = Some true
  /\ run' [ClickPreview; TimerFires 1] w1 = Some w1'
  /\ handle' (ExportSettles 0 outcome timestamp) w1' = Some w2
  /\ overlay w2 = false
  /\ el_btnDownload (elements w2) = Some false
  /\ alerts w2 = [lit "render failed"].
Proof.
  cbv zeta.
  assert (Hurl : configured (pdf Sample.urls) = Some (lit "/api/pdf/"))
    by reflexivity.
  assert (Hc : handle' ClickDownload Sample.world
               = Some (after' [ClickDownload] Sample.world))
    by (vm_compute; reflexivity).
  assert (Hq : Forall (fun e => isExportSettles e = false) [ClickPreview; TimerFires 1])
    by (repeat constructor).
  assert (Hr : run' [ClickPreview; TimerFires 1] (after' [ClickDownload] Sample.world)
               = Some (after' [ClickPreview; TimerFires 1]
                         (after' [ClickDownload] Sample.world)))
    by (vm_compute; reflexivity).
  assert (Hs : handle'
                 (ExportSettles (length (exportFetches Sample.world))
                    (HttpFailure 500 (Member (VStr (lit "render failed"))))
                    (lit "2026-01-01T00:00:00.000Z"))
                 (after' [ClickPreview; TimerFires 1]
                    (after' [ClickDownload] Sample.world))
               = Some (after'
                         [ExportSettles 0 (HttpFailure 500 (Member (VStr (lit "render failed"))))
                            (lit "2026-01-01T00:00:00.000Z")]
                         (after' [ClickPreview; TimerFires 1]
                            (after' [ClickDownload] Sample.world))))
    by (vm_compute; reflexivity).
  destruct (export_cleans_up_and_alerts Sample.StringToNumber Sample.NumberToString
              Sample.defaultTheme Sample.urls _ _ _ _ _ _ _ _
              Hurl Hc Hq Hr Hs)
    as [Ho [Hb [Ha _]]].
  split; [exact Hc |].
  split; [vm_compute; reflexivity |]. split; [vm_compute; reflexivity |].
  split; [exact Hr |]. split; [exact Hs |].
  split; [exact Ho |]. split; [exact Hb |].
  refine (eq_trans (Ha 500 (lit "render failed") eq_refl _) _);
    [discriminate | vm_compute; reflexivity].
Defined.

(** * The further properties on the sample page *)

(** The sample engine reads back the bases it prints. *)
Lemma Sample_reads_back_bases (z : Z) :
  (2 <= z <= 10)%Z -> Sample.StringToNumber (Sample.NumberToString (ofZ z)) = ofZ z.
Proof.
  intros Hz.
  assert (H : (z = 2 \/ z = 3 \/ z = 4 \/ z = 5 \/ z = 6 \/ z = 7 \/ z = 8 \/ z = 9
               \/ z = 10)%Z) by lia.
  repeat (destruct H as [-> | H]; [vm_compute; reflexivity |]).
  subst z. vm_compute. reflexivity.
Qed.

(** The sample page after its bullet editor was rendered from no value:
    the three default bullets. *)
#[local] Abbreviation rendered :=
  (set_elements (renderBulletSequence Sample.defaultTheme [] Sample.page) Sample.world).


(** One value given: one row, enabled, that cannot be removed. *)
Lemma renderBulletSequence_rows_witness :
  el_bulletSequenceList Sample.page = Some [Sample.bulletRow (lit " ")]
  /\ el_bulletSequenceList
       (renderBulletSequence Sample.defaultTheme [lit "-"] Sample.page)
     = Some [{| b_value := lit "-"; b_inputDisabled := false;
                b_removeDisabled := true |}].
Proof.
  assert (H : el_bulletSequenceList Sample.page = Some [Sample.bulletRow (lit " ")])
    by reflexivity.
  split; [exact H |].
  exact (proj1 (renderBulletSequence_rows Sample.defaultTheme [lit "-"] Sample.page
                  _ H)).
Defined.

(** Two values through a table of five rows, the second with a line
    feed between "a" and "b". *)
Lemma ensure_after_render_and_read_witness :
  el_orderedSequenceList Sample.page
  = Some [Sample.digitRow 0 (lit "0"); Sample.digitRow 1 (lit "1");
          Sample.digitRow 2 (lit "2")]
  /\ Forall (fun d => trim d = d /\ stripNewlines d = d)
       (defaultOrderedDigits Sample.defaultTheme)
  /\ ensure
       (readOrderedSequence
          (render (VNum (ofNat 5)) [lit " x"; [97; 10; 98]%N] Sample.page))
       (sanitize (VNum (ofNat 5)))
     = ensure (map stripNewlines [lit " x"; [97; 10; 98]%N])
         (sanitize (VNum (ofNat 5))).
Proof.
  assert (H : el_orderedSequenceList Sample.page
              = Some [Sample.digitRow 0 (lit "0"); Sample.digitRow 1 (lit "1");
                      Sample.digitRow 2 (lit "2")]) by reflexivity.
  assert (Hd : Forall (fun d => trim d = d /\ stripNewlines d = d)
                 (defaultOrderedDigits Sample.defaultTheme))
    by (repeat constructor).
  split; [exact H |]. split; [exact Hd |].
  exact (proj1 (ensure_after_render_and_read Sample.StringToNumber
                  Sample.defaultTheme (VNum (ofNat 5)) [lit " x"; [97; 10; 98]%N]
                  Sample.page _ H Hd)).
Defined.

(** Gathering twice from the sample page. *)
Lemma gatherTheme_idempotent_witness :
  (forall z, (2 <= z <= 10)%Z ->
             Sample.StringToNumber (Sample.NumberToString (ofZ z)) = ofZ z)
  /\ gather (snd (gather Sample.page)) = gather Sample.page.
Proof.
  split; [exact Sample_reads_back_bases |].
  exact (gatherTheme_idempotent Sample.StringToNumber Sample.NumberToString
           Sample.defaultTheme Sample.page Sample_reads_back_bases).
Defined.

(** Two previews are sent and the second is answered. *)
Lemma preview_serials_count_up_witness :
  let events := [ClickPreview; TimerFires 1; Input CMarkdown (lit "# Hello!");
                 Elapse 280; TimerFires 2;
                 PreviewSettles 2 (HttpSuccess Sample.secondResult)] in
  serialsOk Sample.world
  /\ run' events Sample.world = Some (after' events Sample.world)
  /\ serialsOk (after' events Sample.world).
Proof.
  cbv zeta.
  assert (H0 : serialsOk Sample.world) by (repeat constructor).
  split; [exact H0 |].
  match goal with
  | |- ?R /\ _ => assert (Hrun : R) by (vm_compute; reflexivity)
  end.
  split; [exact Hrun |].
  exact (preview_serials_count_up Sample.StringToNumber Sample.NumberToString
           Sample.defaultTheme Sample.urls _ _ _ H0 Hrun).
Defined.

(** Three edits in a row, then a click on the preview button. *)
Lemma timeouts_never_overlap_witness :
  let events := [Input CTitle (lit "A"); Elapse 10; Input CTitle (lit "AB");
                 Elapse 10; BaseInput (lit "4"); ClickPreview] in
  let w' := after' events Sample.world in
  timersOk Sample.world
  /\ run' events Sample.world = Some w'
  /\ length (timers w') <= 1
  /\ forall id due, In (id, due) (timers w') -> previewTimer w' = Some id.
Proof.
  cbv zeta.
  assert (H0 : timersOk Sample.world) by (left; reflexivity).
  split; [exact H0 |].
  match goal with
  | |- ?R /\ _ => assert (Hrun : R) by (vm_compute; reflexivity)
  end.
  split; [exact Hrun |].
  exact (timeouts_never_overlap Sample.StringToNumber Sample.NumberToString
           Sample.defaultTheme Sample.urls _ _ _ H0 Hrun).
Defined.

(** The sample page without a preview URL. *)
Lemma no_preview_url_no_request_witness :
  let urls := {| preview := None; pdf := Some (lit "/api/pdf/") |} in
  let events := [ClickPreview; TimerFires 1; Input CTitle (lit "A"); Elapse 280;
                 TimerFires 2] in
  let w' := after Sample.StringToNumber Sample.NumberToString Sample.defaultTheme
              urls events Sample.world in
  configured (preview urls) = None
  /\ run Sample.StringToNumber Sample.NumberToString Sample.defaultTheme urls events
       Sample.world = Some w'
  /\ previewFetches w' = previewFetches Sample.world
  /\ activePreviewSerial w' = activePreviewSerial Sample.world.
Proof.
  cbv zeta.
  assert (H0 : configured (preview {| preview := None;
                                      pdf := Some (lit "/api/pdf/") |}) = None)
    by reflexivity.
  split; [exact H0 |].
  match goal with
  | |- ?R /\ _ => assert (Hrun : R) by (vm_compute; reflexivity)
  end.
  split; [exact Hrun |].
  exact (no_preview_url_no_request Sample.StringToNumber Sample.NumberToString
           Sample.defaultTheme _ _ _ _ H0 Hrun).
Defined.

(** An export is started and a preview goes out while it is in flight. *)
Lemma exports_never_overlap_witness :
  let events := [ClickDownload; ClickPreview; TimerFires 1] in
  let w' := after' events Sample.world in
  exportOk Sample.world
  /\ run' events Sample.world = Some w'
  /\ exportOk w'
  /\ length (exportWaiting w') <= 1
  /\ (exportWaiting w' <> [] -> handle' ClickDownload w' = None).
Proof.
  cbv zeta.
  assert (H0 : exportOk Sample.world).
  { left. split; [reflexivity |]. split; [reflexivity | discriminate]. }
  split; [exact H0 |].
  match goal with
  | |- ?R /\ _ => assert (Hrun : R) by (vm_compute; reflexivity)
  end.
  split; [exact Hrun |].
  exact (exports_never_overlap Sample.StringToNumber Sample.NumberToString
           Sample.defaultTheme Sample.urls _ _ _ H0 Hrun).
Defined.


(** Two of the three default bullets are removed. *)
Lemma bullet_editor_keeps_a_row_witness :
  let events := [RemoveBullet 0; RemoveBullet 0; ToggleBullets] in
  let w' := after' events rendered in
  bulletFloor (elements rendered)
  /\ run' events rendered = Some w'
  /\ bulletFloor (elements w')
  /\ forall values,
       bulletFloor (renderBulletSequence Sample.defaultTheme values (elements w')).
Proof.
  cbv zeta.
  assert (H0 : bulletFloor (elements rendered)).
  { split; [discriminate |]. intros H. exfalso.
    apply (proj2 (Nat.leb_le _ _)) in H. vm_compute in H. discriminate H. }
  split; [exact H0 |].
  match goal with
  | |- ?R /\ _ => assert (Hrun : R) by (vm_compute; reflexivity)
  end.
  split; [exact Hrun |].
  exact (bullet_editor_keeps_a_row Sample.StringToNumber Sample.NumberToString
           Sample.defaultTheme Sample.urls _ _ _ H0 Hrun).
Defined.

(** The base is set to 12, a preview goes out, and the base is committed. *)
Lemma digit_table_follows_base_witness :
  let events := [BaseInput (lit "12"); Elapse 280; TimerFires 1; BaseChange] in
  let w' := after' events Sample.world in
  (forall z, (2 <= z <= 10)%Z ->
             Sample.StringToNumber (Sample.NumberToString (ofZ z)) = ofZ z)
  /\ digitsMatchBase Sample.StringToNumber Sample.defaultTheme (elements Sample.world)
  /\ run' events Sample.world = Some w'
  /\ digitsMatchBase Sample.StringToNumber Sample.defaultTheme (elements w')
  /\ forall f rows,
       el_customOrderedBase (elements w') = Some f ->
       el_orderedSequenceList (elements w') = Some rows ->
       length (customOrderedDigits (fst (gather (elements w')))) = length rows.
Proof.
  cbv zeta.
  split; [exact Sample_reads_back_bases |].
  assert (H0 : digitsMatchBase Sample.StringToNumber Sample.defaultTheme
                 (elements Sample.world)) by (vm_compute; reflexivity).
  split; [exact H0 |].
  match goal with
  | |- ?R /\ _ => assert (Hrun : R) by (vm_compute; reflexivity)
  end.
  split; [exact Hrun |].
  exact (digit_table_follows_base Sample.StringToNumber Sample.NumberToString
           Sample.defaultTheme Sample.urls _ _ _ Sample_reads_back_bases H0 Hrun).
Defined.

(** The base of the sample page is lowered from 3 to 2. *)
Lemma base_input_resizes_table_witness :
  let w' := after' [BaseInput (lit "2")] Sample.world in
  el_orderedSequenceList (elements Sample.world)
  = Some [Sample.digitRow 0 (lit "0"); Sample.digitRow 1 (lit "1");
          Sample.digitRow 2 (lit "2")]
  /\ handle' (BaseInput (lit "2")) Sample.world = Some w'
  /\ exists rows,
       el_orderedSequenceList (elements w') = Some rows
       /\ length rows = loopCount (sanitize (VStr (lit "2")))
       /\ 2 <= length rows <= 10
       /\ (forall i row,
             nth_error rows i = Some row ->
             o_value row =
             stripNewlines
               match nth_error [Sample.digitRow 0 (lit "0");
                                Sample.digitRow 1 (lit "1");
                                Sample.digitRow 2 (lit "2")] i with
               | Some row0 => trim (o_value row0)
               | None => nth i (defaultOrderedDigits Sample.defaultTheme) []
               end)
       /\ option_map f_value (el_customOrderedBase (elements w')) = Some (lit "2").
Proof.
  cbv zeta.
  assert (H0 : el_orderedSequenceList (elements Sample.world)
               = Some [Sample.digitRow 0 (lit "0"); Sample.digitRow 1 (lit "1");
                       Sample.digitRow 2 (lit "2")]) by reflexivity.
  split; [exact H0 |].
  match goal with
  | |- ?R /\ _ => assert (Hrun : R) by (vm_compute; reflexivity)
  end.
  split; [exact Hrun |].
  exact (base_input_resizes_table Sample.StringToNumber Sample.NumberToString
           Sample.defaultTheme Sample.urls _ _ _ _ H0 Hrun).
Defined.
